(** * RedactFlow: the detection-and-redaction pipeline

    A shallow embedding of the pipeline nodes of RedactFlow
    (src/nodes/*.py and the capture loop of src/app.py) together with
    the properties of the pipeline that follow from the code.

    Conventions of the embedding.
    - The pipeline state is the Python dict typed by [SanitizerState]
      (src/nodes/state.py, a TypedDict with total=False).  It is a record
      with one optional field per key: [None] is an absent key.  Every
      read in the nodes is [state.get(k) or default] or [k in state], so a
      key holding Python's None behaves as an absent one.
    - Python ints are [Z].  Python floats are the rationals [Q]: the
      comparisons, [min] and [max] of the source are exact on floats; its
      products and differences are taken without rounding.
    - Python str is [string], read as a sequence of code points
      below 256.
    - The language model, the OCR service and PyMuPDF are outside the
      repository.  Their answers are parameters of the nodes (oracles);
      an answer [None] is a raised exception. *)

From Stdlib Require Import ZArith QArith Qabs Qminmax String Ascii List Lia Bool.
From stdpp Require Import base option list gmap strings.

Import ListNotations.
Local Open Scope string_scope.
Local Open Scope Z_scope.
Local Open Scope list_scope.

(** ** Python strings *)

(** [str.isspace] on one code point below 256. *)
Definition is_space (c : ascii) : bool :=
  let n := nat_of_ascii c in
  ((9 <=? n)%nat && (n <=? 13)%nat)
  || ((28 <=? n)%nat && (n <=? 32)%nat)
  || (n =? 133)%nat || (n =? 160)%nat.

Fixpoint lstrip (s : string) : string :=
  match s with
  | EmptyString => EmptyString
  | String c s' => if is_space c then lstrip s' else s
  end.

Fixpoint rstrip (s : string) : string :=
  match s with
  | EmptyString => EmptyString
  | String c s' =>
      match rstrip s' with
      | EmptyString => if is_space c then EmptyString else String c EmptyString
      | r => String c r
      end
  end.

(** [s.strip()] *)
Definition strip (s : string) : string := rstrip (lstrip s).

(** [str.lower] on one code point below 256. *)
Definition lower_char (c : ascii) : ascii :=
  let n := nat_of_ascii c in
  if ((65 <=? n)%nat && (n <=? 90)%nat)
     || ((192 <=? n)%nat && (n <=? 222)%nat && negb (n =? 215)%nat)
  then ascii_of_nat (n + 32) else c.

Fixpoint lower (s : string) : string :=
  match s with
  | EmptyString => EmptyString
  | String c s' => String (lower_char c) (lower s')
  end.

(** [str(v or "")] for an optional string value. *)
Definition str_or_empty (v : option string) : string :=
  match v with Some s => s | None => "" end.

(** Python truthiness of a string and of a list. *)
Definition truthy_str (s : string) : bool :=
  match s with EmptyString => false | _ => true end.

Definition truthy_list {A} (l : list A) : bool :=
  match l with [] => false | _ => true end.

(** [v or []] for an optional list value. *)
Definition list_or_empty {A} (v : option (list A)) : list A :=
  match v with Some l => l | None => [] end.

(** ** The data model (src/nodes/state.py) *)

Record BBox := mkBBox { x0 : Q; y0 : Q; x1 : Q; y1 : Q }.

Module PdfElement.
Record t := mk {
  element_id : Z;
  page_number : Z;
  content : string;
  bbox : BBox
}.
End PdfElement.

Module SensitiveItem.
Record t := mk {
  page_number : Z;
  content : string;
  reason : string;
  bbox : BBox
}.
End SensitiveItem.

Record SanitizerState := mkState {
  user_prompt : option string;
  pdf_path : option string;
  sensitive_data_description : option (list string);
  search_query : option string;
  page_level_pdf_elements : option (list PdfElement.t);
  word_level_pdf_elements : option (list PdfElement.t);
  sensitive_data : option (list SensitiveItem.t);
  evaluator_cycles : option Z;
  max_evaluator_cycles : option Z;
  preview_pdf_path : option string;
  final_pdf_path : option string;
  next_node : option string;
  user_approval : option string;
  industry : option string;
  jurisdiction : option string
}.

(** The empty dict. *)
Definition empty_state : SanitizerState :=
  mkState None None None None None None None None None None None None None None None.

(** [state[k] = v] and [state.pop(k, None)], one per key the nodes write. *)
Definition set_next_node (v : option string) (s : SanitizerState) :=
  mkState (user_prompt s) (pdf_path s) (sensitive_data_description s)
    (search_query s) (page_level_pdf_elements s) (word_level_pdf_elements s)
    (sensitive_data s) (evaluator_cycles s) (max_evaluator_cycles s)
    (preview_pdf_path s) (final_pdf_path s) v (user_approval s)
    (industry s) (jurisdiction s).

Definition set_user_approval (v : option string) (s : SanitizerState) :=
  mkState (user_prompt s) (pdf_path s) (sensitive_data_description s)
    (search_query s) (page_level_pdf_elements s) (word_level_pdf_elements s)
    (sensitive_data s) (evaluator_cycles s) (max_evaluator_cycles s)
    (preview_pdf_path s) (final_pdf_path s) (next_node s) v
    (industry s) (jurisdiction s).

Definition set_user_prompt (v : option string) (s : SanitizerState) :=
  mkState v (pdf_path s) (sensitive_data_description s)
    (search_query s) (page_level_pdf_elements s) (word_level_pdf_elements s)
    (sensitive_data s) (evaluator_cycles s) (max_evaluator_cycles s)
    (preview_pdf_path s) (final_pdf_path s) (next_node s) (user_approval s)
    (industry s) (jurisdiction s).

Definition set_pdf_path (v : option string) (s : SanitizerState) :=
  mkState (user_prompt s) v (sensitive_data_description s)
    (search_query s) (page_level_pdf_elements s) (word_level_pdf_elements s)
    (sensitive_data s) (evaluator_cycles s) (max_evaluator_cycles s)
    (preview_pdf_path s) (final_pdf_path s) (next_node s) (user_approval s)
    (industry s) (jurisdiction s).

Definition set_sensitive_data_description (v : option (list string))
    (s : SanitizerState) :=
  mkState (user_prompt s) (pdf_path s) v
    (search_query s) (page_level_pdf_elements s) (word_level_pdf_elements s)
    (sensitive_data s) (evaluator_cycles s) (max_evaluator_cycles s)
    (preview_pdf_path s) (final_pdf_path s) (next_node s) (user_approval s)
    (industry s) (jurisdiction s).

Definition set_search_query (v : option string) (s : SanitizerState) :=
  mkState (user_prompt s) (pdf_path s) (sensitive_data_description s)
    v (page_level_pdf_elements s) (word_level_pdf_elements s)
    (sensitive_data s) (evaluator_cycles s) (max_evaluator_cycles s)
    (preview_pdf_path s) (final_pdf_path s) (next_node s) (user_approval s)
    (industry s) (jurisdiction s).

Definition set_page_level_pdf_elements (v : option (list PdfElement.t))
    (s : SanitizerState) :=
  mkState (user_prompt s) (pdf_path s) (sensitive_data_description s)
    (search_query s) v (word_level_pdf_elements s)
    (sensitive_data s) (evaluator_cycles s) (max_evaluator_cycles s)
    (preview_pdf_path s) (final_pdf_path s) (next_node s) (user_approval s)
    (industry s) (jurisdiction s).

Definition set_word_level_pdf_elements (v : option (list PdfElement.t))
    (s : SanitizerState) :=
  mkState (user_prompt s) (pdf_path s) (sensitive_data_description s)
    (search_query s) (page_level_pdf_elements s) v
    (sensitive_data s) (evaluator_cycles s) (max_evaluator_cycles s)
    (preview_pdf_path s) (final_pdf_path s) (next_node s) (user_approval s)
    (industry s) (jurisdiction s).

Definition set_sensitive_data (v : option (list SensitiveItem.t))
    (s : SanitizerState) :=
  mkState (user_prompt s) (pdf_path s) (sensitive_data_description s)
    (search_query s) (page_level_pdf_elements s) (word_level_pdf_elements s)
    v (evaluator_cycles s) (max_evaluator_cycles s)
    (preview_pdf_path s) (final_pdf_path s) (next_node s) (user_approval s)
    (industry s) (jurisdiction s).

Definition set_evaluator_cycles (v : option Z) (s : SanitizerState) :=
  mkState (user_prompt s) (pdf_path s) (sensitive_data_description s)
    (search_query s) (page_level_pdf_elements s) (word_level_pdf_elements s)
    (sensitive_data s) v (max_evaluator_cycles s)
    (preview_pdf_path s) (final_pdf_path s) (next_node s) (user_approval s)
    (industry s) (jurisdiction s).

Definition set_max_evaluator_cycles (v : option Z) (s : SanitizerState) :=
  mkState (user_prompt s) (pdf_path s) (sensitive_data_description s)
    (search_query s) (page_level_pdf_elements s) (word_level_pdf_elements s)
    (sensitive_data s) (evaluator_cycles s) v
    (preview_pdf_path s) (final_pdf_path s) (next_node s) (user_approval s)
    (industry s) (jurisdiction s).

Definition set_preview_pdf_path (v : option string) (s : SanitizerState) :=
  mkState (user_prompt s) (pdf_path s) (sensitive_data_description s)
    (search_query s) (page_level_pdf_elements s) (word_level_pdf_elements s)
    (sensitive_data s) (evaluator_cycles s) (max_evaluator_cycles s)
    v (final_pdf_path s) (next_node s) (user_approval s)
    (industry s) (jurisdiction s).

Definition set_final_pdf_path (v : option string) (s : SanitizerState) :=
  mkState (user_prompt s) (pdf_path s) (sensitive_data_description s)
    (search_query s) (page_level_pdf_elements s) (word_level_pdf_elements s)
    (sensitive_data s) (evaluator_cycles s) (max_evaluator_cycles s)
    (preview_pdf_path s) v (next_node s) (user_approval s)
    (industry s) (jurisdiction s).

(** [state.setdefault(k, d)] *)
Definition setdefault {A} (v : option A) (d : A) : option A :=
  match v with Some a => Some a | None => Some d end.

(** ** Human gate (src/nodes/hitl_node.py) *)

Definition run_hitl (state : SanitizerState) : SanitizerState :=
  let approval := strip (str_or_empty (user_approval state)) in
  if String.eqb approval "Yes" then
    set_user_approval None (set_next_node (Some "Redactor") state)
  else if String.eqb approval "No" then
    set_user_approval None (set_next_node (Some "Orchestrator") state)
  else
    set_next_node (Some "HumanInLoop") state.

(** [route_from_hitl] of [build_sanitizer_graph] (src/nodes/orchestrator.py). *)
Definition route_from_hitl (state : SanitizerState) : string :=
  let nxt := strip (str_or_empty (next_node state)) in
  if String.eqb nxt "Redactor" then "Redactor"
  else if String.eqb nxt "Orchestrator" then "Orchestrator"
  else "HumanInLoop".

(** ** Python floats as rationals *)

(** Truthiness of a float: only zero is false. *)
Definition truthy_float (q : Q) : bool := negb (Qeq_bool q 0).

(** [min] and [max] of a non-empty sequence, first extremal element
    kept, as the builtins do. *)
Definition py_min (x : Q) (l : list Q) : Q :=
  fold_left (fun m y => if Qlt_le_dec y m then y else m) l x.

Definition py_max (x : Q) (l : list Q) : Q :=
  fold_left (fun m y => if Qlt_le_dec m y then y else m) l x.

Definition min_of (l : list Q) : option Q :=
  match l with [] => None | x :: t => Some (py_min x t) end.

Definition max_of (l : list Q) : option Q :=
  match l with [] => None | x :: t => Some (py_max x t) end.

(** ** Coordinate normalizer (src/nodes/detector_node.py) *)

(** [[polygon[i] for i in range(0, len(polygon), 2)]] *)
Fixpoint polygon_xs (polygon : list Q) : list Q :=
  match polygon with
  | [] => []
  | [x] => [x]
  | x :: _ :: rest => x :: polygon_xs rest
  end.

(** [[polygon[i + 1] for i in range(0, len(polygon), 2)]]: an odd length
    makes the last index fall outside the list (IndexError, [None]). *)
Fixpoint polygon_ys (polygon : list Q) : option (list Q) :=
  match polygon with
  | [] => Some []
  | [_] => None
  | _ :: y :: rest => option_map (cons y) (polygon_ys rest)
  end.

Definition pixel_units : list string :=
  ["pixel"; "pixelperinch"; "pixelperinch2"; "pixel/unknown"].

Definition cm_units : list string := ["cm"; "centimeter"].

Definition str_in (s : string) (l : list string) : bool :=
  existsb (String.eqb s) l.

(** 72.0 / 2.54 *)
Definition cm_to_points : Q := 72 / (254 # 100).

Definition _polygon_to_bbox_points (polygon : list Q) (unit : option string)
    (di_w di_h pdf_pt_w pdf_pt_h : Q) : option BBox :=
  let xs := if truthy_list polygon then polygon_xs polygon else [0%Q] in
  match (if truthy_list polygon then polygon_ys polygon else Some [0%Q]) with
  | None => None
  | Some ys =>
      match min_of xs, max_of xs, min_of ys, max_of ys with
      | Some min_x, Some max_x, Some min_y, Some max_y =>
          let u := lower (str_or_empty unit) in
          if String.eqb u "inch" then
            Some (mkBBox (min_x * 72) (min_y * 72) (max_x * 72) (max_y * 72))
          else if str_in u pixel_units
                  || (truthy_float di_w && truthy_float di_h) then
            let sx := if truthy_float di_w then (pdf_pt_w / di_w)%Q else 1%Q in
            let sy := if truthy_float di_h then (pdf_pt_h / di_h)%Q else 1%Q in
            Some (mkBBox (min_x * sx) (min_y * sy) (max_x * sx) (max_y * sy))
          else if str_in u cm_units then
            let k := cm_to_points in
            Some (mkBBox (min_x * k) (min_y * k) (max_x * k) (max_y * k))
          else
            Some (mkBBox min_x min_y max_x max_y)
      | _, _, _, _ => None
      end
  end.

(** ** The collaborators *)

(** One page of an Azure Document Intelligence layout result. *)
Record AzurePage := mkAzurePage {
  az_page_number : Z;
  az_width : option Q;
  az_height : option Q;
  az_unit : option string;
  az_words : list (string * list Q)
}.

(** Output schemas of the structured language-model calls. *)
Record SensitiveContentItem := mkSensitiveContentItem {
  sensitive_content : string;
  page_num : Z;
  sci_reason : string
}.

Module CoordinateMappedItem.
Record t := mk {
  page_number : Z;
  content : string;
  reason : string;
  element_ids : list Z
}.
End CoordinateMappedItem.

Record EvaluationResult := mkEvaluationResult {
  issues_found : bool;
  missing_sensitive_data : list string;
  incorrect_detections : list string;
  feedback_message : string
}.

Record OrchestratorDecision := mkOrchestratorDecision {
  od_next_node : string;
  sensitive_descriptions : list string;
  od_search_query : option string
}.

(** What the outside world answers.  The first argument of a call is the
    position of the running node in the run, so that the same request may be
    answered differently at different times.  [None] is a raised exception.
    The path builders stand for the [os.path] expressions that name the
    artifacts in the output directories. *)
Record Env := mkEnv {
  di_client_ok : bool;
  di_read : nat -> string -> option (list PdfElement.t);
  di_layout : nat -> string -> option (list AzurePage);
  pdf_page_sizes : string -> option (list (Q * Q));
  llm_content : nat -> list PdfElement.t -> list string ->
                option (list SensitiveContentItem);
  llm_mapping : nat -> list SensitiveContentItem -> list PdfElement.t ->
                option (list CoordinateMappedItem.t);
  llm_evaluate : nat -> list string -> list PdfElement.t ->
                 list SensitiveItem.t -> option EvaluationResult;
  llm_route : nat -> string -> option OrchestratorDecision;
  searcher_search : nat -> string -> option string -> option string ->
                    option (list string);
  write_ok : string -> bool;
  preview_path_of : string -> string;
  ai_redacted_path_of : string -> string;
  manual_redacted_path_of : string -> string;
  combined_path_of : string -> string
}.

(** ** Dual extraction (src/nodes/detector_node.py) *)

(** The words of one page, numbered from 1; a polygon of odd length raises. *)
Fixpoint extract_page_words (page : AzurePage) (pdf_pt_w pdf_pt_h : Q)
    (element_id : Z) (words : list (string * list Q))
    : option (list PdfElement.t) :=
  match words with
  | [] => Some []
  | (content, polygon) :: rest =>
      let di_w := match az_width page with Some w => w | None => 0%Q end in
      let di_h := match az_height page with Some h => h | None => 0%Q end in
      match _polygon_to_bbox_points polygon (az_unit page)
              di_w di_h pdf_pt_w pdf_pt_h with
      | None => None
      | Some bbox =>
          let element_id := element_id + 1 in
          option_map
            (cons (PdfElement.mk element_id (az_page_number page) content bbox))
            (extract_page_words page pdf_pt_w pdf_pt_h element_id rest)
      end
  end.

Fixpoint _extract_word_elements (azure_pages : list AzurePage)
    (sizes : list (Q * Q)) : option (list PdfElement.t) :=
  match azure_pages with
  | [] => Some []
  | page :: rest =>
      let page_index := az_page_number page - 1 in
      if (0 <=? page_index) && (page_index <? Z.of_nat (length sizes)) then
        match nth_error sizes (Z.to_nat page_index) with
        | None => None
        | Some (w, h) =>
            match extract_page_words page w h 0 (az_words page),
                  _extract_word_elements rest sizes with
            | Some here, Some there => Some (here ++ there)
            | _, _ => None
            end
        end
      else _extract_word_elements rest sizes
  end.

(** Both passes catch every exception and answer the empty list. *)
Definition _run_page_level_ocr (env : Env) (tick : nat) (pdf_path : string)
    : list PdfElement.t :=
  match di_read env tick pdf_path with
  | Some elements => elements
  | None => []
  end.

Definition _run_word_level_ocr (env : Env) (tick : nat) (pdf_path : string)
    : list PdfElement.t :=
  match di_layout env tick pdf_path, pdf_page_sizes env pdf_path with
  | Some pages, Some sizes =>
      match _extract_word_elements pages sizes with
      | Some elements => elements
      | None => []
      end
  | _, _ => []
  end.

(** [None]: [_init_di_client] raised, the credentials are not set. *)
Definition _run_dual_ocr_parallel (env : Env) (tick : nat) (pdf_path : string)
    : option (list PdfElement.t * list PdfElement.t) :=
  if di_client_ok env then
    Some (_run_page_level_ocr env tick pdf_path,
          _run_word_level_ocr env tick pdf_path)
  else None.

(** ** Detection reasoning (src/nodes/detector_node.py) *)

(** First language-model call: an exception yields no findings. *)
Definition _first_llm_content_analysis (env : Env) (tick : nat)
    (page_elements : list PdfElement.t) (descriptions : list string)
    : list SensitiveContentItem :=
  match llm_content env tick page_elements descriptions with
  | Some items => items
  | None => []
  end.

(** The dict [words_by_page]: the word entries of each page, in order.  An
    entry keeps the element id, content and box of the word; its page is the
    key. *)
Definition words_by_page (word_elements : list PdfElement.t)
    : gmap Z (list PdfElement.t) :=
  fold_left
    (fun m element =>
       let page_num := PdfElement.page_number element in
       <[page_num := default [] (m !! page_num) ++ [element]]> m)
    word_elements ∅.

(** [w["element_id"] in element_ids] *)
Definition id_in (element_ids : list Z) (w : PdfElement.t) : bool :=
  existsb (Z.eqb (PdfElement.element_id w)) element_ids.

(** The merged box of two or more words. *)
Definition merge_bboxes (b : BBox) (bs : list BBox) : BBox :=
  mkBBox (py_min (x0 b) (map x0 bs)) (py_min (y0 b) (map y0 bs))
         (py_max (x1 b) (map x1 bs)) (py_max (y1 b) (map y1 bs)).

(** The body of the loop over the mapped items; [None] is [continue]. *)
Definition map_item (wbp : gmap Z (list PdfElement.t))
    (item : CoordinateMappedItem.t) : option SensitiveItem.t :=
  let page_num := CoordinateMappedItem.page_number item in
  let element_ids := CoordinateMappedItem.element_ids item in
  if negb (truthy_list element_ids) then None
  else
    let page_words := default [] (wbp !! page_num) in
    let matching_words := List.filter (id_in element_ids) page_words in
    match matching_words with
    | [] => None
    | [w] =>
        Some (SensitiveItem.mk page_num (CoordinateMappedItem.content item)
                (CoordinateMappedItem.reason item) (PdfElement.bbox w))
    | w :: ws =>
        Some (SensitiveItem.mk page_num (CoordinateMappedItem.content item)
                (CoordinateMappedItem.reason item)
                (merge_bboxes (PdfElement.bbox w) (map PdfElement.bbox ws)))
    end.

(** Second language-model call: an exception yields no findings. *)
Definition _second_llm_coordinate_mapping (env : Env) (tick : nat)
    (sensitive_content_items : list SensitiveContentItem)
    (word_elements : list PdfElement.t) : list SensitiveItem.t :=
  let wbp := words_by_page word_elements in
  match llm_mapping env tick sensitive_content_items word_elements with
  | Some items => omap (map_item wbp) items
  | None => []
  end.

Definition _run_dual_llm_analysis (env : Env) (tick : nat)
    (page_elements word_elements : list PdfElement.t)
    (descriptions : list string) : list SensitiveItem.t :=
  let sensitive_content_items :=
    _first_llm_content_analysis env tick page_elements descriptions in
  if negb (truthy_list sensitive_content_items) then []
  else _second_llm_coordinate_mapping env tick sensitive_content_items
         word_elements.

(** ** Detector node (src/nodes/detector_node.py) *)

Definition _first_detection (env : Env) (tick : nat) (state : SanitizerState)
    (pdf_path : string) (descriptions : list string) : SanitizerState :=
  match _run_dual_ocr_parallel env tick pdf_path with
  | None => state
  | Some (page_elements, word_elements) =>
      if negb (truthy_list page_elements) || negb (truthy_list word_elements)
      then state
      else
        let state := set_page_level_pdf_elements (Some page_elements) state in
        let state := set_word_level_pdf_elements (Some word_elements) state in
        let sensitive_data :=
          _run_dual_llm_analysis env tick page_elements word_elements
            descriptions in
        set_sensitive_data (Some sensitive_data) state
  end.

Definition _feedback_detection (env : Env) (tick : nat)
    (state : SanitizerState) (descriptions : list string) : SanitizerState :=
  let page_elements := list_or_empty (page_level_pdf_elements state) in
  let word_elements := list_or_empty (word_level_pdf_elements state) in
  if negb (truthy_list page_elements) || negb (truthy_list word_elements)
  then state
  else
    let sensitive_data :=
      _run_dual_llm_analysis env tick page_elements word_elements
        descriptions in
    set_sensitive_data (Some sensitive_data) state.

Definition run_detector (env : Env) (tick : nat) (state : SanitizerState)
    : SanitizerState :=
  let pdf_path := str_or_empty (pdf_path state) in
  let descriptions := list_or_empty (sensitive_data_description state) in
  if negb (truthy_str pdf_path) then state
  else if negb (truthy_list (list_or_empty (word_level_pdf_elements state)))
          || negb (truthy_list (list_or_empty (page_level_pdf_elements state)))
  then _first_detection env tick state pdf_path descriptions
  else _feedback_detection env tick state descriptions.

(** ** Evaluator node (src/nodes/evaluator_node.py) *)

Definition run_evaluator (env : Env) (tick : nat) (state : SanitizerState)
    : SanitizerState :=
  let descriptions := list_or_empty (sensitive_data_description state) in
  let page_elements := list_or_empty (page_level_pdf_elements state) in
  let detected := list_or_empty (sensitive_data state) in
  let cycles := default 0 (evaluator_cycles state) in
  let max_cycles := default 3 (max_evaluator_cycles state) in
  let state :=
    set_evaluator_cycles (setdefault (evaluator_cycles state) 0) state in
  let state :=
    set_max_evaluator_cycles (setdefault (max_evaluator_cycles state) 3)
      state in
  if max_cycles <=? cycles then
    set_next_node (Some "HumanInLoop") state
  else if negb (truthy_list descriptions) then
    set_next_node (Some "HumanInLoop") state
  else
    match llm_evaluate env tick descriptions page_elements detected with
    | Some res =>
        if issues_found res && truthy_str (feedback_message res) then
          let state :=
            set_sensitive_data_description
              (Some (list_or_empty (sensitive_data_description state)
                     ++ [feedback_message res])) state in
          let state := set_evaluator_cycles (Some (cycles + 1)) state in
          set_next_node (Some "Detector") state
        else set_next_node (Some "HumanInLoop") state
    | None => set_next_node (Some "HumanInLoop") state
    end.

(** ** Orchestrator node (src/nodes/orchestrator.py) *)

(** [[d.strip() for d in ds if d and d.strip()]] *)
Definition clean_descriptions (ds : list string) : list string :=
  map strip
    (List.filter (fun d => truthy_str d && truthy_str (strip d)) ds).

Definition orchestrator_node (env : Env) (tick : nat) (state : SanitizerState)
    : SanitizerState :=
  let state := set_user_prompt (setdefault (user_prompt state) "") state in
  let state := set_pdf_path (setdefault (pdf_path state) "") state in
  let state :=
    set_sensitive_data_description
      (setdefault (sensitive_data_description state) []) state in
  let prompt := strip (str_or_empty (user_prompt state)) in
  if negb (truthy_str prompt) then set_next_node (Some "Detector") state
  else
    match llm_route env tick prompt with
    | Some res =>
        let desc := clean_descriptions (sensitive_descriptions res) in
        let state :=
          if truthy_list desc then
            let existing_descriptions :=
              list_or_empty (sensitive_data_description state) in
            set_sensitive_data_description
              (Some (existing_descriptions ++ desc)) state
          else state in
        if truthy_str (strip (str_or_empty (od_search_query res)))
           && String.eqb (od_next_node res) "Searcher" then
          let state :=
            set_search_query
              (Some (strip (str_or_empty (od_search_query res)))) state in
          set_next_node (Some "Searcher") state
        else set_next_node (Some "Detector") state
    | None => set_next_node (Some "Detector") state
    end.

(** ** Searcher node (src/nodes/searcher_node.py) *)

(** [list(dict.fromkeys(l))]: the first occurrence of every key, in order. *)
Fixpoint fromkeys_from (seen l : list string) : list string :=
  match l with
  | [] => []
  | k :: rest =>
      if str_in k seen then fromkeys_from seen rest
      else k :: fromkeys_from (k :: seen) rest
  end.

Definition dict_fromkeys (l : list string) : list string :=
  fromkeys_from [] l.

(** [Searcher.search(...)["descriptions"]]: the summarizer cleans the
    model's answer and swallows its exceptions. *)
Definition searcher_descriptions (env : Env) (tick : nat) (query : string)
    (industry jurisdiction : option string) : list string :=
  match searcher_search env tick query industry jurisdiction with
  | Some raw => clean_descriptions raw
  | None => []
  end.

Definition run_searcher (env : Env) (tick : nat) (state : SanitizerState)
    : SanitizerState :=
  let query := strip (str_or_empty (search_query state)) in
  if negb (truthy_str query) then state
  else
    let desc :=
      searcher_descriptions env tick query (industry state)
        (jurisdiction state) in
    let state :=
      if truthy_list desc then
        set_sensitive_data_description
          (Some (dict_fromkeys
                   (list_or_empty (sensitive_data_description state) ++ desc)))
          state
      else state in
    set_search_query None state.

(** ** Documents and the file system (PyMuPDF) *)

Inductive Annot :=
  | RedactAnnot (rect : BBox)
  | HighlightAnnot (rect : BBox).

(** A page: its content, the annotations laid over it, and the rectangles
    whose content has been destroyed by [apply_redactions]. *)
Record Page := mkPage {
  page_content : string;
  page_annots : list Annot;
  page_redacted : list BBox
}.

(** An open document remembers the file it was opened from. *)
Record Document := mkDocument {
  doc_name : string;
  doc_pages : list Page
}.

(** A raised exception or a returned value. *)
Inductive result (A : Type) :=
  | Ok (a : A)
  | Raised.
Arguments Ok {A} a.
Arguments Raised {A}.

(** [fitz.open(path)] *)
Definition fitz_open (fs : gmap string (list Page)) (path : string)
    : option Document :=
  match fs !! path with
  | Some pages => Some (mkDocument path pages)
  | None => None
  end.

(** [doc[i]]: an index at or past the page count raises; a negative one
    counts from the end. *)
Definition page_index (doc : Document) (i : Z) : option nat :=
  let n := Z.of_nat (length (doc_pages doc)) in
  if (n <=? i) || (n =? 0) then None else Some (Z.to_nat (i mod n)).

Definition add_annot (a : Annot) (p : Page) : Page :=
  mkPage (page_content p) (page_annots p ++ [a]) (page_redacted p).

Definition annotate (doc : Document) (i : nat) (a : Annot) : Document :=
  mkDocument (doc_name doc) (alter (add_annot a) i (doc_pages doc)).

Definition is_redact (a : Annot) : bool :=
  match a with RedactAnnot _ => true | HighlightAnnot _ => false end.

Definition redact_rects (annots : list Annot) : list BBox :=
  omap (fun a => match a with
                 | RedactAnnot r => Some r
                 | HighlightAnnot _ => None
                 end) annots.

(** [page.apply_redactions(...)]: every pending redaction is committed and
    its annotation removed. *)
Definition apply_redactions (p : Page) : Page :=
  mkPage (page_content p)
         (List.filter (fun a => negb (is_redact a)) (page_annots p))
         (page_redacted p ++ redact_rects (page_annots p)).

(** [doc.save(path)]: PyMuPDF refuses to overwrite the file the document
    was opened from (a non-incremental save to the original raises); the
    write itself may fail. *)
Definition doc_save (env : Env) (fs : gmap string (list Page))
    (doc : Document) (path : string) : option (gmap string (list Page)) :=
  if String.eqb path (doc_name doc) then None
  else if write_ok env path then Some (<[path := doc_pages doc]> fs)
  else None.

Definition rect_of (b : BBox) : BBox := mkBBox (x0 b) (y0 b) (x1 b) (y1 b).

(** ** Highlighter node (src/nodes/highlighter_node.py) *)

Definition highlight_items (doc : Document) (items : list SensitiveItem.t)
    : Document :=
  fold_left
    (fun doc it =>
       let page_idx := SensitiveItem.page_number it - 1 in
       if (0 <=? page_idx) && (page_idx <? Z.of_nat (length (doc_pages doc)))
       then annotate doc (Z.to_nat page_idx)
              (HighlightAnnot (rect_of (SensitiveItem.bbox it)))
       else doc)
    items doc.

Definition run_highlighter (env : Env) (fs : gmap string (list Page))
    (state : SanitizerState)
    : gmap string (list Page) * result SanitizerState :=
  let path := strip (str_or_empty (pdf_path state)) in
  let items := list_or_empty (sensitive_data state) in
  if negb (truthy_str path) || negb (truthy_list items) then (fs, Ok state)
  else
    let preview_path := preview_path_of env path in
    match fitz_open fs path with
    | None => (fs, Raised)
    | Some doc =>
        match doc_save env fs (highlight_items doc items) preview_path with
        | None => (fs, Raised)
        | Some fs' => (fs', Ok (set_preview_pdf_path (Some preview_path) state))
        end
    end.

(** ** Redactor node (src/nodes/redactor_node.py) *)

(** The loop that lays one redaction annotation per item; [doc[page_num]]
    raises on a page the document does not have. *)
Fixpoint add_redact_annots (doc : Document) (sensitive_items : list SensitiveItem.t)
    : option Document :=
  match sensitive_items with
  | [] => Some doc
  | item :: rest =>
      let page_num := SensitiveItem.page_number item - 1 in
      match page_index doc page_num with
      | None => None
      | Some i =>
          add_redact_annots
            (annotate doc i (RedactAnnot (rect_of (SensitiveItem.bbox item))))
            rest
      end
  end.

Definition apply_all_redactions (doc : Document) : Document :=
  mkDocument (doc_name doc) (map apply_redactions (doc_pages doc)).

Definition _apply_redactions_to_pdf (env : Env) (fs : gmap string (list Page))
    (pdf_path : string) (sensitive_items : list SensitiveItem.t)
    (output_path : option string) : gmap string (list Page) * result string :=
  let output_path :=
    if truthy_str (str_or_empty output_path) then str_or_empty output_path
    else ai_redacted_path_of env pdf_path in
  match fitz_open fs pdf_path with
  | None => (fs, Raised)
  | Some doc =>
      match add_redact_annots doc sensitive_items with
      | None => (fs, Raised)
      | Some doc =>
          match doc_save env fs (apply_all_redactions doc) output_path with
          | None => (fs, Raised)
          | Some fs' => (fs', Ok output_path)
          end
      end
  end.

Definition run_redactor (env : Env) (fs : gmap string (list Page))
    (state : SanitizerState)
    : gmap string (list Page) * result SanitizerState :=
  let path := strip (str_or_empty (pdf_path state)) in
  let items := list_or_empty (sensitive_data state) in
  if negb (truthy_str path) || negb (truthy_list items) then (fs, Ok state)
  else
    match _apply_redactions_to_pdf env fs path items None with
    | (fs', Ok final_path) =>
        (fs', Ok (set_final_pdf_path (Some final_path) state))
    | (fs', Raised) => (fs', Raised)
    end.

(** ** Manual redactor (src/nodes/manual_redactor_node.py) *)

(** The loop over the manual rectangles: a rectangle on a page the document
    does not have is reported on the console and skipped. *)
Definition add_manual_annots (doc : Document)
    (manual_rectangles : list SensitiveItem.t) : Document :=
  fold_left
    (fun doc rect_item =>
       let page_idx := SensitiveItem.page_number rect_item - 1 in
       if (0 <=? page_idx) && (page_idx <? Z.of_nat (length (doc_pages doc)))
       then annotate doc (Z.to_nat page_idx)
              (RedactAnnot (rect_of (SensitiveItem.bbox rect_item)))
       else doc)
    manual_rectangles doc.

Definition apply_manual_redactions (env : Env) (fs : gmap string (list Page))
    (pdf_path : string) (manual_rectangles : list SensitiveItem.t)
    : gmap string (list Page) * result string :=
  if negb (truthy_list manual_rectangles) then (fs, Ok pdf_path)
  else
    match fitz_open fs pdf_path with
    | None => (fs, Raised)
    | Some doc =>
        let doc := add_manual_annots doc manual_rectangles in
        let manual_redacted_path := manual_redacted_path_of env pdf_path in
        match doc_save env fs (apply_all_redactions doc)
                manual_redacted_path with
        | Some fs' => (fs', Ok manual_redacted_path)
        | None => (fs, Ok pdf_path)
        end
    end.

(** [os.path.exists] and [os.rename] *)
Definition path_exists (fs : gmap string (list Page)) (path : string) : bool :=
  bool_decide (is_Some (fs !! path)).

Definition os_rename (fs : gmap string (list Page)) (src dst : string)
    : gmap string (list Page) :=
  match fs !! src with
  | Some pages => <[dst := pages]> (delete src fs)
  | None => fs
  end.

Definition combine_ai_and_manual_redactions (env : Env)
    (fs : gmap string (list Page)) (ai_redacted_path : string)
    (manual_rectangles : list SensitiveItem.t)
    : gmap string (list Page) * result string :=
  if negb (truthy_list manual_rectangles) then (fs, Ok ai_redacted_path)
  else if negb (path_exists fs ai_redacted_path) then (fs, Ok ai_redacted_path)
  else
    match apply_manual_redactions env fs ai_redacted_path manual_rectangles with
    | (fs', Raised) => (fs', Raised)
    | (fs', Ok temp_path) =>
        let combined_path := combined_path_of env ai_redacted_path in
        if path_exists fs' temp_path
           && negb (String.eqb temp_path combined_path) then
          (os_rename fs' temp_path combined_path, Ok combined_path)
        else (fs', Ok temp_path)
    end.

(** ** Capture of the manual rectangles (src/app.py, [main]) *)

Definition Qlt_bool (a b : Q) : bool := negb (Qle_bool b a).

(** The test of the inner loop: same page, and both coordinates of the
    top-left corner closer than 5. *)
Definition is_duplicate_of (existing manual_item : SensitiveItem.t) : bool :=
  (SensitiveItem.page_number existing =? SensitiveItem.page_number manual_item)
  && Qlt_bool (Qabs (x0 (SensitiveItem.bbox existing)
                     - x0 (SensitiveItem.bbox manual_item))) 5
  && Qlt_bool (Qabs (y0 (SensitiveItem.bbox existing)
                     - y0 (SensitiveItem.bbox manual_item))) 5.

(** One drawn rectangle: appended unless an earlier manual rectangle is a
    duplicate of it. *)
Definition capture_rectangle (manual_rectangles : list SensitiveItem.t)
    (manual_item : SensitiveItem.t) : list SensitiveItem.t :=
  let is_duplicate :=
    existsb (fun existing => is_duplicate_of existing manual_item)
      manual_rectangles in
  if negb is_duplicate then manual_rectangles ++ [manual_item]
  else manual_rectangles.

(** The loop over the rectangles drawn on the canvas. *)
Definition capture_rectangles (manual_rectangles new_rectangles : list SensitiveItem.t)
    : list SensitiveItem.t :=
  fold_left capture_rectangle new_rectangles manual_rectangles.

(** ** The graph (src/nodes/orchestrator.py, [build_sanitizer_graph]) *)

Inductive Node :=
  | Orchestrator | Searcher | Detector | Highlighter
  | Evaluator | HumanInLoop | Redactor.

Definition Node_eqb (a b : Node) : bool :=
  match a, b with
  | Orchestrator, Orchestrator | Searcher, Searcher | Detector, Detector
  | Highlighter, Highlighter | Evaluator, Evaluator
  | HumanInLoop, HumanInLoop | Redactor, Redactor => true
  | _, _ => false
  end.

Definition route_from_orchestrator (state : SanitizerState) : string :=
  let nxt := strip (str_or_empty (next_node state)) in
  if str_in nxt ["Searcher"; "Detector"] then nxt else "Detector".

Definition route_from_evaluator (state : SanitizerState) : string :=
  let nxt := strip (str_or_empty (next_node state)) in
  if str_in nxt ["Detector"; "Highlighter"] then nxt else "Highlighter".

(** The edge tables of the conditional edges. *)
Definition orchestrator_edges (name : string) : option Node :=
  if String.eqb name "Searcher" then Some Searcher
  else if String.eqb name "Detector" then Some Detector else None.

Definition evaluator_edges (name : string) : option Node :=
  if String.eqb name "Detector" then Some Detector
  else if String.eqb name "Highlighter" then Some Highlighter else None.

Definition hitl_edges (name : string) : option Node :=
  if String.eqb name "Redactor" then Some Redactor
  else if String.eqb name "Orchestrator" then Some Orchestrator
  else if String.eqb name "HumanInLoop" then Some HumanInLoop else None.

(** One node: the new file system and state, and the node the outgoing edge
    leads to ([None] is END).  A route outside the edge table raises. *)
Definition run_node (env : Env) (tick : nat) (node : Node)
    (fs : gmap string (list Page)) (state : SanitizerState)
    : gmap string (list Page) * result (SanitizerState * option Node) :=
  match node with
  | Orchestrator =>
      let state := orchestrator_node env tick state in
      match orchestrator_edges (route_from_orchestrator state) with
      | Some nxt => (fs, Ok (state, Some nxt))
      | None => (fs, Raised)
      end
  | Searcher => (fs, Ok (run_searcher env tick state, Some Detector))
  | Detector => (fs, Ok (run_detector env tick state, Some Evaluator))
  | Evaluator =>
      let state := run_evaluator env tick state in
      match evaluator_edges (route_from_evaluator state) with
      | Some nxt => (fs, Ok (state, Some nxt))
      | None => (fs, Raised)
      end
  | Highlighter =>
      match run_highlighter env fs state with
      | (fs', Ok state) => (fs', Ok (state, Some HumanInLoop))
      | (fs', Raised) => (fs', Raised)
      end
  | HumanInLoop =>
      let state := run_hitl state in
      match hitl_edges (route_from_hitl state) with
      | Some nxt => (fs, Ok (state, Some nxt))
      | None => (fs, Raised)
      end
  | Redactor =>
      match run_redactor env fs state with
      | (fs', Ok state) => (fs', Ok (state, None))
      | (fs', Raised) => (fs', Raised)
      end
  end.

(** How [app.invoke] leaves the graph. *)
Inductive outcome :=
  | Interrupted (before : Node) (fs : gmap string (list Page))
      (state : SanitizerState)
  | Ended (fs : gmap string (list Page)) (state : SanitizerState)
  | Crashed (at_node : Node) (fs : gmap string (list Page))
  | RecursionLimit.

(** LangGraph's default bound on the number of steps of one invocation. *)
Definition recursion_limit : nat := 25.

(** [graph.compile(interrupt_before=...).invoke(state)] from a given node,
    with the nodes that completed and the state each of them returned. *)
Fixpoint run_graph (interrupt_before : list Node) (env : Env) (steps : nat)
    (tick : nat) (node : Node) (fs : gmap string (list Page))
    (state : SanitizerState) : list (Node * SanitizerState) * outcome :=
  if existsb (Node_eqb node) interrupt_before then
    ([], Interrupted node fs state)
  else
    match steps with
    | O => ([], RecursionLimit)
    | S steps =>
        match run_node env tick node fs state with
        | (fs', Raised) => ([], Crashed node fs')
        | (fs', Ok (state', None)) => ([(node, state')], Ended fs' state')
        | (fs', Ok (state', Some nxt)) =>
            let '(trace, out) :=
              run_graph interrupt_before env steps (S tick) nxt fs' state' in
            ((node, state') :: trace, out)
        end
    end.

(** The invocation inside [run_agentic_workflow] (src/app.py): the graph
    from its entry point, interrupted before the human gate.  A crash is
    what the function's except clause shows as a workflow execution
    error. *)
Definition run_agentic_workflow (env : Env) (fs : gmap string (list Page))
    (state : SanitizerState) : list (Node * SanitizerState) * outcome :=
  run_graph [HumanInLoop] env recursion_limit 0 Orchestrator fs state.

(** ** Notions the properties are stated with *)

(** The decision the human gate reads: the stored value, as text, without
    the surrounding white space. *)
Definition decision (state : SanitizerState) : string :=
  strip (str_or_empty (user_approval state)).

(** Two states that differ at most in the detected regions. *)
Definition same_but_sensitive_data (s s' : SanitizerState) : Prop :=
  s' = set_sensitive_data (sensitive_data s') s.

(** An extraction pass that failed or found nothing. *)
Definition pass_failed_or_empty (elements : list PdfElement.t) : Prop :=
  elements = [].

(** ** Sample collaborators and inputs *)

(** A world in which every collaborator fails and the disk accepts writes. *)
Definition failing_env : Env :=
  mkEnv true (fun _ _ => None) (fun _ _ => None) (fun _ => None)
    (fun _ _ _ => None) (fun _ _ _ => None) (fun _ _ _ _ => None)
    (fun _ _ => None) (fun _ _ _ _ => None) (fun _ => true)
    (fun p => String.append p "_PREVIEW.pdf")
    (fun p => String.append p "_AI_REDACTED.pdf")
    (fun p => String.append p "_MANUAL_REDACTED.pdf")
    (fun p => String.append p "_COMBINED_REDACTED.pdf").

(** The state the application starts a run with: a document and a prompt. *)
Definition start_state (path prompt : string) : SanitizerState :=
  set_user_prompt (Some prompt) (set_pdf_path (Some path) empty_state).

Definition unit_box : BBox := mkBBox 0 0 1 1.

Definition sample_word (id page : Z) (text : string) (b : BBox) : PdfElement.t :=
  PdfElement.mk id page text b.

(** A world whose regulation search suggests the one rule "a". *)
Definition searching_env : Env :=
  mkEnv true (fun _ _ => None) (fun _ _ => None) (fun _ => None)
    (fun _ _ _ => None) (fun _ _ _ => None) (fun _ _ _ _ => None)
    (fun _ _ => None) (fun _ _ _ _ => Some ["a"]) (fun _ => true)
    (fun p => String.append p "_PREVIEW.pdf")
    (fun p => String.append p "_AI_REDACTED.pdf")
    (fun p => String.append p "_MANUAL_REDACTED.pdf")
    (fun p => String.append p "_COMBINED_REDACTED.pdf").

(** The guidance list of a state, as every node reads it. *)
Definition guidance (state : SanitizerState) : list string :=
  list_or_empty (sensitive_data_description state).

(** The union box of a family of boxes, in the words of the specification:
    the least of the x0 and of the y0, the greatest of the x1 and of the
    y1. *)
Definition union_bbox (boxes : list BBox) (b : BBox) : Prop :=
  (x0 b ∈ map x0 boxes /\ Forall (fun c => x0 b <= x0 c)%Q boxes)
  /\ (y0 b ∈ map y0 boxes /\ Forall (fun c => y0 b <= y0 c)%Q boxes)
  /\ (x1 b ∈ map x1 boxes /\ Forall (fun c => x1 c <= x1 b)%Q boxes)
  /\ (y1 b ∈ map y1 boxes /\ Forall (fun c => y1 c <= y1 b)%Q boxes).

(** The cached word elements of a page whose ids are among the given ones,
    in the order of the cache. *)
Definition matched_words (word_elements : list PdfElement.t) (page : Z)
    (element_ids : list Z) : list PdfElement.t :=
  List.filter
    (fun w => (PdfElement.page_number w =? page) && id_in element_ids w)
    word_elements.

(** A mapped item and the region emitted for it. *)
Definition region_of (word_elements : list PdfElement.t)
    (m : CoordinateMappedItem.t) (o : SensitiveItem.t) : Prop :=
  SensitiveItem.page_number o = CoordinateMappedItem.page_number m
  /\ SensitiveItem.content o = CoordinateMappedItem.content m
  /\ SensitiveItem.reason o = CoordinateMappedItem.reason m
  /\ union_bbox
       (map PdfElement.bbox
          (matched_words word_elements (CoordinateMappedItem.page_number m)
             (CoordinateMappedItem.element_ids m)))
       (SensitiveItem.bbox o).

(** The mapped items that match at least one cached word of their page. *)
Definition has_match (word_elements : list PdfElement.t)
    (m : CoordinateMappedItem.t) : bool :=
  truthy_list
    (matched_words word_elements (CoordinateMappedItem.page_number m)
       (CoordinateMappedItem.element_ids m)).

(** The words of the specification's mapping example, and a world whose
    mapping call selects the third of them. *)
Definition sevis_words : list PdfElement.t :=
  [ sample_word 1 1 "SEVIS" (mkBBox 10 10 50 20);
    sample_word 2 1 "ID:" (mkBBox 55 10 75 20);
    sample_word 3 1 "N0004705512" (mkBBox 80 10 160 20) ].

Definition mapping_env : Env :=
  mkEnv true (fun _ _ => None) (fun _ _ => None) (fun _ => None)
    (fun _ _ _ => Some [mkSensitiveContentItem "N0004705512" 1 "id"])
    (fun _ _ _ =>
       Some [ CoordinateMappedItem.mk 1 "N0004705512" "id" [3];
              CoordinateMappedItem.mk 1 "SEVIS ID" "label" [1; 2];
              CoordinateMappedItem.mk 1 "nothing" "no ids" [];
              CoordinateMappedItem.mk 2 "elsewhere" "no such page" [1] ])
    (fun _ _ _ _ => None)
    (fun _ _ => None) (fun _ _ _ _ => None) (fun _ => true)
    (fun p => String.append p "_PREVIEW.pdf")
    (fun p => String.append p "_AI_REDACTED.pdf")
    (fun p => String.append p "_MANUAL_REDACTED.pdf")
    (fun p => String.append p "_COMBINED_REDACTED.pdf").

(** The vertices of a polygon given as x, y, x, y, ... *)
Fixpoint vertices (polygon : list Q) : list (Q * Q) :=
  match polygon with
  | x :: y :: rest => (x, y) :: vertices rest
  | _ => []
  end.

(** The least and the greatest element of a list. *)
Definition least (m : Q) (l : list Q) : Prop :=
  m ∈ l /\ Forall (fun y => m <= y)%Q l.

Definition greatest (m : Q) (l : list Q) : Prop :=
  m ∈ l /\ Forall (fun y => y <= m)%Q l.

(** A box scaled by one factor per axis. *)
Definition scale_box (sx sy : Q) (min_x min_y max_x max_y : Q) : BBox :=
  mkBBox (min_x * sx) (min_y * sy) (max_x * sx) (max_y * sy).

(** A unit that reads as centimeters. *)
Definition is_centimeters (unit : option string) : Prop :=
  str_in (lower (str_or_empty unit)) cm_units = true.

(** Two regions of one page whose top-left corners are closer than 5 units
    in both coordinates. *)
Definition corners_close (a b : SensitiveItem.t) : Prop :=
  SensitiveItem.page_number a = SensitiveItem.page_number b
  /\ (Qabs (x0 (SensitiveItem.bbox a) - x0 (SensitiveItem.bbox b)) < 5)%Q
  /\ (Qabs (y0 (SensitiveItem.bbox a) - y0 (SensitiveItem.bbox b)) < 5)%Q.

(** A list in which no region is close to an earlier one. *)
Fixpoint distinct_regions (l : list SensitiveItem.t) : Prop :=
  match l with
  | [] => True
  | a :: rest =>
      Forall (fun b => ~ corners_close a b) rest /\ distinct_regions rest
  end.

(** The regions of a page, committed or still pending, and the committed
    ones of a document. *)
Definition region_count (p : Page) : nat :=
  (length (page_redacted p) + length (redact_rects (page_annots p)))%nat.

Fixpoint total_regions (pages : list Page) : nat :=
  match pages with
  | [] => O
  | p :: rest => (region_count p + total_regions rest)%nat
  end.

Fixpoint committed_count (pages : list Page) : nat :=
  match pages with
  | [] => O
  | p :: rest => (length (page_redacted p) + committed_count rest)%nat
  end.

(** The regions of the specification's example of duplicates, on page 2. *)
Definition region_at (page : Z) (x y : Q) : SensitiveItem.t :=
  SensitiveItem.mk page "[Manual Selection]" "Manually selected sensitive area"
    (mkBBox x y (x + 50) (y + 10)).

Definition blank_page : Page := mkPage "text" [] [].

Definition two_page_disk : gmap string (list Page) :=
  {[ "doc.pdf" := [blank_page; blank_page] ]}.

(** A world whose disk refuses every write. *)
Definition readonly_env : Env :=
  mkEnv true (fun _ _ => None) (fun _ _ => None) (fun _ => None)
    (fun _ _ _ => None) (fun _ _ _ => None) (fun _ _ _ _ => None)
    (fun _ _ => None) (fun _ _ _ _ => None) (fun _ => false)
    (fun p => String.append p "_PREVIEW.pdf")
    (fun p => String.append p "_AI_REDACTED.pdf")
    (fun p => String.append p "_MANUAL_REDACTED.pdf")
    (fun p => String.append p "_COMBINED_REDACTED.pdf").

(** A region on a page past the end of a document of [n] pages. *)
Definition page_past_end (n : nat) (item : SensitiveItem.t) : Prop :=
  Z.of_nat n <= SensitiveItem.page_number item - 1.

(** The path the redactor writes to. *)
Definition ai_output_path (env : Env) (pdf_path : string)
    (output_path : option string) : string :=
  if truthy_str (str_or_empty output_path) then str_or_empty output_path
  else ai_redacted_path_of env pdf_path.

(** An evaluator that finds issues, with a feedback message, whenever it
    is asked. *)
Definition always_reports_issues (env : Env) : Prop :=
  forall tick descriptions page_elements detected,
  exists res,
    llm_evaluate env tick descriptions page_elements detected = Some res
    /\ issues_found res = true /\ feedback_message res <> "".

(** The loop counter and its ceiling, as the evaluator reads them. *)
Definition cycles (state : SanitizerState) : Z :=
  default 0 (evaluator_cycles state).

Definition max_cycles (state : SanitizerState) : Z :=
  default 3 (max_evaluator_cycles state).

(** The nodes of [n] rounds of detection followed by evaluation. *)
Fixpoint detection_rounds (n : nat) : list Node :=
  match n with
  | O => []
  | S n => Detector :: Evaluator :: detection_rounds n
  end.

(** How often detection ran in a trace. *)
Definition detections (trace : list (Node * SanitizerState)) : nat :=
  length (List.filter (fun e => Node_eqb (fst e) Detector) trace).

(** A world whose evaluator always asks for "more". *)
Definition nagging_env : Env :=
  mkEnv true (fun _ _ => None) (fun _ _ => None) (fun _ => None)
    (fun _ _ _ => None) (fun _ _ _ => None)
    (fun _ _ _ _ => Some (mkEvaluationResult true [] [] "more"))
    (fun _ _ => None) (fun _ _ _ _ => None) (fun _ => true)
    (fun p => String.append p "_PREVIEW.pdf")
    (fun p => String.append p "_AI_REDACTED.pdf")
    (fun p => String.append p "_MANUAL_REDACTED.pdf")
    (fun p => String.append p "_COMBINED_REDACTED.pdf").

(** A world in which only the page-level extraction pass fails: the
    word-level pass finds a word, the language model answers every call and
    the evaluator is content. *)
Definition page_pass_fails_env : Env :=
  mkEnv true (fun _ _ => None)
    (fun _ _ =>
       Some [mkAzurePage 1 (Some (17 # 2)) (Some 11%Q) (Some "inch")
               [("Smith", [1; 1; 2; 1; 2; (3 # 2); 1; (3 # 2)]%Q)]])
    (fun _ => Some [(612, 792)%Q])
    (fun _ _ _ => Some [mkSensitiveContentItem "Smith" 1 "name"])
    (fun _ _ _ => Some [CoordinateMappedItem.mk 1 "Smith" "name" [1]])
    (fun _ _ _ _ => Some (mkEvaluationResult false [] [] ""))
    (fun _ _ => Some (mkOrchestratorDecision "Detector" ["names"] None))
    (fun _ _ _ _ => None) (fun _ => true)
    (fun p => String.append p "_PREVIEW.pdf")
    (fun p => String.append p "_AI_REDACTED.pdf")
    (fun p => String.append p "_MANUAL_REDACTED.pdf")
    (fun p => String.append p "_COMBINED_REDACTED.pdf").

(** ** Page-level boxes (src/nodes/detector_node.py) *)

Definition zero_box : BBox := mkBBox 0 0 0 0.

(** [_polygon_to_bbox]: fewer than four coordinates give the zero box; an
    odd length raises as in [polygon_ys]. *)
Definition _polygon_to_bbox (polygon : list Q) : option BBox :=
  if negb (truthy_list polygon) || (length polygon <? 4)%nat then Some zero_box
  else
    let xs := polygon_xs polygon in
    match polygon_ys polygon with
    | None => None
    | Some ys =>
        match min_of xs, min_of ys, max_of xs, max_of ys with
        | Some min_x, Some min_y, Some max_x, Some max_y =>
            Some (mkBBox min_x min_y max_x max_y)
        | _, _, _, _ => None
        end
    end.

(** [_extract_paragraph_bbox]: the polygon of a paragraph may be missing. *)
Definition _extract_paragraph_bbox (polygon : option (list Q)) : option BBox :=
  if truthy_list (list_or_empty polygon)
  then _polygon_to_bbox (list_or_empty polygon)
  else Some zero_box.

(** One page of a read result: its paragraphs and its lines, each a content
    and an optional polygon. *)
Record ReadPage := mkReadPage {
  rp_page_number : Z;
  rp_paragraphs : list (string * option (list Q));
  rp_lines : list (string * option (list Q))
}.

(** The inner loops of [_run_page_level_ocr]: the blocks of one page with a
    non-empty content become elements, numbered on from [element_id]; the
    granularity tag is kept beside the element. *)
Fixpoint read_blocks (tag : string) (to_bbox : option (list Q) -> option BBox)
    (page_num : Z) (element_id : Z) (blocks : list (string * option (list Q)))
    : option (Z * list (PdfElement.t * string)) :=
  match blocks with
  | [] => Some (element_id, [])
  | (content, polygon) :: rest =>
      if truthy_str content then
        let element_id := element_id + 1 in
        match to_bbox polygon with
        | None => None
        | Some bbox =>
            match read_blocks tag to_bbox page_num element_id rest with
            | None => None
            | Some (last_id, elements) =>
                Some (last_id,
                      (PdfElement.mk element_id page_num content bbox, tag)
                      :: elements)
            end
        end
      else read_blocks tag to_bbox page_num element_id rest
  end.

(** The loop over the pages: paragraphs when the page has any, its lines
    otherwise; the numbering runs on from page to page. *)
Fixpoint read_pages (element_id : Z) (pages : list ReadPage)
    : option (list (PdfElement.t * string)) :=
  match pages with
  | [] => Some []
  | page :: rest =>
      let here :=
        if truthy_list (rp_paragraphs page) then
          read_blocks "paragraph" _extract_paragraph_bbox
            (rp_page_number page) element_id (rp_paragraphs page)
        else
          read_blocks "line"
            (fun polygon => _polygon_to_bbox (list_or_empty polygon))
            (rp_page_number page) element_id (rp_lines page)
      in
      match here with
      | None => None
      | Some (last_id, elements) =>
          match read_pages last_id rest with
          | None => None
          | Some more => Some (elements ++ more)
          end
      end
  end.

(** The elements [_run_page_level_ocr] builds from a read result; any
    exception on the way empties the pass. *)
Definition page_level_elements (read_result : option (list ReadPage))
    : list (PdfElement.t * string) :=
  match read_result with
  | None => []
  | Some pages =>
      match read_pages 0 pages with
      | Some elements => elements
      | None => []
      end
  end.

(** ** The review canvas (src/app.py) *)

Definition CANVAS_WIDTH : Z := 700.
Definition CANVAS_HEIGHT : Z := 1000.
Definition HIGHLIGHT_COLOR : string := "#FFFF00".
Definition MANUAL_COLOR : string := "#00FF00".

(** A rectangle object of the drawable canvas. *)
Module CanvasObject.
Record t := mk {
  type : string;
  left : Q;
  top : Q;
  width : Q;
  height : Q;
  fill : string;
  stroke : string;
  strokeWidth : Z;
  opacity : Q
}.
End CanvasObject.

(** [a / b] on floats: a zero divisor raises ZeroDivisionError. *)
Definition py_div (a b : Q) : option Q :=
  if Qeq_bool b 0 then None else Some (a / b)%Q.

(** [canvas_to_pdf_coordinates]; a page rectangle is its width and height. *)
Definition canvas_to_pdf_coordinates (canvas_coords : CanvasObject.t)
    (page_rect : Q * Q) (canvas_width canvas_height : Z) : option BBox :=
  match py_div (fst page_rect) (inject_Z canvas_width),
        py_div (snd page_rect) (inject_Z canvas_height) with
  | Some scale_x, Some scale_y =>
      Some (mkBBox
              (CanvasObject.left canvas_coords * scale_x)
              (CanvasObject.top canvas_coords * scale_y)
              ((CanvasObject.left canvas_coords
                + CanvasObject.width canvas_coords) * scale_x)
              ((CanvasObject.top canvas_coords
                + CanvasObject.height canvas_coords) * scale_y))
  | _, _ => None
  end.

(** [pdf_to_canvas_coordinates]: left, top, width and height. *)
Definition pdf_to_canvas_coordinates (pdf_coords : BBox) (page_rect : Q * Q)
    (canvas_width canvas_height : Z) : option (Q * Q * Q * Q) :=
  match py_div (inject_Z canvas_width) (fst page_rect),
        py_div (inject_Z canvas_height) (snd page_rect) with
  | Some scale_x, Some scale_y =>
      Some (x0 pdf_coords * scale_x, y0 pdf_coords * scale_y,
            (x1 pdf_coords - x0 pdf_coords) * scale_x,
            (y1 pdf_coords - y0 pdf_coords) * scale_y)%Q
  | _, _ => None
  end.

(** One loop of [create_canvas_objects]: the items of the shown page, in
    one color. *)
Fixpoint canvas_objects_of (color : string) (items : list SensitiveItem.t)
    (page_num : Z) (page_rect : Q * Q) : option (list CanvasObject.t) :=
  match items with
  | [] => Some []
  | item :: rest =>
      if SensitiveItem.page_number item =? page_num + 1 then
        match pdf_to_canvas_coordinates (SensitiveItem.bbox item) page_rect
                CANVAS_WIDTH CANVAS_HEIGHT with
        | None => None
        | Some (l, t, w, h) =>
            option_map
              (cons (CanvasObject.mk "rect" l t w h color color 2 (1 # 2)))
              (canvas_objects_of color rest page_num page_rect)
        end
      else canvas_objects_of color rest page_num page_rect
  end.

Definition create_canvas_objects (sensitive_items manual_items : list SensitiveItem.t)
    (page_num : Z) (page_rect : Q * Q) : option (list CanvasObject.t) :=
  match canvas_objects_of HIGHLIGHT_COLOR sensitive_items page_num page_rect with
  | None => None
  | Some ai =>
      match canvas_objects_of MANUAL_COLOR manual_items page_num page_rect with
      | None => None
      | Some manual => Some (ai ++ manual)
      end
  end.

(** The rectangles of the canvas that count as drawn by hand. *)
Definition new_rectangles (objects : list CanvasObject.t) : list CanvasObject.t :=
  List.filter
    (fun obj => String.eqb (CanvasObject.type obj) "rect"
                && String.eqb (CanvasObject.stroke obj) "#00FF00")
    objects.

(** The processing of the canvas in [main]: every green rectangle is
    converted to page coordinates and captured. *)
Fixpoint capture_canvas (manual_rectangles : list SensitiveItem.t)
    (rects : list CanvasObject.t) (current_page : Z) (page_rect : Q * Q)
    : option (list SensitiveItem.t) :=
  match rects with
  | [] => Some manual_rectangles
  | rect :: rest =>
      match canvas_to_pdf_coordinates rect page_rect
              CANVAS_WIDTH CANVAS_HEIGHT with
      | None => None
      | Some pdf_coords =>
          let manual_item :=
            SensitiveItem.mk (current_page + 1) "[Manual Selection]"
              "Manually selected sensitive area" pdf_coords in
          capture_canvas (capture_rectangle manual_rectangles manual_item)
            rest current_page page_rect
      end
  end.

Definition process_canvas (manual_rectangles : list SensitiveItem.t)
    (objects : list CanvasObject.t) (current_page : Z) (page_rect : Q * Q)
    : option (list SensitiveItem.t) :=
  capture_canvas manual_rectangles (new_rectangles objects) current_page
    page_rect.

(** ** Notions for the further properties *)

(** A box whose corners are in order. *)
Definition box_ordered (b : BBox) : Prop :=
  (x0 b <= x1 b)%Q /\ (y0 b <= y1 b)%Q.

(** A point inside a box, borders included. *)
Definition in_box (b : BBox) (v : Q * Q) : Prop :=
  (x0 b <= fst v)%Q /\ (fst v <= x1 b)%Q
  /\ (y0 b <= snd v)%Q /\ (snd v <= y1 b)%Q.

(** Two boxes with equal coordinates, as numbers. *)
Definition box_equal (a b : BBox) : Prop :=
  (x0 a == x0 b)%Q /\ (y0 a == y0 b)%Q
  /\ (x1 a == x1 b)%Q /\ (y1 a == y1 b)%Q.

(** The ids [id + 1], ..., [id + n]. *)
Definition count_from (id : Z) (n : nat) : list Z :=
  map (fun i => id + Z.of_nat i) (seq 1 n).

(** A page of a layout result that the document has. *)
Definition page_in_document (sizes : list (Q * Q)) (page : AzurePage) : bool :=
  (0 <=? az_page_number page - 1)
  && (az_page_number page - 1 <? Z.of_nat (length sizes)).

(** A layout result on a letter page, with one page the document lacks. *)
Definition sample_layout : list AzurePage :=
  [ mkAzurePage 1 (Some (17 # 2)) (Some 11%Q) (Some "inch")
      [ ("John", [1; 1; 2; 1; 2; (3 # 2); 1; (3 # 2)]%Q);
        ("Smith", [2; 1; 3; 1; 3; (3 # 2); 2; (3 # 2)]%Q) ];
    mkAzurePage 7 (Some (17 # 2)) (Some 11%Q) (Some "inch")
      [ ("stray", [1; 1; 2; 2]%Q) ] ].

Definition sample_read : list ReadPage :=
  [ mkReadPage 1 [("Name: John Smith", Some [1; 1; 3; 1; 3; 2; 1; 2]%Q);
                  ("", None)] [("ignored line", None)];
    mkReadPage 2 [] [("SSN: 123-45-6789", Some [1; 1; 3; 1; 3; 2; 1; 2]%Q)] ].

(** The extraction cache of a state: nothing yet, or both lists, each with
    an element. *)
Definition cache_consistent (state : SanitizerState) : Prop :=
  (page_level_pdf_elements state = None
   /\ word_level_pdf_elements state = None)
  \/ (list_or_empty (page_level_pdf_elements state) <> []
      /\ list_or_empty (word_level_pdf_elements state) <> []).

(** The rounds of detection still allowed by the loop counter. *)
Definition rounds_left (state : SanitizerState) : nat :=
  Z.to_nat (max_cycles state - cycles state).

(** The nodes that come before the human gate. *)
Definition before_gate (node : Node) : Prop :=
  node = Orchestrator \/ node = Searcher \/ node = Detector
  \/ node = Evaluator \/ node = Highlighter.

(** A run that stopped where the human decides, or broke while the preview
    was written. *)
Definition paused_or_preview_failed (out : outcome) : Prop :=
  (exists fs state, out = Interrupted HumanInLoop fs state)
  \/ (exists fs, out = Crashed Highlighter fs).

(** A state whose caches hold one element each. *)
Definition cached_state : SanitizerState :=
  set_sensitive_data (Some [region_at 1 10 10])
    (set_word_level_pdf_elements (Some [sample_word 1 1 "a" unit_box])
       (set_page_level_pdf_elements (Some [sample_word 1 1 "a" unit_box])
          (start_state "doc.pdf" "names"))).

(** A page and the same page with more annotations laid over it. *)
Definition page_extends (p p' : Page) : Prop :=
  page_content p' = page_content p
  /\ page_redacted p' = page_redacted p
  /\ (forall a, a ∈ page_annots p -> a ∈ page_annots p').

(** A page and the same page with highlights added: same content, same
    committed and pending redactions. *)
Definition same_but_highlights (p p' : Page) : Prop :=
  page_content p' = page_content p
  /\ page_redacted p' = page_redacted p
  /\ redact_rects (page_annots p') = redact_rects (page_annots p).

(** A region whose page number names a page of a document of [n] pages. *)
Definition on_page (n : nat) (item : SensitiveItem.t) : bool :=
  (0 <=? SensitiveItem.page_number item - 1)
  && (SensitiveItem.page_number item - 1 <? Z.of_nat n).

(** A world whose router asks for a regulation search. *)
Definition routing_env : Env :=
  mkEnv true (fun _ _ => None) (fun _ _ => None) (fun _ => None)
    (fun _ _ _ => None) (fun _ _ _ => None) (fun _ _ _ _ => None)
    (fun _ _ =>
       Some (mkOrchestratorDecision "Searcher" ["health data"]
               (Some " hipaa ")))
    (fun _ _ _ _ => None) (fun _ => true)
    (fun p => String.append p "_PREVIEW.pdf")
    (fun p => String.append p "_AI_REDACTED.pdf")
    (fun p => String.append p "_MANUAL_REDACTED.pdf")
    (fun p => String.append p "_COMBINED_REDACTED.pdf").

(** ** Approval of the preview (src/app.py, [main]) *)

(** What the user is shown after pressing Approve. *)
Inductive ApproveOutcome :=
  | Approved
  | NoAiOutput
  | WorkflowError.

(** The handler of the Approve button: the decision is stored, the gate and
    the Redactor are run directly, and the manual rectangles, if any, are
    applied on the AI-redacted file.  The workflow state is the one dict the
    nodes update in place. *)
Definition approve_preview (env : Env) (fs : gmap string (list Page))
    (workflow_state : SanitizerState)
    (manual_rectangles : list SensitiveItem.t)
    : gmap string (list Page) * SanitizerState * ApproveOutcome :=
  let workflow_state := set_user_approval (Some "Yes") workflow_state in
  let hitl_result := run_hitl workflow_state in
  match next_node hitl_result with
  | Some nxt =>
      if String.eqb nxt "Redactor" then
        match run_redactor env fs hitl_result with
        | (fs1, Raised) => (fs1, hitl_result, WorkflowError)
        | (fs1, Ok redactor_result) =>
            let ai_redacted_path :=
              str_or_empty (final_pdf_path redactor_result) in
            if negb (truthy_str ai_redacted_path) then
              (fs1, redactor_result, NoAiOutput)
            else if truthy_list manual_rectangles then
              match combine_ai_and_manual_redactions env fs1
                      ai_redacted_path manual_rectangles with
              | (fs2, Ok final_path) =>
                  (fs2, set_final_pdf_path (Some final_path) redactor_result,
                   Approved)
              | (fs2, Raised) => (fs2, redactor_result, WorkflowError)
              end
            else (fs1, redactor_result, Approved)
        end
      else (fs, hitl_result, NoAiOutput)
  | None => (fs, hitl_result, NoAiOutput)
  end.

(** A state ready for approval: one detected region on page 2. *)
Definition reviewed_state : SanitizerState :=
  set_sensitive_data (Some [region_at 2 100 200])
    (start_state "doc.pdf" "names").

(** * Properties *)

(** ** The embedding at work *)

Example strip_decision : strip "  Yes " = "Yes".
Proof. reflexivity. Qed.

Example lower_unit : lower "Centimeter" = "centimeter".
Proof. reflexivity. Qed.

Example inch_polygon :
  _polygon_to_bbox_points [1; 1; 2; 1; 2; (3 # 2); 1; (3 # 2)]%Q (Some "inch")
    (17 # 2) 11 612 792
  = Some (mkBBox (1 * 72) (1 * 72) (2 * 72) ((3 # 2) * 72)).
Proof. reflexivity. Qed.

Example odd_polygon_raises :
  _polygon_to_bbox_points [1; 1; 2]%Q (Some "inch") 0 0 612 792 = None.
Proof. reflexivity. Qed.

Example sevis_value_only :
  _second_llm_coordinate_mapping mapping_env 0
    [mkSensitiveContentItem "N0004705512" 1 "id"] sevis_words
  = [ SensitiveItem.mk 1 "N0004705512" "id" (mkBBox 80 10 160 20);
      SensitiveItem.mk 1 "SEVIS ID" "label" (mkBBox 10 10 75 20) ].
Proof. reflexivity. Qed.

Example fromkeys_order :
  dict_fromkeys ["b"; "a"; "b"; "c"; "a"] = ["b"; "a"; "c"].
Proof. reflexivity. Qed.

Example capture_example :
  capture_rectangles []
    [region_at 2 100 200; region_at 2 102 201; region_at 2 140 200]
  = [region_at 2 100 200; region_at 2 140 200].
Proof. reflexivity. Qed.

(** ** Human gate *)

Lemma run_hitl_yes (s : SanitizerState) :
  decision s = "Yes" ->
  run_hitl s = set_user_approval None (set_next_node (Some "Redactor") s).
Proof.
  unfold decision, run_hitl. intros ->. reflexivity.
Qed.

Lemma run_hitl_no (s : SanitizerState) :
  decision s = "No" ->
  run_hitl s = set_user_approval None (set_next_node (Some "Orchestrator") s).
Proof.
  unfold decision, run_hitl. intros ->. reflexivity.
Qed.

Lemma run_hitl_other (s : SanitizerState) :
  decision s <> "Yes" -> decision s <> "No" ->
  run_hitl s = set_next_node (Some "HumanInLoop") s.
Proof.
  unfold decision, run_hitl. intros Hy Hn.
  destruct (String.eqb_spec (strip (str_or_empty (user_approval s))) "Yes");
    [contradiction|].
  destruct (String.eqb_spec (strip (str_or_empty (user_approval s))) "No");
    [contradiction|reflexivity].
Qed.

Lemma decision_cases (s : SanitizerState) :
  decision s = "Yes" \/ decision s = "No"
  \/ (decision s <> "Yes" /\ decision s <> "No").
Proof.
  destruct (String.eqb_spec (decision s) "Yes"); [tauto|].
  destruct (String.eqb_spec (decision s) "No"); tauto.
Qed.

(** C2, as the code has it: the gate sends the run to the Redactor exactly
    when the stored decision, stripped of surrounding white space, is "Yes",
    back to the Orchestrator exactly when it is "No", and otherwise (absent
    included) keeps it in HumanInLoop with the stored value untouched; in the
    two decided cases the stored decision is removed from the state.  The
    edge taken by the graph is the one the gate chose. *)
Theorem hitl_gate (env : Env) (tick : nat) (fs : gmap string (list Page))
    (s : SanitizerState) :
  (next_node (run_hitl s) = Some "Redactor" <-> decision s = "Yes")
  /\ (next_node (run_hitl s) = Some "Orchestrator" <-> decision s = "No")
  /\ (next_node (run_hitl s) = Some "HumanInLoop"
      <-> (decision s <> "Yes" /\ decision s <> "No"))
  /\ (decision s = "Yes" \/ decision s = "No" ->
      user_approval (run_hitl s) = None)
  /\ (decision s <> "Yes" /\ decision s <> "No" ->
      user_approval (run_hitl s) = user_approval s)
  /\ (snd (run_node env tick HumanInLoop fs s)
        = Ok (run_hitl s, Some Redactor) <-> decision s = "Yes")
  /\ (snd (run_node env tick HumanInLoop fs s)
        = Ok (run_hitl s, Some Orchestrator) <-> decision s = "No")
  /\ (snd (run_node env tick HumanInLoop fs s)
        = Ok (run_hitl s, Some HumanInLoop)
      <-> (decision s <> "Yes" /\ decision s <> "No")).
Proof.
  destruct (decision_cases s) as [Hy | [Hn | [Hy Hn]]].
  - pose proof (run_hitl_yes s Hy) as E.
    cbn [run_node]. rewrite E. cbn. rewrite Hy.
    intuition (try congruence; try discriminate).
  - pose proof (run_hitl_no s Hn) as E.
    cbn [run_node]. rewrite E. cbn. rewrite Hn.
    intuition (try congruence; try discriminate).
  - pose proof (run_hitl_other s Hy Hn) as E.
    cbn [run_node]. rewrite E. cbn.
    intuition (try congruence; try discriminate).
Qed.

(** The claim of C2 as written fails: a stored decision that is not "Yes"
    (here " Yes", with a leading blank) still opens the way to the
    Redactor. *)
Lemma hitl_gate_not_literal :
  let s := set_user_approval (Some " Yes") empty_state in
  user_approval s <> Some "Yes"
  /\ next_node (run_hitl s) = Some "Redactor"
  /\ route_from_hitl (run_hitl s) = "Redactor".
Proof.
  cbn. repeat split; try reflexivity. discriminate.
Qed.

(** ** Manual redaction with nothing to redact *)

(** C10: with an empty list of manual rectangles both manual passes return
    the path they were given and leave the file system as it was, whatever
    the document and the collaborators. *)
Theorem manual_redaction_empty_identity (env : Env)
    (fs : gmap string (list Page)) (path : string) :
  apply_manual_redactions env fs path [] = (fs, Ok path)
  /\ combine_ai_and_manual_redactions env fs path [] = (fs, Ok path).
Proof.
  split; reflexivity.
Qed.

(** ** Detector: the extraction cache *)

Lemma page_pass_failure (env : Env) (tick : nat) (path : string) :
  di_read env tick path = None -> _run_page_level_ocr env tick path = [].
Proof.
  unfold _run_page_level_ocr. intros ->. reflexivity.
Qed.

Lemma word_pass_failure (env : Env) (tick : nat) (path : string) :
  di_layout env tick path = None -> _run_word_level_ocr env tick path = [].
Proof.
  unfold _run_word_level_ocr. intros ->. reflexivity.
Qed.

Lemma truthy_list_false {A} (l : list A) : truthy_list l = false <-> l = [].
Proof.
  destruct l; cbn; split; intros; congruence.
Qed.

Lemma truthy_str_false (s : string) : truthy_str s = false <-> s = "".
Proof.
  destruct s; cbn; split; intros; congruence.
Qed.

Lemma feedback_detection_frame (env : Env) (tick : nat) (s : SanitizerState)
    (descriptions : list string) :
  same_but_sensitive_data s (_feedback_detection env tick s descriptions).
Proof.
  unfold _feedback_detection, same_but_sensitive_data.
  destruct (negb _ || negb _); [destruct s|]; reflexivity.
Qed.

(** C9: when both cached element lists are present and non-empty, a
    detector run returns a state that differs from the one it received at
    most in the sensitive-regions list (so both caches are exactly as they
    were), and its result does not depend on the extraction service: any
    two worlds whose language model answers alike give the same state. *)
Theorem detector_reuses_cache (env : Env) (tick : nat) (s : SanitizerState)
    (p : PdfElement.t) (ps : list PdfElement.t)
    (w : PdfElement.t) (ws : list PdfElement.t) :
  page_level_pdf_elements s = Some (p :: ps) ->
  word_level_pdf_elements s = Some (w :: ws) ->
  page_level_pdf_elements (run_detector env tick s) = Some (p :: ps)
  /\ word_level_pdf_elements (run_detector env tick s) = Some (w :: ws)
  /\ same_but_sensitive_data s (run_detector env tick s)
  /\ (forall env' : Env,
        llm_content env' = llm_content env ->
        llm_mapping env' = llm_mapping env ->
        run_detector env' tick s = run_detector env tick s).
Proof.
  intros Hp Hw.
  assert (Hframe : same_but_sensitive_data s (run_detector env tick s)).
  { unfold run_detector. rewrite Hp, Hw. cbn.
    destruct (negb _).
    - unfold same_but_sensitive_data. destruct s; reflexivity.
    - apply feedback_detection_frame. }
  repeat split.
  - rewrite Hframe. cbn. exact Hp.
  - rewrite Hframe. cbn. exact Hw.
  - exact Hframe.
  - intros env' Hc Hm. unfold run_detector. rewrite Hp, Hw. cbn.
    destruct (negb _); [reflexivity|].
    unfold _feedback_detection. rewrite Hp, Hw. cbn.
    unfold _run_dual_llm_analysis, _first_llm_content_analysis,
      _second_llm_coordinate_mapping.
    rewrite Hc, Hm. reflexivity.
Qed.

Lemma detector_reuses_cache_witness :
  let s :=
    set_word_level_pdf_elements (Some [sample_word 1 1 "a" unit_box])
      (set_page_level_pdf_elements (Some [sample_word 1 1 "a" unit_box])
         (start_state "doc.pdf" "names")) in
  page_level_pdf_elements (run_detector failing_env 0 s)
    = Some [sample_word 1 1 "a" unit_box].
Proof.
  intros s.
  exact (proj1 (detector_reuses_cache failing_env 0 s _ [] _ []
                  eq_refl eq_refl)).
Defined.

(** C6, as the code has it: on a first detection, when the extraction
    client cannot be built or either pass fails or finds nothing, the
    detector returns the state exactly as it received it (no extraction
    result is cached, not even the surviving one, no reasoning call changes
    the regions), raises nothing, and the graph moves on to the Evaluator. *)
Theorem first_detection_failure_returns_state (env : Env) (tick : nat)
    (fs : gmap string (list Page)) (s : SanitizerState) (path : string) :
  pdf_path s = Some path -> path <> "" ->
  list_or_empty (word_level_pdf_elements s) = []
  \/ list_or_empty (page_level_pdf_elements s) = [] ->
  di_client_ok env = false
  \/ pass_failed_or_empty (_run_page_level_ocr env tick path)
  \/ pass_failed_or_empty (_run_word_level_ocr env tick path) ->
  run_detector env tick s = s
  /\ run_node env tick Detector fs s = (fs, Ok (s, Some Evaluator)).
Proof.
  intros Hpath Hne Hcache Hfail.
  assert (E : run_detector env tick s = s).
  { unfold run_detector. rewrite Hpath. cbn [str_or_empty].
    assert (truthy_str path = true) as ->.
    { destruct path; [contradiction|reflexivity]. }
    cbn [negb].
    assert ((negb (truthy_list (list_or_empty (word_level_pdf_elements s)))
             || negb (truthy_list
                        (list_or_empty (page_level_pdf_elements s))))%bool
            = true) as ->.
    { destruct Hcache as [-> | ->]; cbn; [reflexivity|].
      apply orb_true_r. }
    unfold _first_detection, _run_dual_ocr_parallel, pass_failed_or_empty in *.
    destruct (di_client_ok env); [|reflexivity].
    destruct Hfail as [Hf | [-> | ->]]; [discriminate|reflexivity|].
    cbn. rewrite orb_true_r. reflexivity. }
  split; [exact E|]. cbn [run_node]. rewrite E. reflexivity.
Qed.

Lemma first_detection_failure_returns_state_witness :
  run_detector failing_env 0 (start_state "doc.pdf" "names")
  = start_state "doc.pdf" "names".
Proof.
  refine (proj1 (first_detection_failure_returns_state failing_env 0 ∅
                   (start_state "doc.pdf" "names") "doc.pdf"
                   eq_refl _ _ _)).
  - discriminate.
  - left. reflexivity.
  - right. left. reflexivity.
Defined.

(** The claim of C6 as written fails: when the page-level pass raises and
    the word-level pass succeeds, the run does not end in a failure.  Every
    node returns, nothing is detected or cached, and the run pauses before
    the human gate as any other run does. *)
Lemma extraction_failure_is_not_reported :
  di_read page_pass_fails_env 1 "doc.pdf" = None
  /\ _run_word_level_ocr page_pass_fails_env 1 "doc.pdf" <> []
  /\ run_agentic_workflow page_pass_fails_env two_page_disk
       (start_state "doc.pdf" "names")
     = ([ (Orchestrator,
           set_next_node (Some "Detector")
             (set_sensitive_data_description (Some ["names"])
                (start_state "doc.pdf" "names")));
          (Detector,
           set_next_node (Some "Detector")
             (set_sensitive_data_description (Some ["names"])
                (start_state "doc.pdf" "names")));
          (Evaluator,
           set_next_node (Some "HumanInLoop")
             (set_max_evaluator_cycles (Some 3)
                (set_evaluator_cycles (Some 0)
                   (set_sensitive_data_description (Some ["names"])
                      (start_state "doc.pdf" "names")))));
          (Highlighter,
           set_next_node (Some "HumanInLoop")
             (set_max_evaluator_cycles (Some 3)
                (set_evaluator_cycles (Some 0)
                   (set_sensitive_data_description (Some ["names"])
                      (start_state "doc.pdf" "names"))))) ],
        Interrupted HumanInLoop two_page_disk
          (set_next_node (Some "HumanInLoop")
             (set_max_evaluator_cycles (Some 3)
                (set_evaluator_cycles (Some 0)
                   (set_sensitive_data_description (Some ["names"])
                      (start_state "doc.pdf" "names")))))).
Proof.
  split; [reflexivity|]. split; [discriminate|]. vm_compute. reflexivity.
Qed.

(** ** The guidance list *)

Lemma str_in_spec (k : string) (l : list string) :
  str_in k l = true <-> k ∈ l.
Proof.
  unfold str_in. rewrite existsb_exists, list_elem_of_In. split.
  - intros [x [Hin Heq]]. apply String.eqb_eq in Heq. subst. exact Hin.
  - intros Hin. exists k. split; [exact Hin|apply String.eqb_refl].
Qed.

Lemma str_in_false (k : string) (l : list string) :
  str_in k l = false <-> k ∉ l.
Proof.
  rewrite <- str_in_spec. destruct (str_in k l); split; intros; congruence.
Qed.

Lemma fromkeys_from_fresh (l1 : list string) :
  forall (seen l2 : list string),
    NoDup l1 -> (forall k, k ∈ l1 -> k ∉ seen) ->
    fromkeys_from seen (l1 ++ l2)
    = l1 ++ fromkeys_from (rev l1 ++ seen) l2.
Proof.
  induction l1 as [|k l1 IH]; intros seen l2 Hnd Hfresh; [reflexivity|].
  apply NoDup_cons in Hnd as [Hk Hnd].
  cbn [app fromkeys_from].
  assert (str_in k seen = false) as ->.
  { apply str_in_false, Hfresh. left. }
  rewrite (IH (k :: seen) l2 Hnd).
  - cbn [rev]. rewrite <- app_assoc. reflexivity.
  - intros k' Hk' Hin. apply elem_of_cons in Hin as [-> | Hin].
    + contradiction.
    + apply (Hfresh k'); [right; exact Hk'|exact Hin].
Qed.

Lemma fromkeys_from_keeps (l : list string) :
  forall (seen : list string) (k : string),
    k ∈ l -> k ∈ seen \/ k ∈ fromkeys_from seen l.
Proof.
  induction l as [|x l IH]; intros seen k Hin.
  - inversion Hin.
  - cbn [fromkeys_from]. apply elem_of_cons in Hin as [-> | Hin].
    + destruct (str_in x seen) eqn:E.
      * left. apply str_in_spec, E.
      * right. left.
    + destruct (str_in x seen) eqn:E.
      * apply IH, Hin.
      * destruct (IH (x :: seen) k Hin) as [Hs | Hs].
        -- apply elem_of_cons in Hs as [-> | Hs]; [right; left|left; exact Hs].
        -- right. right. exact Hs.
Qed.

Lemma orchestrator_appends (env : Env) (tick : nat) (s : SanitizerState) :
  guidance s `prefix_of` guidance (orchestrator_node env tick s).
Proof.
  unfold orchestrator_node, guidance.
  destruct s as [up pp sdd sq pl wl sd ec mc pv fp nn ua ind jur]. cbn.
  assert (Hself : list_or_empty sdd
                  `prefix_of` list_or_empty (setdefault sdd [])).
  { destruct sdd; cbn; reflexivity. }
  destruct (negb _); cbn; [exact Hself|].
  destruct (llm_route env tick _) as [res|]; cbn; [|exact Hself].
  destruct (truthy_list (clean_descriptions (sensitive_descriptions res)));
    destruct (_ && _); cbn; try exact Hself;
    destruct sdd; cbn; eexists; reflexivity.
Qed.

Lemma evaluator_appends (env : Env) (tick : nat) (s : SanitizerState) :
  guidance s `prefix_of` guidance (run_evaluator env tick s).
Proof.
  unfold run_evaluator, guidance.
  destruct s as [up pp sdd sq pl wl sd ec mc pv fp nn ua ind jur]. cbn.
  destruct (_ <=? _); cbn; [reflexivity|].
  destruct (negb _); cbn; [reflexivity|].
  destruct (llm_evaluate env tick _ _ _) as [res|]; cbn; [|reflexivity].
  destruct (_ && _); cbn; [|reflexivity].
  apply prefix_app_r. reflexivity.
Qed.

Lemma searcher_keeps (env : Env) (tick : nat) (s : SanitizerState) :
  (NoDup (guidance s) ->
   guidance s `prefix_of` guidance (run_searcher env tick s))
  /\ (forall k, k ∈ guidance s -> k ∈ guidance (run_searcher env tick s)).
Proof.
  unfold run_searcher, guidance.
  destruct s as [up pp sdd sq pl wl sd ec mc pv fp nn ua ind jur]. cbn.
  destruct (negb _); cbn; [split; [reflexivity|tauto]|].
  set (desc := searcher_descriptions env tick _ ind jur).
  destruct (truthy_list desc); cbn; [|split; [reflexivity|tauto]].
  split.
  - intros Hnd. unfold dict_fromkeys.
    rewrite fromkeys_from_fresh by (try exact Hnd; intros k _ Hin; inversion Hin).
    apply prefix_app_r. reflexivity.
  - intros k Hin. unfold dict_fromkeys.
    destruct (fromkeys_from_keeps (list_or_empty sdd ++ desc) [] k) as [Hs|Hs];
      [apply elem_of_app; left; exact Hin|inversion Hs|exact Hs].
Qed.

(** C7, as the code has it: the Orchestrator and the Evaluator only append
    to the guidance list (the old list is a prefix of the new one, so its
    length does not decrease).  The Searcher replaces the list by the
    first occurrences of the old list followed by the new descriptions: it
    never loses a rule, and the old list is a prefix of the new one when it
    holds no rule twice. *)
Theorem guidance_append_only (env : Env) (tick : nat) (s : SanitizerState) :
  guidance s `prefix_of` guidance (orchestrator_node env tick s)
  /\ guidance s `prefix_of` guidance (run_evaluator env tick s)
  /\ (length (guidance s) <= length (guidance (orchestrator_node env tick s)))%nat
  /\ (length (guidance s) <= length (guidance (run_evaluator env tick s)))%nat
  /\ (NoDup (guidance s) ->
      guidance s `prefix_of` guidance (run_searcher env tick s))
  /\ (forall k, k ∈ guidance s -> k ∈ guidance (run_searcher env tick s)).
Proof.
  pose proof (orchestrator_appends env tick s) as Ho.
  pose proof (evaluator_appends env tick s) as He.
  destruct (searcher_keeps env tick s) as [Hs1 Hs2].
  repeat split; try assumption.
  - apply prefix_length, Ho.
  - apply prefix_length, He.
Qed.

Lemma guidance_append_only_witness :
  let s := set_search_query (Some "hipaa")
             (set_sensitive_data_description (Some ["b"])
                (start_state "doc.pdf" "names")) in
  guidance s `prefix_of` guidance (run_searcher searching_env 0 s).
Proof.
  intros s.
  refine (proj1 (proj2 (proj2 (proj2 (proj2
            (guidance_append_only searching_env 0 s))))) _).
  unfold s. cbn. apply NoDup_singleton.
Defined.

(** The claim of C7 as written fails for the Searcher: a guidance list
    that holds a rule twice comes back shorter, and is no prefix of the
    result. *)
Lemma searcher_drops_repeated_guidance :
  let s := set_search_query (Some "hipaa")
             (set_sensitive_data_description (Some ["a"; "a"])
                (start_state "doc.pdf" "names")) in
  guidance s = ["a"; "a"]
  /\ guidance (run_searcher searching_env 0 s) = ["a"]
  /\ ~ guidance s `prefix_of` guidance (run_searcher searching_env 0 s).
Proof.
  cbn. repeat split.
  intros [k Hk]. discriminate Hk.
Qed.

(** ** Coordinate mapping *)

Lemma py_min_spec (l : list Q) :
  forall x : Q,
    py_min x l ∈ x :: l /\ Forall (fun y => py_min x l <= y)%Q (x :: l).
Proof.
  induction l as [|y l IH]; intros x.
  - cbn. split; [left|]. repeat constructor. apply Qle_refl.
  - unfold py_min. cbn [fold_left]. fold (py_min (if Qlt_le_dec y x then y else x) l).
    destruct (IH (if Qlt_le_dec y x then y else x)) as [Hin Hle].
    apply Forall_cons in Hle as [Hm Hl].
    destruct (Qlt_le_dec y x) as [Hlt | Hge].
    + split.
      * right. exact Hin.
      * repeat apply Forall_cons_2; try assumption.
        eapply Qle_trans; [exact Hm|apply Qlt_le_weak, Hlt].
    + split.
      * apply elem_of_cons in Hin as [-> | Hin]; [left|right; right; exact Hin].
      * repeat apply Forall_cons_2; try assumption.
        eapply Qle_trans; [exact Hm|exact Hge].
Qed.

Lemma py_max_spec (l : list Q) :
  forall x : Q,
    py_max x l ∈ x :: l /\ Forall (fun y => y <= py_max x l)%Q (x :: l).
Proof.
  induction l as [|y l IH]; intros x.
  - cbn. split; [left|]. repeat constructor. apply Qle_refl.
  - unfold py_max. cbn [fold_left]. fold (py_max (if Qlt_le_dec x y then y else x) l).
    destruct (IH (if Qlt_le_dec x y then y else x)) as [Hin Hle].
    apply Forall_cons in Hle as [Hm Hl].
    destruct (Qlt_le_dec x y) as [Hlt | Hge].
    + split.
      * right. exact Hin.
      * repeat apply Forall_cons_2; try assumption.
        eapply Qle_trans; [apply Qlt_le_weak, Hlt|exact Hm].
    + split.
      * apply elem_of_cons in Hin as [-> | Hin]; [left|right; right; exact Hin].
      * repeat apply Forall_cons_2; try assumption.
        eapply Qle_trans; [exact Hge|exact Hm].
Qed.

Lemma words_by_page_fold (l : list PdfElement.t) :
  forall (m : gmap Z (list PdfElement.t)) (page : Z),
    default []
      (fold_left
         (fun m element =>
            let page_num := PdfElement.page_number element in
            <[page_num := default [] (m !! page_num) ++ [element]]> m)
         l m !! page)
    = default [] (m !! page)
      ++ List.filter (fun w => PdfElement.page_number w =? page) l.
Proof.
  induction l as [|e l IH]; intros m page; cbn [fold_left List.filter].
  - rewrite app_nil_r. reflexivity.
  - rewrite IH. destruct (Z.eqb_spec (PdfElement.page_number e) page) as [E|E].
    + subst. rewrite lookup_insert_eq. cbn. rewrite <- app_assoc. reflexivity.
    + rewrite lookup_insert_ne by exact E. reflexivity.
Qed.

Lemma words_by_page_lookup (words : list PdfElement.t) (page : Z) :
  default [] (words_by_page words !! page)
  = List.filter (fun w => PdfElement.page_number w =? page) words.
Proof.
  unfold words_by_page. rewrite words_by_page_fold, lookup_empty. reflexivity.
Qed.

Lemma filter_twice {A} (f g : A -> bool) (l : list A) :
  List.filter f (List.filter g l) = List.filter (fun x => g x && f x) l.
Proof.
  induction l as [|x l IH]; [reflexivity|]. cbn.
  destruct (g x); cbn; [destruct (f x)|]; rewrite ?IH; reflexivity.
Qed.

Lemma union_bbox_single (b : BBox) : union_bbox [b] b.
Proof.
  unfold union_bbox. cbn.
  repeat split; try (left; fail); repeat constructor; apply Qle_refl.
Qed.

Lemma Forall_map_box (f : BBox -> Q) (P : Q -> Prop) (l : list BBox) :
  Forall P (map f l) -> Forall (fun c => P (f c)) l.
Proof.
  induction l as [|c l IH]; cbn; intros H; [constructor|].
  apply Forall_cons in H as [Hc Hl]. constructor; [exact Hc|apply IH, Hl].
Qed.

Lemma union_bbox_merge (b : BBox) (bs : list BBox) :
  union_bbox (b :: bs) (merge_bboxes b bs).
Proof.
  unfold union_bbox, merge_bboxes. cbn [x0 y0 x1 y1 map].
  destruct (py_min_spec (map x0 bs) (x0 b)) as [A1 A2].
  destruct (py_min_spec (map y0 bs) (y0 b)) as [B1 B2].
  destruct (py_max_spec (map x1 bs) (x1 b)) as [C1 C2].
  destruct (py_max_spec (map y1 bs) (y1 b)) as [D1 D2].
  repeat split; try assumption.
  - exact (Forall_map_box x0 _ (b :: bs) A2).
  - exact (Forall_map_box y0 _ (b :: bs) B2).
  - exact (Forall_map_box x1 (fun y => y <= _)%Q (b :: bs) C2).
  - exact (Forall_map_box y1 (fun y => y <= _)%Q (b :: bs) D2).
Qed.

Lemma matched_words_no_ids (words : list PdfElement.t) (page : Z) :
  matched_words words page [] = [].
Proof.
  unfold matched_words. induction words as [|w ws IH]; [reflexivity|].
  cbn. rewrite andb_false_r. exact IH.
Qed.

Lemma map_item_spec (words : list PdfElement.t) (m : CoordinateMappedItem.t) :
  match map_item (words_by_page words) m with
  | Some o => has_match words m = true /\ region_of words m o
  | None => has_match words m = false
  end.
Proof.
  unfold map_item, has_match, region_of.
  destruct (CoordinateMappedItem.element_ids m) as [|i ids] eqn:Hids.
  - cbn. rewrite matched_words_no_ids. reflexivity.
  - cbn [truthy_list negb].
    rewrite words_by_page_lookup, filter_twice.
    fold (matched_words words (CoordinateMappedItem.page_number m) (i :: ids)).
    destruct (matched_words words _ (i :: ids)) as [|w [|w' ws]];
      [reflexivity| |]; cbn [truthy_list SensitiveItem.page_number
        SensitiveItem.content SensitiveItem.reason SensitiveItem.bbox];
      refine (conj eq_refl (conj eq_refl (conj eq_refl (conj eq_refl _)))).
    + apply union_bbox_single.
    + apply (union_bbox_merge (PdfElement.bbox w)
               (map PdfElement.bbox (w' :: ws))).
Qed.

Lemma final_items_spec (words : list PdfElement.t)
    (res : list CoordinateMappedItem.t) :
  Forall2 (region_of words) (List.filter (has_match words) res)
    (omap (map_item (words_by_page words)) res).
Proof.
  induction res as [|m res IH]; [constructor|].
  cbn [omap list_omap List.filter].
  pose proof (map_item_spec words m) as Hm.
  destruct (map_item (words_by_page words) m) as [o|].
  - destruct Hm as [-> Hr]. constructor; assumption.
  - rewrite Hm. exact IH.
Qed.

(** C3: when the mapping call answers, the emitted regions are, in order,
    those of the mapped items that match at least one cached word element of
    their page; each carries the page, content and reason of its item and
    the union box of the matched words (least x0 and y0, greatest x1 and
    y1).  An item with no element ids, or whose ids match no cached word of
    its page, has no match and so yields no region; nothing is raised. *)
Theorem coordinate_mapping_union (env : Env) (tick : nat)
    (items : list SensitiveContentItem) (words : list PdfElement.t)
    (res : list CoordinateMappedItem.t) :
  llm_mapping env tick items words = Some res ->
  Forall2 (region_of words) (List.filter (has_match words) res)
    (_second_llm_coordinate_mapping env tick items words)
  /\ (forall m, CoordinateMappedItem.element_ids m = [] ->
               has_match words m = false)
  /\ (forall m,
        matched_words words (CoordinateMappedItem.page_number m)
          (CoordinateMappedItem.element_ids m) = [] ->
        has_match words m = false).
Proof.
  intros Hres. unfold _second_llm_coordinate_mapping. rewrite Hres.
  split; [apply final_items_spec|]. split.
  - intros m Hm. unfold has_match. rewrite Hm, matched_words_no_ids.
    reflexivity.
  - intros m Hm. unfold has_match. rewrite Hm. reflexivity.
Qed.

Lemma coordinate_mapping_union_witness :
  Forall2 (region_of sevis_words)
    [ CoordinateMappedItem.mk 1 "N0004705512" "id" [3];
      CoordinateMappedItem.mk 1 "SEVIS ID" "label" [1; 2] ]
    (_second_llm_coordinate_mapping mapping_env 0
       [mkSensitiveContentItem "N0004705512" 1 "id"] sevis_words).
Proof.
  exact (proj1 (coordinate_mapping_union mapping_env 0
                  [mkSensitiveContentItem "N0004705512" 1 "id"] sevis_words
                  _ eq_refl)).
Defined.

(** ** Coordinate normalizer *)

Lemma polygon_split (n : nat) :
  forall polygon : list Q,
    length polygon = (2 * n)%nat ->
    polygon_xs polygon = map fst (vertices polygon)
    /\ polygon_ys polygon = Some (map snd (vertices polygon)).
Proof.
  induction n as [|n IH]; intros polygon Hlen.
  - destruct polygon; [split; reflexivity|discriminate].
  - destruct polygon as [|x [|y rest]]; try (cbn in Hlen; lia).
    destruct (IH rest) as [Hx Hy]; [cbn in Hlen; lia|].
    cbn [polygon_xs polygon_ys vertices map fst snd].
    rewrite Hx, Hy. split; reflexivity.
Qed.

Lemma min_of_least (x : Q) (l : list Q) :
  exists m, min_of (x :: l) = Some m /\ least m (x :: l).
Proof.
  exists (py_min x l). split; [reflexivity|]. apply py_min_spec.
Qed.

Lemma max_of_greatest (x : Q) (l : list Q) :
  exists m, max_of (x :: l) = Some m /\ greatest m (x :: l).
Proof.
  exists (py_max x l). split; [reflexivity|]. apply py_max_spec.
Qed.

Lemma centimeters_branch (u : string) :
  str_in u cm_units = true ->
  String.eqb u "inch" = false /\ str_in u pixel_units = false.
Proof.
  intros H. apply str_in_spec in H.
  repeat (apply elem_of_cons in H as [-> | H]); [split; reflexivity ..|].
  inversion H.
Qed.

(** C5, as the code has it: for a centimeter polygon with an even, non-zero
    number of coordinates the normalizer returns the min/max box over the
    vertices, multiplied by 72/2.54 when the reported page width or height
    is zero or missing, and scaled per axis by native size over reported
    size when both are known and non-zero: the test on the reported
    dimensions comes before the one on centimeters. *)
Theorem centimeter_polygon_box (polygon : list Q) (unit : option string)
    (di_w di_h pdf_pt_w pdf_pt_h : Q) :
  is_centimeters unit ->
  polygon <> [] -> Nat.even (length polygon) = true ->
  exists min_x min_y max_x max_y : Q,
    least min_x (map fst (vertices polygon))
    /\ least min_y (map snd (vertices polygon))
    /\ greatest max_x (map fst (vertices polygon))
    /\ greatest max_y (map snd (vertices polygon))
    /\ _polygon_to_bbox_points polygon unit di_w di_h pdf_pt_w pdf_pt_h
       = Some (if truthy_float di_w && truthy_float di_h
               then scale_box (pdf_pt_w / di_w) (pdf_pt_h / di_h)
                      min_x min_y max_x max_y
               else scale_box cm_to_points cm_to_points
                      min_x min_y max_x max_y).
Proof.
  intros Hcm Hne Heven.
  apply Nat.even_spec in Heven as [n Hn].
  destruct (polygon_split n polygon Hn) as [Hxs Hys].
  destruct (centimeters_branch _ Hcm) as [Hinch Hpix].
  unfold is_centimeters in Hcm.
  destruct polygon as [|x [|y rest]]; [contradiction|cbn in Hn; lia|].
  unfold _polygon_to_bbox_points. cbn [truthy_list].
  rewrite Hxs, Hys, Hinch, Hpix, Hcm.
  cbn [vertices map fst snd].
  destruct (min_of_least x (map fst (vertices rest))) as [min_x [E1 L1]].
  destruct (min_of_least y (map snd (vertices rest))) as [min_y [E2 L2]].
  destruct (max_of_greatest x (map fst (vertices rest))) as [max_x [E3 G1]].
  destruct (max_of_greatest y (map snd (vertices rest))) as [max_y [E4 G2]].
  rewrite E1, E2, E3, E4.
  exists min_x, min_y, max_x, max_y.
  repeat (split; [assumption|]).
  cbn [orb]. destruct (truthy_float di_w), (truthy_float di_h); reflexivity.
Qed.

Lemma centimeter_polygon_box_witness :
  exists min_x min_y max_x max_y : Q,
    least min_x [1; 3]%Q /\ least min_y [2; 1]%Q
    /\ greatest max_x [1; 3]%Q /\ greatest max_y [2; 1]%Q
    /\ _polygon_to_bbox_points [1; 2; 3; 1]%Q (Some "CM") 0 0 595 842
       = Some (scale_box cm_to_points cm_to_points min_x min_y max_x max_y).
Proof.
  refine (centimeter_polygon_box [1; 2; 3; 1]%Q (Some "CM") 0 0 595 842 _ _ _).
  - reflexivity.
  - discriminate.
  - reflexivity.
Defined.

(** The claim of C5 as written fails: with known, non-zero reported
    dimensions a centimeter polygon is scaled by native over reported size,
    here by 10, and not by 72/2.54. *)
Lemma centimeters_with_known_dimensions :
  is_centimeters (Some "cm")
  /\ _polygon_to_bbox_points [1; 1; 2; 2]%Q (Some "cm") 10 10 100 100
     = Some (scale_box (100 / 10) (100 / 10) 1 1 2 2)
  /\ ~ (x0 (scale_box (100 / 10) (100 / 10) 1 1 2 2)
        == x0 (scale_box cm_to_points cm_to_points 1 1 2 2))%Q.
Proof.
  repeat split. intros H. vm_compute in H. discriminate H.
Qed.

(** ** Duplicate regions *)

Lemma Qlt_bool_spec (a b : Q) : Qlt_bool a b = true <-> (a < b)%Q.
Proof.
  unfold Qlt_bool. rewrite negb_true_iff. split.
  - intros H. apply Qnot_le_lt. intros Hle.
    apply Qle_bool_iff in Hle. congruence.
  - intros H. destruct (Qle_bool b a) eqn:E; [|reflexivity].
    apply Qle_bool_iff in E. exfalso. exact (Qlt_not_le _ _ H E).
Qed.

Lemma is_duplicate_of_spec (existing manual_item : SensitiveItem.t) :
  is_duplicate_of existing manual_item = true
  <-> corners_close existing manual_item.
Proof.
  unfold is_duplicate_of, corners_close.
  rewrite !andb_true_iff, !Qlt_bool_spec, Z.eqb_eq. tauto.
Qed.

Lemma capture_duplicate (l : list SensitiveItem.t) (x : SensitiveItem.t) :
  (exists e, e ∈ l /\ corners_close e x) -> capture_rectangle l x = l.
Proof.
  intros [e [Hin Hc]]. unfold capture_rectangle.
  assert (existsb (fun existing => is_duplicate_of existing x) l = true) as ->.
  { apply existsb_exists. exists e. split.
    - apply list_elem_of_In, Hin.
    - apply is_duplicate_of_spec, Hc. }
  reflexivity.
Qed.

Lemma capture_fresh (l : list SensitiveItem.t) (x : SensitiveItem.t) :
  Forall (fun e => ~ corners_close e x) l -> capture_rectangle l x = l ++ [x].
Proof.
  intros Hall. unfold capture_rectangle.
  destruct (existsb _ l) eqn:E; [|reflexivity].
  apply existsb_exists in E as [e [Hin Hd]].
  rewrite Forall_forall in Hall.
  exfalso. apply (Hall e); [apply list_elem_of_In, Hin|].
  apply is_duplicate_of_spec, Hd.
Qed.

Lemma capture_cases (l : list SensitiveItem.t) (x : SensitiveItem.t) :
  (exists e, e ∈ l /\ corners_close e x)
  \/ Forall (fun e => ~ corners_close e x) l.
Proof.
  destruct (existsb (fun existing => is_duplicate_of existing x) l) eqn:E.
  - left. apply existsb_exists in E as [e [Hin Hd]]. exists e. split.
    + apply list_elem_of_In, Hin.
    + apply is_duplicate_of_spec, Hd.
  - right. apply Forall_forall. intros e Hin Hc.
    assert (existsb (fun existing => is_duplicate_of existing x) l = true).
    { apply existsb_exists. exists e. split.
      - apply list_elem_of_In, Hin.
      - apply is_duplicate_of_spec, Hc. }
    congruence.
Qed.

Lemma distinct_snoc (l : list SensitiveItem.t) (x : SensitiveItem.t) :
  distinct_regions l -> Forall (fun e => ~ corners_close e x) l ->
  distinct_regions (l ++ [x]).
Proof.
  induction l as [|a l IH]; cbn; intros Hd Hall.
  - split; [constructor|exact I].
  - destruct Hd as [Ha Hd]. apply Forall_cons in Hall as [Hax Hall].
    split; [|apply IH; assumption].
    apply Forall_app. split; [exact Ha|]. constructor; [exact Hax|constructor].
Qed.

Lemma capture_rectangle_distinct (l : list SensitiveItem.t)
    (x : SensitiveItem.t) :
  distinct_regions l -> distinct_regions (capture_rectangle l x).
Proof.
  intros Hd. destruct (capture_cases l x) as [Hdup | Hfresh].
  - rewrite capture_duplicate by exact Hdup. exact Hd.
  - rewrite capture_fresh by exact Hfresh. apply distinct_snoc; assumption.
Qed.

Lemma capture_rectangles_distinct (new : list SensitiveItem.t) :
  forall l, distinct_regions l -> distinct_regions (capture_rectangles l new).
Proof.
  unfold capture_rectangles.
  induction new as [|x new IH]; intros l Hd; cbn [fold_left]; [exact Hd|].
  apply IH, capture_rectangle_distinct, Hd.
Qed.

Lemma redact_rects_snoc (annots : list Annot) (r : BBox) :
  redact_rects (annots ++ [RedactAnnot r]) = redact_rects annots ++ [r].
Proof.
  unfold redact_rects. rewrite omap_app. reflexivity.
Qed.

Lemma total_regions_annotate (pages : list Page) (r : BBox) :
  forall i : nat,
    (i < length pages)%nat ->
    total_regions (alter (add_annot (RedactAnnot r)) i pages)
    = S (total_regions pages).
Proof.
  induction pages as [|p pages IH]; intros i Hi; [cbn in Hi; lia|].
  destruct i as [|i]; cbn [alter list_alter total_regions].
  - unfold region_count, add_annot. cbn.
    rewrite redact_rects_snoc, length_app. cbn. lia.
  - change (list_alter (add_annot (RedactAnnot r)) i pages)
      with (alter (add_annot (RedactAnnot r)) i pages).
    rewrite IH by (cbn in Hi; lia). lia.
Qed.

Lemma page_index_lt (doc : Document) (i : Z) (k : nat) :
  page_index doc i = Some k -> (k < length (doc_pages doc))%nat.
Proof.
  unfold page_index.
  destruct (Z.leb_spec (Z.of_nat (length (doc_pages doc))) i);
    [discriminate|].
  destruct (Z.eqb_spec (Z.of_nat (length (doc_pages doc))) 0);
    [discriminate|].
  cbn. intros [= <-].
  pose proof (Z.mod_pos_bound i (Z.of_nat (length (doc_pages doc)))).
  lia.
Qed.

Lemma add_redact_annots_count (items : list SensitiveItem.t) :
  forall doc doc',
    add_redact_annots doc items = Some doc' ->
    doc_name doc' = doc_name doc
    /\ total_regions (doc_pages doc')
       = (total_regions (doc_pages doc) + length items)%nat.
Proof.
  induction items as [|it items IH]; intros doc doc'; cbn [add_redact_annots].
  - intros [= <-]. split; [reflexivity|cbn; lia].
  - destruct (page_index doc _) as [k|] eqn:Hk; [|discriminate].
    intros H. apply IH in H as [Hn Ht]. split; [exact Hn|].
    rewrite Ht. cbn [annotate doc_pages length].
    rewrite total_regions_annotate by (eapply page_index_lt; exact Hk). lia.
Qed.

Lemma committed_after_apply (pages : list Page) :
  committed_count (map apply_redactions pages) = total_regions pages.
Proof.
  induction pages as [|p pages IH]; [reflexivity|].
  cbn [map committed_count total_regions]. rewrite IH.
  unfold apply_redactions, region_count. cbn. rewrite length_app. reflexivity.
Qed.

Lemma redactor_commits_all (env : Env) (fs fs' : gmap string (list Page))
    (path out : string) (items : list SensitiveItem.t)
    (output_path : option string) :
  _apply_redactions_to_pdf env fs path items output_path = (fs', Ok out) ->
  exists pages pages',
    fs !! path = Some pages /\ fs' !! out = Some pages'
    /\ committed_count pages' = (total_regions pages + length items)%nat.
Proof.
  unfold _apply_redactions_to_pdf, fitz_open.
  destruct (fs !! path) as [pages|] eqn:Hp; [|discriminate].
  destruct (add_redact_annots _ items) as [doc'|] eqn:Ha; [|discriminate].
  apply add_redact_annots_count in Ha as [_ Ht]. cbn in Ht.
  unfold doc_save.
  destruct (String.eqb _ _); [discriminate|].
  destruct (write_ok env _); [|discriminate].
  intros [= <- <-].
  exists pages, (map apply_redactions (doc_pages doc')).
  split; [reflexivity|]. split.
  - apply lookup_insert_eq.
  - rewrite committed_after_apply. exact Ht.
Qed.

(** C4, as the code has it: duplicates are told apart when a manual
    rectangle is captured, not when regions are committed.  A drawn
    rectangle is dropped when an already captured manual rectangle of its
    page has its top-left corner closer than 5 units in both coordinates,
    and is appended otherwise; a capture that starts from a list without
    duplicates ends with one.  The redactor commits every region it is
    handed, close corners or not. *)
Theorem duplicates_at_capture (env : Env) (fs fs' : gmap string (list Page))
    (path out : string) (output_path : option string)
    (manual_rectangles new_rectangles items : list SensitiveItem.t)
    (manual_item : SensitiveItem.t) :
  ((exists e, e ∈ manual_rectangles /\ corners_close e manual_item) ->
   capture_rectangle manual_rectangles manual_item = manual_rectangles)
  /\ (Forall (fun e => ~ corners_close e manual_item) manual_rectangles ->
      capture_rectangle manual_rectangles manual_item
      = manual_rectangles ++ [manual_item])
  /\ (distinct_regions manual_rectangles ->
      distinct_regions (capture_rectangles manual_rectangles new_rectangles))
  /\ (_apply_redactions_to_pdf env fs path items output_path = (fs', Ok out) ->
      exists pages pages',
        fs !! path = Some pages /\ fs' !! out = Some pages'
        /\ committed_count pages'
           = (total_regions pages + length items)%nat).
Proof.
  split; [apply capture_duplicate|].
  split; [apply capture_fresh|].
  split; [apply capture_rectangles_distinct|].
  apply redactor_commits_all.
Qed.

Lemma duplicates_at_capture_witness :
  capture_rectangle [region_at 2 100 200] (region_at 2 102 201)
  = [region_at 2 100 200]
  /\ capture_rectangle [region_at 2 100 200] (region_at 2 140 200)
     = [region_at 2 100 200; region_at 2 140 200].
Proof.
  split.
  - refine (proj1 (duplicates_at_capture failing_env ∅ ∅ "" "" None
                     [region_at 2 100 200] [] [] (region_at 2 102 201)) _).
    exists (region_at 2 100 200). split; [left|].
    unfold corners_close. cbn. repeat split; reflexivity.
  - refine (proj1 (proj2 (duplicates_at_capture failing_env ∅ ∅ "" "" None
                     [region_at 2 100 200] [] [] (region_at 2 140 200))) _).
    repeat constructor. unfold corners_close. cbn.
    intros [_ [H _]]. vm_compute in H. discriminate H.
Defined.

(** The claim of C4 as written fails: two detected regions of page 2 with
    top-left corners (100, 200) and (102, 201) are both committed by the
    redactor. *)
Lemma close_regions_both_committed :
  corners_close (region_at 2 100 200) (region_at 2 102 201)
  /\ exists fs',
      _apply_redactions_to_pdf failing_env two_page_disk "doc.pdf"
        [region_at 2 100 200; region_at 2 102 201] None
      = (fs', Ok "doc.pdf_AI_REDACTED.pdf")
      /\ fs' !! "doc.pdf_AI_REDACTED.pdf"
         = Some [ blank_page;
                  mkPage "text" []
                    [ SensitiveItem.bbox (region_at 2 100 200);
                      SensitiveItem.bbox (region_at 2 102 201) ] ].
Proof.
  split.
  - unfold corners_close. cbn. repeat split; reflexivity.
  - eexists. split; [reflexivity|]. vm_compute. reflexivity.
Qed.

(** ** Failed redactions *)

Lemma add_redact_annots_length (items : list SensitiveItem.t) :
  forall doc doc',
    add_redact_annots doc items = Some doc' ->
    length (doc_pages doc') = length (doc_pages doc).
Proof.
  induction items as [|it items IH]; intros doc doc'; cbn [add_redact_annots].
  - intros [= <-]. reflexivity.
  - destruct (page_index doc _) as [k|]; [|discriminate].
    intros H. apply IH in H. rewrite H. cbn. apply length_alter.
Qed.

Lemma add_redact_annots_past_end (items : list SensitiveItem.t) :
  forall doc,
    Exists (page_past_end (length (doc_pages doc))) items ->
    add_redact_annots doc items = None.
Proof.
  induction items as [|it items IH]; intros doc Hex; [inversion Hex|].
  cbn [add_redact_annots].
  destruct (page_index doc _) as [k|] eqn:Hk; [|reflexivity].
  apply Exists_cons in Hex as [Hbad | Hex].
  - unfold page_index, page_past_end in *.
    apply Z.leb_le in Hbad. rewrite Hbad in Hk. discriminate.
  - apply IH. cbn [annotate doc_pages]. rewrite length_alter. exact Hex.
Qed.

Lemma doc_save_keeps_source (env : Env) (fs fs' : gmap string (list Page))
    (doc : Document) (out : string) :
  doc_save env fs doc out = Some fs' ->
  fs' !! doc_name doc = fs !! doc_name doc.
Proof.
  unfold doc_save.
  destruct (String.eqb_spec out (doc_name doc)); [discriminate|].
  destruct (write_ok env out); [|discriminate].
  intros [= <-]. apply lookup_insert_ne. exact n.
Qed.

Lemma add_manual_annots_name (rects : list SensitiveItem.t) :
  forall doc, doc_name (add_manual_annots doc rects) = doc_name doc.
Proof.
  unfold add_manual_annots.
  induction rects as [|r rects IH]; intros doc; cbn [fold_left]; [reflexivity|].
  rewrite IH. destruct (_ && _); reflexivity.
Qed.

Lemma ai_redaction_keeps_source (env : Env) (fs : gmap string (list Page))
    (path : string) (items : list SensitiveItem.t)
    (output_path : option string) :
  fst (_apply_redactions_to_pdf env fs path items output_path) !! path
  = fs !! path
  /\ (snd (_apply_redactions_to_pdf env fs path items output_path) = Raised ->
      fst (_apply_redactions_to_pdf env fs path items output_path) = fs).
Proof.
  unfold _apply_redactions_to_pdf, fitz_open.
  destruct (fs !! path) as [pages|] eqn:Hp; [|split; [exact Hp|reflexivity]].
  destruct (add_redact_annots _ items) as [doc'|] eqn:Ha;
    [|split; [exact Hp|reflexivity]].
  apply add_redact_annots_count in Ha as [Hn _]. cbn in Hn.
  destruct (doc_save env fs (apply_all_redactions doc') _) as [fs'|] eqn:Hs;
    [|split; [exact Hp|reflexivity]].
  apply doc_save_keeps_source in Hs. cbn in Hs. rewrite Hn in Hs.
  cbn. split; [rewrite Hs; exact Hp|discriminate].
Qed.

Lemma manual_redaction_keeps_source (env : Env) (fs : gmap string (list Page))
    (path : string) (rects : list SensitiveItem.t) :
  fst (apply_manual_redactions env fs path rects) !! path = fs !! path.
Proof.
  unfold apply_manual_redactions, fitz_open.
  destruct (negb _); [reflexivity|].
  destruct (fs !! path) as [pages|] eqn:Hp; [|exact Hp].
  destruct (doc_save env fs _ _) as [fs'|] eqn:Hs; [|exact Hp].
  apply doc_save_keeps_source in Hs. cbn in Hs.
  rewrite add_manual_annots_name in Hs. cbn in Hs. cbn. rewrite Hs. exact Hp.
Qed.

(** C8, as the code has it.  The source file is never written: after any
    redaction pass, failed or not, the file system holds at the source path
    what it held before.  The redactor raises, and leaves the whole file
    system untouched, when a region names a page past the end of the
    document or when the output cannot be written.  The manual redactor
    raises in neither case: once the document is open it always returns a
    path, and when the output cannot be written that path is the source
    path itself, with the file system untouched. *)
Theorem failed_redaction_keeps_source (env : Env)
    (fs : gmap string (list Page)) (path : string) (pages : list Page)
    (items : list SensitiveItem.t) (output_path : option string) :
  fs !! path = Some pages ->
  (fst (_apply_redactions_to_pdf env fs path items output_path) !! path
   = Some pages)
  /\ (fst (apply_manual_redactions env fs path items) !! path = Some pages)
  /\ (Exists (page_past_end (length pages)) items
      \/ write_ok env (ai_output_path env path output_path) = false ->
      _apply_redactions_to_pdf env fs path items output_path = (fs, Raised))
  /\ (exists out, snd (apply_manual_redactions env fs path items) = Ok out)
  /\ (items <> [] ->
      write_ok env (manual_redacted_path_of env path) = false ->
      apply_manual_redactions env fs path items = (fs, Ok path)).
Proof.
  intros Hp.
  split; [|split; [|split; [|split]]].
  - rewrite (proj1 (ai_redaction_keeps_source env fs path items output_path)).
    exact Hp.
  - rewrite manual_redaction_keeps_source. exact Hp.
  - intros Hbad. unfold _apply_redactions_to_pdf, fitz_open. rewrite Hp.
    destruct (add_redact_annots _ items) as [doc'|] eqn:Ha; [|reflexivity].
    destruct Hbad as [Hex | Hw].
    + rewrite add_redact_annots_past_end in Ha by exact Hex. discriminate.
    + unfold doc_save. fold (ai_output_path env path output_path).
      rewrite Hw. destruct (String.eqb _ _); reflexivity.
  - unfold apply_manual_redactions, fitz_open. rewrite Hp.
    destruct (negb _); [eexists; reflexivity|].
    destruct (doc_save env fs _ _); eexists; reflexivity.
  - intros Hne Hw. unfold apply_manual_redactions, fitz_open. rewrite Hp.
    destruct items; [contradiction|]. cbn [truthy_list negb].
    unfold doc_save. rewrite Hw. destruct (String.eqb _ _); reflexivity.
Qed.

Lemma failed_redaction_keeps_source_witness :
  _apply_redactions_to_pdf failing_env two_page_disk "doc.pdf"
    [region_at 3 100 200] None
  = (two_page_disk, Raised).
Proof.
  refine (proj1 (proj2 (proj2
            (failed_redaction_keeps_source failing_env two_page_disk "doc.pdf"
               [blank_page; blank_page] [region_at 3 100 200] None _))) _).
  - reflexivity.
  - left. constructor. unfold page_past_end. cbn. lia.
Defined.

(** The claim of C8 as written fails on the manual path: with a disk that
    refuses the write, and a rectangle on a page the document does not
    have, the manual redactor raises nothing and hands back the source path
    as its result. *)
Lemma manual_redaction_failure_is_not_reported :
  page_past_end 2 (region_at 9 100 200)
  /\ write_ok readonly_env (manual_redacted_path_of readonly_env "doc.pdf")
     = false
  /\ apply_manual_redactions readonly_env two_page_disk "doc.pdf"
       [region_at 9 100 200]
     = (two_page_disk, Ok "doc.pdf")
  /\ snd (apply_manual_redactions failing_env two_page_disk "doc.pdf"
            [region_at 9 100 200])
     = Ok "doc.pdf_MANUAL_REDACTED.pdf".
Proof.
  repeat split. unfold page_past_end. cbn. lia.
Qed.

(** ** The evaluator loop *)

Lemma run_detector_frame (env : Env) (tick : nat) (s : SanitizerState) :
  evaluator_cycles (run_detector env tick s) = evaluator_cycles s
  /\ max_evaluator_cycles (run_detector env tick s) = max_evaluator_cycles s
  /\ sensitive_data_description (run_detector env tick s)
     = sensitive_data_description s.
Proof.
  unfold run_detector, _first_detection, _feedback_detection.
  destruct (negb (truthy_str _)); [repeat split|].
  destruct (negb _ || negb _).
  - destruct (_run_dual_ocr_parallel env tick _) as [[pe we]|];
      [|repeat split].
    destruct (negb _ || negb _); repeat split.
  - destruct (negb _ || negb _); repeat split.
Qed.

Lemma evaluator_loops (env : Env) (tick : nat) (s : SanitizerState) :
  always_reports_issues env ->
  max_cycles s = 3 -> cycles s < 3 -> guidance s <> [] ->
  next_node (run_evaluator env tick s) = Some "Detector"
  /\ evaluator_cycles (run_evaluator env tick s) = Some (cycles s + 1)
  /\ max_evaluator_cycles (run_evaluator env tick s) = Some 3
  /\ guidance (run_evaluator env tick s) <> [].
Proof.
  intros Hall Hmax Hc Hg. unfold run_evaluator.
  unfold max_cycles, cycles, guidance in *.
  rewrite Hmax.
  destruct (Z.leb_spec 3 (default 0 (evaluator_cycles s))); [lia|].
  destruct (list_or_empty (sensitive_data_description s)) as [|g gs] eqn:Hgs;
    [contradiction|].
  cbn [truthy_list negb].
  destruct (Hall tick (g :: gs)
              (list_or_empty (page_level_pdf_elements s))
              (list_or_empty (sensitive_data s))) as [res [-> [-> Hmsg]]].
  destruct (feedback_message res) eqn:Hf; [contradiction|].
  cbn. rewrite Hgs. cbn.
  repeat split.
  - destruct (max_evaluator_cycles s); cbn in *; congruence.
  - discriminate.
Qed.

Lemma evaluator_stops (env : Env) (tick : nat) (s : SanitizerState) :
  max_cycles s <= cycles s ->
  next_node (run_evaluator env tick s) = Some "HumanInLoop"
  /\ cycles (run_evaluator env tick s) = cycles s
  /\ max_cycles (run_evaluator env tick s) = max_cycles s.
Proof.
  intros Hc. unfold run_evaluator, max_cycles, cycles in *.
  destruct (Z.leb_spec (default 3 (max_evaluator_cycles s))
              (default 0 (evaluator_cycles s))); [|lia].
  cbn. destruct (evaluator_cycles s), (max_evaluator_cycles s); repeat split.
Qed.

Lemma highlighter_frame (env : Env) (fs fs' : gmap string (list Page))
    (s s' : SanitizerState) :
  run_highlighter env fs s = (fs', Ok s') ->
  evaluator_cycles s' = evaluator_cycles s.
Proof.
  unfold run_highlighter.
  destruct (negb _ || negb _); [intros [= _ <-]; reflexivity|].
  destruct (fitz_open fs _); [|discriminate].
  destruct (doc_save env fs _ _); [|discriminate].
  intros [= _ <-]. reflexivity.
Qed.

Lemma run_graph_step (ib : list Node) (env : Env) (steps tick : nat)
    (node : Node) (fs : gmap string (list Page)) (s : SanitizerState) :
  existsb (Node_eqb node) ib = false ->
  run_graph ib env (S steps) tick node fs s
  = match run_node env tick node fs s with
    | (fs', Raised) => ([], Crashed node fs')
    | (fs', Ok (s', None)) => ([(node, s')], Ended fs' s')
    | (fs', Ok (s', Some nxt)) =>
        let '(trace, out) := run_graph ib env steps (S tick) nxt fs' s' in
        ((node, s') :: trace, out)
    end.
Proof.
  intros H. cbn [run_graph]. rewrite H. reflexivity.
Qed.

Lemma run_graph_interrupt (ib : list Node) (env : Env) (steps tick : nat)
    (node : Node) (fs : gmap string (list Page)) (s : SanitizerState) :
  existsb (Node_eqb node) ib = true ->
  run_graph ib env steps tick node fs s = ([], Interrupted node fs s).
Proof.
  intros H. destruct steps; cbn [run_graph]; rewrite H; reflexivity.
Qed.

Lemma evaluator_edge_gate (s : SanitizerState) :
  next_node s = Some "HumanInLoop" ->
  evaluator_edges (route_from_evaluator s) = Some Highlighter.
Proof.
  unfold route_from_evaluator. intros ->. reflexivity.
Qed.

Lemma evaluator_edge_detector (s : SanitizerState) :
  next_node s = Some "Detector" ->
  evaluator_edges (route_from_evaluator s) = Some Detector.
Proof.
  unfold route_from_evaluator. intros ->. reflexivity.
Qed.

(** The run from the detector on, [k] rounds below the ceiling. *)
Lemma detection_loop (env : Env) (fs : gmap string (list Page)) (k : nat) :
  always_reports_issues env ->
  forall (steps tick : nat) (s : SanitizerState),
    max_cycles s = 3 -> cycles s = 3 - Z.of_nat k -> 0 <= cycles s ->
    guidance s <> [] ->
    (2 * k + 3 <= steps)%nat ->
    exists loop hl out s_e,
      run_graph [HumanInLoop] env steps tick Detector fs s
      = (loop ++ hl, out)
      /\ map fst loop = detection_rounds (S k)
      /\ last loop = Some (Evaluator, s_e)
      /\ next_node s_e = Some "HumanInLoop"
      /\ cycles s_e = 3
      /\ Forall (fun e => cycles (snd e) <= 3) (loop ++ hl)
      /\ ((hl = [] /\ exists fs', out = Crashed Highlighter fs')
          \/ (exists fs' s', hl = [(Highlighter, s')]
                             /\ out = Interrupted HumanInLoop fs' s')).
Proof.
  intros Hall. induction k as [|k IH]; intros steps tick s Hmax Hc H0 Hg Hsteps.
  - destruct steps as [|[|[|steps]]]; try lia.
    destruct (run_detector_frame env tick s) as [Fc [Fm Fg]].
    rewrite (run_graph_step _ _ _ _ Detector) by reflexivity. cbn [run_node].
    remember (run_detector env tick s) as sd eqn:Hsd.
    assert (Hsc : cycles sd = 3) by (unfold cycles; rewrite Fc; exact Hc).
    assert (Hsm : max_cycles sd = 3)
      by (unfold max_cycles; rewrite Fm; exact Hmax).
    destruct (evaluator_stops env (S tick) sd) as [En [Ec Em]]; [lia|].
    rewrite (run_graph_step _ _ _ _ Evaluator) by reflexivity. cbn [run_node].
    remember (run_evaluator env (S tick) sd) as se eqn:Hse.
    rewrite (evaluator_edge_gate se En).
    rewrite (run_graph_step _ _ _ _ Highlighter) by reflexivity.
    cbn [run_node].
    destruct (run_highlighter env fs se) as [fs' [sh|]] eqn:Hh.
    + rewrite run_graph_interrupt by reflexivity.
      exists [(Detector, sd); (Evaluator, se)], [(Highlighter, sh)],
        (Interrupted HumanInLoop fs' sh), se.
      assert (cycles sh = 3).
      { unfold cycles. rewrite (highlighter_frame _ _ _ _ _ Hh).
        fold (cycles se). lia. }
      split; [reflexivity|].
      split; [reflexivity|]. split; [reflexivity|].
      split; [exact En|]. split; [lia|]. split.
      * repeat constructor; cbn [snd]; lia.
      * right. eauto.
    + exists [(Detector, sd); (Evaluator, se)], [],
        (Crashed Highlighter fs'), se.
      split; [reflexivity|].
      split; [reflexivity|]. split; [reflexivity|].
      split; [exact En|]. split; [lia|]. split.
      * repeat constructor; cbn [snd]; lia.
      * left. eauto.
  - destruct steps as [|[|steps]]; try lia.
    destruct (run_detector_frame env tick s) as [Fc [Fm Fg]].
    rewrite (run_graph_step _ _ _ _ Detector) by reflexivity. cbn [run_node].
    remember (run_detector env tick s) as sd eqn:Hsd.
    assert (Hsc : cycles sd = cycles s)
      by (unfold cycles; rewrite Fc; reflexivity).
    assert (Hsm : max_cycles sd = 3)
      by (unfold max_cycles; rewrite Fm; exact Hmax).
    assert (Hsg : guidance sd <> [])
      by (unfold guidance; rewrite Fg; exact Hg).
    destruct (evaluator_loops env (S tick) sd Hall Hsm) as [En [Ec [Em Eg]]];
      [lia|exact Hsg|].
    rewrite (run_graph_step _ _ _ _ Evaluator) by reflexivity. cbn [run_node].
    remember (run_evaluator env (S tick) sd) as se eqn:Hse.
    rewrite (evaluator_edge_detector se En).
    destruct (IH steps (S (S tick)) se) as
      [loop [hl [out [s_e [Hrun [Hnodes [Hlast [Hn [Hce [Hall3 Hout]]]]]]]]]].
    + unfold max_cycles. rewrite Em. reflexivity.
    + change (cycles se) with (default 0 (evaluator_cycles se)).
      rewrite Ec. cbn [default from_option id]. lia.
    + change (cycles se) with (default 0 (evaluator_cycles se)).
      rewrite Ec. cbn [default from_option id]. lia.
    + exact Eg.
    + lia.
    + rewrite Hrun.
      exists ((Detector, sd) :: (Evaluator, se) :: loop), hl, out, s_e.
      split; [reflexivity|].
      split; [cbn [map fst detection_rounds] in *; rewrite Hnodes; reflexivity|].
      split.
      { destruct loop as [|e loop]; [discriminate Hlast|]. exact Hlast. }
      split; [exact Hn|]. split; [exact Hce|]. split; [|exact Hout].
      cbn [app]. constructor; [cbn [snd]; lia|].
      constructor; [|exact Hall3].
      cbn [snd]. change (cycles se) with (default 0 (evaluator_cycles se)).
      rewrite Ec. cbn [default from_option id]. lia.
Qed.

Lemma detections_nodes (trace : list (Node * SanitizerState)) :
  detections trace
  = length (List.filter (fun n => Node_eqb n Detector) (map fst trace)).
Proof.
  unfold detections. induction trace as [|e trace IH]; [reflexivity|].
  cbn [map List.filter]. destruct (Node_eqb (fst e) Detector); cbn [length];
    rewrite IH; reflexivity.
Qed.

(** C1: take a run that reaches detection with a fresh loop counter (absent
    or 0), the default ceiling of 3 (absent or 3) and a non-empty guidance
    list, in a world whose evaluator reports issues with a feedback message
    every time it is asked.  Given nine steps or more (LangGraph allows 25),
    the run consists of four rounds of detection and evaluation, that is the
    initial detection and exactly three re-runs; the fourth evaluation sets
    the route to the human gate, which the graph reaches through the
    Highlighter; and the loop counter never exceeds 3 in any state of the
    run. *)
Theorem evaluator_loop_ceiling (env : Env) (fs : gmap string (list Page))
    (steps tick : nat) (s : SanitizerState) :
  always_reports_issues env ->
  evaluator_cycles s = None \/ evaluator_cycles s = Some 0 ->
  max_evaluator_cycles s = None \/ max_evaluator_cycles s = Some 3 ->
  guidance s <> [] ->
  (9 <= steps)%nat ->
  exists loop hl out s_e,
    run_graph [HumanInLoop] env steps tick Detector fs s = (loop ++ hl, out)
    /\ map fst loop
       = [Detector; Evaluator; Detector; Evaluator;
          Detector; Evaluator; Detector; Evaluator]
    /\ detections (loop ++ hl) = (1 + 3)%nat
    /\ last loop = Some (Evaluator, s_e)
    /\ next_node s_e = Some "HumanInLoop"
    /\ evaluator_edges (route_from_evaluator s_e) = Some Highlighter
    /\ cycles s_e = 3
    /\ Forall (fun e => cycles (snd e) <= 3) (loop ++ hl)
    /\ ((hl = [] /\ exists fs', out = Crashed Highlighter fs')
        \/ (exists fs' s', hl = [(Highlighter, s')]
                           /\ out = Interrupted HumanInLoop fs' s')).
Proof.
  intros Hall Hc Hm Hg Hsteps.
  destruct (detection_loop env fs 3 Hall steps tick s) as
    [loop [hl [out [s_e [Hrun [Hnodes [Hlast [Hn [Hce [Hall3 Hout]]]]]]]]]].
  - unfold max_cycles. destruct Hm as [-> | ->]; reflexivity.
  - unfold cycles. destruct Hc as [-> | ->]; reflexivity.
  - unfold cycles. destruct Hc as [-> | ->]; cbn; lia.
  - exact Hg.
  - lia.
  - exists loop, hl, out, s_e.
    split; [exact Hrun|]. split; [exact Hnodes|].
    split.
    { rewrite detections_nodes, map_app, Hnodes.
      destruct Hout as [[-> _] | [fs' [s' [-> _]]]]; reflexivity. }
    split; [exact Hlast|]. split; [exact Hn|].
    split; [apply evaluator_edge_gate, Hn|].
    split; [exact Hce|]. split; [exact Hall3|exact Hout].
Qed.

Lemma nagging_env_always_reports : always_reports_issues nagging_env.
Proof.
  intros tick d p dt. eexists. split; [reflexivity|].
  split; [reflexivity|discriminate].
Qed.

Lemma evaluator_loop_ceiling_witness :
  exists loop hl out s_e,
    run_graph [HumanInLoop] nagging_env recursion_limit 2 Detector ∅
      (set_sensitive_data_description (Some ["names"])
         (start_state "doc.pdf" "names"))
    = (loop ++ hl, out)
    /\ map fst loop
       = [Detector; Evaluator; Detector; Evaluator;
          Detector; Evaluator; Detector; Evaluator]
    /\ detections (loop ++ hl) = (1 + 3)%nat
    /\ last loop = Some (Evaluator, s_e)
    /\ next_node s_e = Some "HumanInLoop"
    /\ evaluator_edges (route_from_evaluator s_e) = Some Highlighter
    /\ cycles s_e = 3
    /\ Forall (fun e => cycles (snd e) <= 3) (loop ++ hl)
    /\ ((hl = [] /\ exists fs', out = Crashed Highlighter fs')
        \/ (exists fs' s', hl = [(Highlighter, s')]
                           /\ out = Interrupted HumanInLoop fs' s')).
Proof.
  apply (evaluator_loop_ceiling nagging_env ∅ recursion_limit 2).
  - exact nagging_env_always_reports.
  - left. reflexivity.
  - left. reflexivity.
  - discriminate.
  - unfold recursion_limit. lia.
Defined.

(** * Further properties of the code *)

(** ** Boxes from polygons *)

Lemma polygon_ys_parity (n : nat) :
  forall polygon : list Q,
    (length polygon <= n)%nat ->
    (polygon_ys polygon = None <-> Nat.odd (length polygon) = true)
    /\ (forall ys, polygon_ys polygon = Some ys ->
                   length ys = Nat.div2 (length polygon)
                   /\ length (polygon_xs polygon) = Nat.div2 (length polygon)).
Proof.
  induction n as [|n IH]; intros polygon Hlen.
  - destruct polygon; [|cbn in Hlen; lia]. cbn. split.
    + split; discriminate.
    + intros ys [= <-]. split; reflexivity.
  - destruct polygon as [|x [|y rest]].
    + cbn. split; [split; discriminate|]. intros ys [= <-]. split; reflexivity.
    + cbn. split; [split; reflexivity|]. discriminate.
    + destruct (IH rest) as [Hnone Hsome]; [cbn in Hlen; lia|].
      cbn [polygon_ys polygon_xs length].
      change (Nat.odd (S (S (length rest)))) with (Nat.odd (length rest)).
      change (Nat.div2 (S (S (length rest)))) with (S (Nat.div2 (length rest))).
      destruct (polygon_ys rest) as [ys'|] eqn:E; cbn [option_map].
      * split.
        -- split; [discriminate|]. intros Ho. apply Hnone in Ho. discriminate.
        -- intros ys [= <-]. destruct (Hsome ys' eq_refl) as [H1 H2].
           cbn [length]. rewrite H1, H2. split; reflexivity.
      * split; [|discriminate].
        split; [intros _; apply Hnone; reflexivity|reflexivity].
Qed.

Lemma odd_not_even (n : nat) : Nat.odd n = true <-> Nat.even n = false.
Proof.
  rewrite <- Nat.negb_even. destruct (Nat.even n); cbn; split; congruence.
Qed.

Lemma min_of_some (l : list Q) : l <> [] -> exists m, min_of l = Some m.
Proof.
  destruct l; [contradiction|]. intros _. eexists. reflexivity.
Qed.

Lemma max_of_some (l : list Q) : l <> [] -> exists m, max_of l = Some m.
Proof.
  destruct l; [contradiction|]. intros _. eexists. reflexivity.
Qed.

(** X1: the normalizer answers with a box exactly for the polygons with an
    even number of coordinates, the empty one included; an odd number of
    coordinates raises, whatever the unit and the page sizes. *)
Theorem normalizer_raises_on_odd_polygons (polygon : list Q)
    (unit : option string) (di_w di_h pdf_pt_w pdf_pt_h : Q) :
  (exists b, _polygon_to_bbox_points polygon unit di_w di_h pdf_pt_w pdf_pt_h
             = Some b)
  <-> Nat.even (length polygon) = true.
Proof.
  destruct (polygon_ys_parity (length polygon) polygon (le_n _))
    as [Hnone Hsome].
  unfold _polygon_to_bbox_points.
  destruct polygon as [|x rest].
  - cbn [truthy_list min_of max_of py_min py_max fold_left length Nat.even].
    split; [reflexivity|]. intros _.
    repeat match goal with
           | |- context [if ?c then _ else _] => destruct c
           end; eauto.
  - cbn [truthy_list].
    destruct (polygon_ys (x :: rest)) as [ys|] eqn:E.
    + destruct (Hsome ys eq_refl) as [Hy Hx].
      assert (Nat.even (length (x :: rest)) = true) as Hev.
      { destruct (Nat.even (length (x :: rest))) eqn:Ev; [reflexivity|].
        apply odd_not_even, Hnone in Ev. discriminate. }
      split; [intros _; exact Hev|]. intros _.
      assert (Hpos : (0 < Nat.div2 (length (x :: rest)))%nat).
      { destruct rest as [|y rest]; [discriminate Hev|].
        change (0 < S (Nat.div2 (length rest)))%nat. apply Nat.lt_0_succ. }
      destruct (min_of_some (polygon_xs (x :: rest))) as [a ->];
        [intros H0; rewrite H0 in Hx; rewrite <- Hx in Hpos;
         exact (Nat.lt_irrefl _ Hpos)|].
      destruct (max_of_some (polygon_xs (x :: rest))) as [b ->];
        [intros H0; rewrite H0 in Hx; rewrite <- Hx in Hpos;
         exact (Nat.lt_irrefl _ Hpos)|].
      destruct (min_of_some ys) as [c ->];
        [intros H0; rewrite H0 in Hy; rewrite <- Hy in Hpos;
         exact (Nat.lt_irrefl _ Hpos)|].
      destruct (max_of_some ys) as [d ->];
        [intros H0; rewrite H0 in Hy; rewrite <- Hy in Hpos;
         exact (Nat.lt_irrefl _ Hpos)|].
      repeat match goal with
             | |- context [if ?c then _ else _] => destruct c
             end; eauto.
    + split.
      * intros [b Hb]. discriminate.
      * intros Hev. assert (Nat.odd (length (x :: rest)) = true) as Ho
          by (apply Hnone; reflexivity).
        apply odd_not_even in Ho. congruence.
Qed.

Lemma py_min_le_max (x : Q) (l : list Q) : (py_min x l <= py_max x l)%Q.
Proof.
  destruct (py_min_spec l x) as [_ Hmin].
  destruct (py_max_spec l x) as [_ Hmax].
  apply Forall_cons in Hmin as [Hmin _].
  apply Forall_cons in Hmax as [Hmax _].
  eapply Qle_trans; eassumption.
Qed.

Lemma min_of_le_max_of (l : list Q) (a b : Q) :
  min_of l = Some a -> max_of l = Some b -> (a <= b)%Q.
Proof.
  destruct l as [|x l]; [discriminate|]. cbn. intros [= <-] [= <-].
  apply py_min_le_max.
Qed.

Lemma scale_ordered (a b k : Q) : (a <= b)%Q -> (0 <= k)%Q -> (a * k <= b * k)%Q.
Proof.
  intros Hab Hk. apply Qmult_le_compat_r; assumption.
Qed.

Lemma ratio_nonneg (a b : Q) : (0 <= a)%Q -> (0 <= b)%Q -> (0 <= a / b)%Q.
Proof.
  intros Ha Hb. unfold Qdiv. apply Qmult_le_0_compat; [exact Ha|].
  apply Qinv_le_0_compat, Hb.
Qed.

(** X2: with page sizes that are not negative, every box the normalizer
    returns has its corners in order (x0 <= x1 and y0 <= y1), whatever the
    unit. *)
Theorem normalizer_box_ordered (polygon : list Q) (unit : option string)
    (di_w di_h pdf_pt_w pdf_pt_h : Q) (b : BBox) :
  (0 <= di_w)%Q -> (0 <= di_h)%Q -> (0 <= pdf_pt_w)%Q -> (0 <= pdf_pt_h)%Q ->
  _polygon_to_bbox_points polygon unit di_w di_h pdf_pt_w pdf_pt_h = Some b ->
  box_ordered b.
Proof.
  intros Hdw Hdh Hpw Hph. unfold _polygon_to_bbox_points.
  set (xs := if truthy_list polygon then polygon_xs polygon else [0%Q]).
  destruct (if truthy_list polygon then polygon_ys polygon else Some [0%Q])
    as [ys|]; [|discriminate].
  destruct (min_of xs) as [min_x|] eqn:E1; [|discriminate].
  destruct (max_of xs) as [max_x|] eqn:E2; [|discriminate].
  destruct (min_of ys) as [min_y|] eqn:E3; [|discriminate].
  destruct (max_of ys) as [max_y|] eqn:E4; [|discriminate].
  pose proof (min_of_le_max_of xs _ _ E1 E2) as Hx.
  pose proof (min_of_le_max_of ys _ _ E3 E4) as Hy.
  assert (H72 : (0 <= 72)%Q) by (unfold Qle; cbn; lia).
  assert (Hcm : (0 <= cm_to_points)%Q) by (unfold Qle; cbn; lia).
  assert (H1 : (0 <= 1)%Q) by (unfold Qle; cbn; lia).
  destruct (String.eqb _ _).
  { intros [= <-]. split; cbn; apply scale_ordered; assumption. }
  destruct (_ || _).
  { intros [= <-]. split; cbn; apply scale_ordered; try assumption.
    - destruct (truthy_float di_w); [apply ratio_nonneg; assumption|exact H1].
    - destruct (truthy_float di_h); [apply ratio_nonneg; assumption|exact H1]. }
  destruct (str_in _ _).
  { intros [= <-]. split; cbn; apply scale_ordered; assumption. }
  intros [= <-]. split; assumption.
Qed.

Lemma normalizer_box_ordered_witness :
  box_ordered (mkBBox (1 * (612 / (17 # 2))) (1 * (792 / 11))
                 (2 * (612 / (17 # 2))) ((3 # 2) * (792 / 11))).
Proof.
  refine (normalizer_box_ordered
            [1; 1; 2; 1; 2; (3 # 2); 1; (3 # 2)]%Q (Some "pixel")
            (17 # 2) 11 612 792 _ _ _ _ _ _);
    try (unfold Qle; cbn; lia).
  reflexivity.
Defined.

Lemma truthy_float_zero (q : Q) : (q == 0)%Q -> truthy_float q = false.
Proof.
  intros H. unfold truthy_float. apply Qeq_bool_iff in H. rewrite H.
  reflexivity.
Qed.

(** X3: reported page sizes of zero never divide and never scale: for a
    unit that is neither inches nor centimeters, pixel units included, a
    polygon with an even, non-zero number of coordinates comes back as its
    plain min/max box, as if it were in points already. *)
Theorem normalizer_zero_dimensions_pass_through (polygon : list Q)
    (unit : option string) (di_w di_h pdf_pt_w pdf_pt_h : Q) :
  (di_w == 0)%Q -> (di_h == 0)%Q ->
  lower (str_or_empty unit) <> "inch" ->
  str_in (lower (str_or_empty unit)) cm_units = false ->
  polygon <> [] -> Nat.even (length polygon) = true ->
  exists min_x min_y max_x max_y b,
    least min_x (map fst (vertices polygon))
    /\ least min_y (map snd (vertices polygon))
    /\ greatest max_x (map fst (vertices polygon))
    /\ greatest max_y (map snd (vertices polygon))
    /\ _polygon_to_bbox_points polygon unit di_w di_h pdf_pt_w pdf_pt_h
       = Some b
    /\ box_equal b (mkBBox min_x min_y max_x max_y).
Proof.
  intros Hw Hh Hinch Hcm Hne Heven.
  apply Nat.even_spec in Heven as [n Hn].
  destruct (polygon_split n polygon Hn) as [Hxs Hys].
  destruct polygon as [|x [|y rest]]; [contradiction|cbn in Hn; lia|].
  unfold _polygon_to_bbox_points. cbn [truthy_list].
  rewrite Hxs, Hys, Hcm. cbn [vertices map fst snd].
  destruct (min_of_least x (map fst (vertices rest))) as [min_x [E1 L1]].
  destruct (min_of_least y (map snd (vertices rest))) as [min_y [E2 L2]].
  destruct (max_of_greatest x (map fst (vertices rest))) as [max_x [E3 G1]].
  destruct (max_of_greatest y (map snd (vertices rest))) as [max_y [E4 G2]].
  rewrite E1, E2, E3, E4.
  rewrite (truthy_float_zero di_w Hw), (truthy_float_zero di_h Hh).
  destruct (String.eqb_spec (lower (str_or_empty unit)) "inch");
    [contradiction|].
  exists min_x, min_y, max_x, max_y.
  destruct (str_in _ pixel_units); cbn [orb andb]; eexists;
    (repeat (split; [eassumption|])); (split; [reflexivity|]);
    unfold box_equal; cbn [x0 y0 x1 y1]; repeat split;
    try apply Qmult_1_r; reflexivity.
Qed.

Lemma normalizer_zero_dimensions_pass_through_witness :
  exists min_x min_y max_x max_y b,
    least min_x [4; 6]%Q /\ least min_y [5; 3]%Q
    /\ greatest max_x [4; 6]%Q /\ greatest max_y [5; 3]%Q
    /\ _polygon_to_bbox_points [4; 5; 6; 3]%Q (Some "Pixel") 0 0 612 792
       = Some b
    /\ box_equal b (mkBBox min_x min_y max_x max_y).
Proof.
  refine (normalizer_zero_dimensions_pass_through [4; 5; 6; 3]%Q
            (Some "Pixel") 0 0 612 792 _ _ _ _ _ _);
    try reflexivity; discriminate.
Defined.

Lemma vertices_length (n : nat) :
  forall polygon : list Q,
    length polygon = (2 * n)%nat -> length (vertices polygon) = n.
Proof.
  induction n as [|n IH]; intros polygon Hlen.
  - destruct polygon; [reflexivity|discriminate].
  - destruct polygon as [|x [|y rest]]; try (cbn in Hlen; lia).
    cbn [vertices length]. rewrite IH; [reflexivity|cbn in Hlen; lia].
Qed.

(** X4: for a polygon with an even number of coordinates, four or more,
    [_polygon_to_bbox] returns a box that holds every vertex of the
    polygon. *)
Theorem polygon_box_holds_vertices (polygon : list Q) :
  (4 <= length polygon)%nat -> Nat.even (length polygon) = true ->
  exists b, _polygon_to_bbox polygon = Some b
            /\ Forall (in_box b) (vertices polygon).
Proof.
  intros H4 Heven.
  apply Nat.even_spec in Heven as [n Hn].
  destruct (polygon_split n polygon Hn) as [Hxs Hys].
  unfold _polygon_to_bbox.
  assert ((length polygon <? 4)%nat = false) as -> by (apply Nat.ltb_ge, H4).
  destruct polygon as [|x [|y rest]]; [cbn in H4; lia|cbn in Hn; lia|].
  cbn [truthy_list negb orb]. rewrite Hxs, Hys.
  cbn [vertices map fst snd].
  destruct (min_of_least x (map fst (vertices rest))) as [min_x [E1 [_ L1]]].
  destruct (min_of_least y (map snd (vertices rest))) as [min_y [E2 [_ L2]]].
  destruct (max_of_greatest x (map fst (vertices rest))) as [max_x [E3 [_ G1]]].
  destruct (max_of_greatest y (map snd (vertices rest))) as [max_y [E4 [_ G2]]].
  rewrite E1, E2, E3, E4. eexists. split; [reflexivity|].
  change (x :: map fst (vertices rest)) with (map fst ((x, y) :: vertices rest))
    in L1, G1.
  change (y :: map snd (vertices rest)) with (map snd ((x, y) :: vertices rest))
    in L2, G2.
  rewrite Forall_forall in L1, L2, G1, G2.
  apply Forall_forall. intros v Hv. unfold in_box. cbn [x0 y0 x1 y1].
  repeat split.
  - apply L1. apply (list_elem_of_fmap_2 fst), Hv.
  - apply G1. apply (list_elem_of_fmap_2 fst), Hv.
  - apply L2. apply (list_elem_of_fmap_2 snd), Hv.
  - apply G2. apply (list_elem_of_fmap_2 snd), Hv.
Qed.

Lemma polygon_box_holds_vertices_witness :
  exists b, _polygon_to_bbox [1; 1; 2; 1; 2; (3 # 2); 1; (3 # 2)]%Q = Some b
            /\ Forall (in_box b) [(1, 1); (2, 1); (2, 3 # 2); (1, 3 # 2)]%Q.
Proof.
  refine (polygon_box_holds_vertices
            [1; 1; 2; 1; 2; (3 # 2); 1; (3 # 2)]%Q _ _).
  - cbn. lia.
  - reflexivity.
Defined.

(** ** Numbering of the extracted elements *)

Lemma count_from_succ (id : Z) (n : nat) :
  count_from id (S n) = (id + 1) :: count_from (id + 1) n.
Proof.
  unfold count_from. cbn [seq map]. f_equal.
  rewrite <- seq_shift, map_map. apply map_ext. intros i. lia.
Qed.

Lemma count_from_app (a b : nat) :
  forall id, count_from id (a + b)
             = count_from id a ++ count_from (id + Z.of_nat a) b.
Proof.
  induction a as [|a IH]; intros id.
  - cbn [Nat.add]. change (Z.of_nat 0) with 0.
    replace (id + 0) with id by lia. reflexivity.
  - cbn [Nat.add]. rewrite !count_from_succ, IH. cbn [app].
    replace (id + 1 + Z.of_nat a) with (id + Z.of_nat (S a)) by lia.
    reflexivity.
Qed.

Lemma extract_page_words_spec (page : AzurePage) (w h : Q)
    (words : list (string * list Q)) :
  forall (id : Z) (els : list PdfElement.t),
    extract_page_words page w h id words = Some els ->
    map PdfElement.element_id els = count_from id (length words)
    /\ map PdfElement.content els = map fst words
    /\ Forall (fun e => PdfElement.page_number e = az_page_number page) els.
Proof.
  induction words as [|[content polygon] words IH]; intros id els.
  - intros [= <-]. repeat split. constructor.
  - cbn [extract_page_words].
    destruct (_polygon_to_bbox_points _ _ _ _ _ _) as [bbox|]; [|discriminate].
    destruct (extract_page_words page w h (id + 1) words) as [rest|] eqn:E;
      [|discriminate].
    intros [= <-]. destruct (IH _ _ E) as [Hid [Hc Hp]].
    cbn [map length fst PdfElement.element_id PdfElement.content].
    rewrite count_from_succ, Hid, Hc. repeat split.
    constructor; [reflexivity|exact Hp].
Qed.

(** X5: the word elements of a page are numbered 1, 2, ... in the order of
    the words, starting again on every page; each carries the text of its
    word and the number of its page. *)
Theorem word_ids_restart_on_each_page (page : AzurePage) (w h : Q)
    (els : list PdfElement.t) :
  extract_page_words page w h 0 (az_words page) = Some els ->
  map PdfElement.element_id els
  = map Z.of_nat (seq 1 (length (az_words page)))
  /\ map PdfElement.content els = map fst (az_words page)
  /\ Forall (fun e => PdfElement.page_number e = az_page_number page) els.
Proof.
  intros H. apply extract_page_words_spec in H as [Hid [Hc Hp]].
  split; [|split; assumption].
  rewrite Hid. unfold count_from. apply map_ext. intros i. lia.
Qed.

Lemma word_ids_restart_on_each_page_witness :
  exists els,
    extract_page_words (mkAzurePage 1 (Some (17 # 2)) (Some 11%Q) (Some "inch")
                          [("John", [1; 1; 2; 2]%Q); ("Smith", [2; 1; 3; 2]%Q)])
      612 792 0 [("John", [1; 1; 2; 2]%Q); ("Smith", [2; 1; 3; 2]%Q)]
    = Some els
    /\ map PdfElement.element_id els = [1; 2]
    /\ map PdfElement.content els = ["John"; "Smith"].
Proof.
  eexists. split; [reflexivity|].
  pose proof (word_ids_restart_on_each_page
                (mkAzurePage 1 (Some (17 # 2)) (Some 11%Q) (Some "inch")
                   [("John", [1; 1; 2; 2]%Q); ("Smith", [2; 1; 3; 2]%Q)])
                612 792 _ eq_refl) as [H1 [H2 _]].
  split; [exact H1|exact H2].
Defined.

(** X6: the word pass keeps the words of the pages the document has and no
    others: every element lies on a page between 1 and the page count, and
    there are as many elements as words on those pages. *)
Theorem word_elements_lie_in_document (azure_pages : list AzurePage)
    (sizes : list (Q * Q)) (els : list PdfElement.t) :
  _extract_word_elements azure_pages sizes = Some els ->
  Forall (fun e => 1 <= PdfElement.page_number e <= Z.of_nat (length sizes))
    els
  /\ length els
     = length (concat (map az_words
                         (List.filter (page_in_document sizes) azure_pages))).
Proof.
  revert els. induction azure_pages as [|page rest IH]; intros els.
  - intros [= <-]. split; [constructor|reflexivity].
  - cbn [_extract_word_elements List.filter]. unfold page_in_document at 1.
    destruct (_ && _) eqn:Hin; [|apply IH].
    destruct (nth_error sizes _) as [[w h]|]; [|discriminate].
    destruct (extract_page_words page w h 0 (az_words page)) as [here|] eqn:E;
      [|discriminate].
    destruct (_extract_word_elements rest sizes) as [there|]; [|discriminate].
    intros [= <-]. destruct (IH there eq_refl) as [Hr Hl].
    apply extract_page_words_spec in E as [Hid [_ Hp]].
    split.
    + apply Forall_app. split; [|exact Hr].
      eapply Forall_impl; [exact Hp|]. intros e ->.
      apply andb_true_iff in Hin as [H1 H2].
      apply Z.leb_le in H1. apply Z.ltb_lt in H2. lia.
    + cbn [map concat]. rewrite !length_app, <- Hl. f_equal.
      rewrite <- (length_map PdfElement.element_id), Hid.
      unfold count_from. rewrite length_map, length_seq. reflexivity.
Qed.

Lemma word_elements_lie_in_document_witness :
  exists els,
    _extract_word_elements sample_layout [(612, 792)%Q] = Some els
    /\ map PdfElement.content els = ["John"; "Smith"]
    /\ Forall (fun e => 1 <= PdfElement.page_number e <= 1) els.
Proof.
  eexists. split; [reflexivity|]. split; [reflexivity|].
  exact (proj1 (word_elements_lie_in_document sample_layout [(612, 792)%Q]
                  _ eq_refl)).
Defined.

Lemma read_blocks_spec (tag : string)
    (to_bbox : option (list Q) -> option BBox) (page_num : Z)
    (blocks : list (string * option (list Q))) :
  forall (id last : Z) (els : list (PdfElement.t * string)),
    read_blocks tag to_bbox page_num id blocks = Some (last, els) ->
    last = id + Z.of_nat (length els)
    /\ map (fun e => PdfElement.element_id (fst e)) els
       = count_from id (length els)
    /\ Forall (fun e => PdfElement.content (fst e) <> ""
                        /\ PdfElement.page_number (fst e) = page_num
                        /\ snd e = tag) els.
Proof.
  induction blocks as [|[content polygon] blocks IH]; intros id last els.
  - intros [= <- <-]. cbn. repeat split; [lia|constructor].
  - cbn [read_blocks]. destruct (truthy_str content) eqn:Hc; [|apply IH].
    destruct (to_bbox polygon) as [bbox|]; [|discriminate].
    destruct (read_blocks tag to_bbox page_num (id + 1) blocks)
      as [[last' els']|] eqn:E; [|discriminate].
    intros [= <- <-]. destruct (IH _ _ _ E) as [Hl [Hid Hall]].
    cbn [length map fst PdfElement.element_id].
    rewrite count_from_succ, Hid. repeat split; [lia|].
    constructor; [|exact Hall]. cbn. repeat split.
    intros ->. discriminate Hc.
Qed.

Lemma read_pages_spec (pages : list ReadPage) :
  forall (id : Z) (els : list (PdfElement.t * string)),
    read_pages id pages = Some els ->
    map (fun e => PdfElement.element_id (fst e)) els
    = count_from id (length els)
    /\ Forall (fun e => PdfElement.content (fst e) <> "") els.
Proof.
  induction pages as [|page pages IH]; intros id els.
  - intros [= <-]. split; [reflexivity|constructor].
  - cbn [read_pages].
    destruct (if truthy_list (rp_paragraphs page) then _ else _)
      as [[last here]|] eqn:E; [|discriminate].
    destruct (read_pages last pages) as [more|] eqn:Em; [|discriminate].
    intros [= <-]. destruct (IH _ _ Em) as [Hid Hall].
    assert (Hb : last = id + Z.of_nat (length here)
                 /\ map (fun e => PdfElement.element_id (fst e)) here
                    = count_from id (length here)
                 /\ Forall (fun e => PdfElement.content (fst e) <> "") here).
    { destruct (truthy_list (rp_paragraphs page));
        apply read_blocks_spec in E as [H1 [H2 H3]];
        (split; [exact H1|split; [exact H2|]]);
        (eapply Forall_impl; [exact H3|]); intros e [He _]; exact He. }
    destruct Hb as [Hlast [Hhere Hne]]. split.
    + rewrite map_app, length_app, count_from_app, Hhere, Hid, Hlast.
      reflexivity.
    + apply Forall_app. split; assumption.
Qed.

(** X7: the page-level pass numbers its elements 1, 2, ... through the
    whole document, without starting again on a new page, and keeps no
    element with an empty content. *)
Theorem page_level_ids_run_through_document (pages : list ReadPage)
    (els : list (PdfElement.t * string)) :
  read_pages 0 pages = Some els ->
  map (fun e => PdfElement.element_id (fst e)) els
  = map Z.of_nat (seq 1 (length els))
  /\ Forall (fun e => PdfElement.content (fst e) <> "") els.
Proof.
  intros H. apply read_pages_spec in H as [Hid Hne]. split; [|exact Hne].
  rewrite Hid. unfold count_from. apply map_ext. intros i. lia.
Qed.

Lemma page_level_ids_run_through_document_witness :
  exists els,
    read_pages 0 sample_read = Some els
    /\ map (fun e => PdfElement.element_id (fst e)) els = [1; 2]
    /\ map (fun e => PdfElement.page_number (fst e)) els = [1; 2]
    /\ map snd els = ["paragraph"; "line"].
Proof.
  eexists. split; [reflexivity|].
  split; [|split; reflexivity].
  exact (proj1 (page_level_ids_run_through_document sample_read _ eq_refl)).
Defined.

(** ** Detector *)

(** X8: with a cached extraction, a classifier that fails or finds nothing
    leaves no detection behind: the detector replaces the regions of the
    state, whatever they were, by the empty list, and the mapping call has no
    say in it. *)
Theorem classifier_failure_clears_detections (env : Env) (tick : nat)
    (s : SanitizerState) (path : string) :
  pdf_path s = Some path -> path <> "" ->
  list_or_empty (page_level_pdf_elements s) <> [] ->
  list_or_empty (word_level_pdf_elements s) <> [] ->
  _first_llm_content_analysis env tick
    (list_or_empty (page_level_pdf_elements s)) (guidance s) = [] ->
  sensitive_data (run_detector env tick s) = Some [].
Proof.
  intros Hp Hne Hpl Hwl Hllm. unfold run_detector, guidance in *.
  rewrite Hp. cbn [str_or_empty].
  destruct path; [contradiction|]. cbn [truthy_str negb].
  destruct (list_or_empty (page_level_pdf_elements s)) as [|p ps] eqn:E1;
    [contradiction|].
  destruct (list_or_empty (word_level_pdf_elements s)) as [|w ws] eqn:E2;
    [contradiction|].
  cbn [truthy_list negb orb]. unfold _feedback_detection.
  rewrite E1, E2. cbn [truthy_list negb orb].
  unfold _run_dual_llm_analysis. rewrite Hllm. reflexivity.
Qed.

Lemma classifier_failure_clears_detections_witness :
  sensitive_data cached_state = Some [region_at 1 10 10]
  /\ sensitive_data (run_detector failing_env 0 cached_state) = Some [].
Proof.
  split; [reflexivity|].
  refine (classifier_failure_clears_detections failing_env 0 cached_state
            "doc.pdf" eq_refl _ _ _ eq_refl); discriminate.
Defined.

Lemma truthy_list_true {A} (l : list A) : truthy_list l = true <-> l <> [].
Proof.
  destruct l; cbn; split; intros; congruence.
Qed.

(** X9: the detector never caches one extraction without the other: from a
    state whose cache is empty or holds both lists non-empty, it returns
    such a state again. *)
Theorem detector_keeps_cache_consistent (env : Env) (tick : nat)
    (s : SanitizerState) :
  cache_consistent s -> cache_consistent (run_detector env tick s).
Proof.
  intros Hc. unfold run_detector.
  destruct (negb (truthy_str _)); [exact Hc|].
  destruct (negb _ || negb _) eqn:Hcase.
  - unfold _first_detection.
    destruct (_run_dual_ocr_parallel env tick _) as [[pe we]|]; [|exact Hc].
    destruct (negb (truthy_list pe) || negb (truthy_list we)) eqn:He;
      [exact Hc|].
    apply orb_false_iff in He as [H1 H2].
    apply negb_false_iff, truthy_list_true in H1.
    apply negb_false_iff, truthy_list_true in H2.
    right. cbn. split; assumption.
  - unfold _feedback_detection. rewrite orb_comm in Hcase. rewrite Hcase.
    destruct Hc as [[H1 H2] | [H1 H2]]; [left|right]; cbn; split; assumption.
Qed.

Lemma detector_keeps_cache_consistent_witness :
  cache_consistent (run_detector page_pass_fails_env 0
                      (start_state "doc.pdf" "names")).
Proof.
  apply detector_keeps_cache_consistent. left. split; reflexivity.
Defined.

(** ** Evaluator *)

Lemma evaluator_outcomes (env : Env) (tick : nat) (s : SanitizerState) :
  (next_node (run_evaluator env tick s) = Some "Detector"
   /\ cycles (run_evaluator env tick s) = cycles s + 1
   /\ cycles s < max_cycles s
   /\ exists msg, msg <> ""
                  /\ guidance (run_evaluator env tick s) = guidance s ++ [msg])
  \/ (next_node (run_evaluator env tick s) = Some "HumanInLoop"
      /\ cycles (run_evaluator env tick s) = cycles s
      /\ guidance (run_evaluator env tick s) = guidance s).
Proof.
  unfold run_evaluator, cycles, max_cycles, guidance.
  destruct s as [up pp sdd sq pl wl sd ec mc pv fp nn ua ind jur].
  cbn [evaluator_cycles max_evaluator_cycles sensitive_data_description
       page_level_pdf_elements sensitive_data set_evaluator_cycles
       set_max_evaluator_cycles].
  destruct (Z.leb_spec (default 3 mc) (default 0 ec)) as [Hge | Hlt].
  { right. cbn. destruct ec; repeat split. }
  destruct (negb (truthy_list (list_or_empty sdd))).
  { right. cbn. destruct ec; repeat split. }
  destruct (llm_evaluate env tick _ _ _) as [res|].
  2:{ right. cbn. destruct ec; repeat split. }
  destruct (issues_found res); cbn [andb].
  2:{ right. cbn. destruct ec; repeat split. }
  destruct (feedback_message res) as [|c msg] eqn:Hm; cbn [truthy_str].
  { right. cbn. destruct ec; repeat split. }
  left. cbn. repeat split; [exact Hlt|].
  eexists. split; [|reflexivity]. discriminate.
Qed.

Lemma evaluator_keeps_ceiling (env : Env) (tick : nat) (s : SanitizerState) :
  max_cycles (run_evaluator env tick s) = max_cycles s
  /\ is_Some (evaluator_cycles (run_evaluator env tick s))
  /\ is_Some (max_evaluator_cycles (run_evaluator env tick s)).
Proof.
  unfold run_evaluator, max_cycles.
  destruct s as [up pp sdd sq pl wl sd ec mc pv fp nn ua ind jur].
  cbn [evaluator_cycles max_evaluator_cycles sensitive_data_description
       page_level_pdf_elements sensitive_data set_evaluator_cycles
       set_max_evaluator_cycles].
  repeat match goal with
         | |- context [if ?c then _ else _] => destruct c
         | |- context [match llm_evaluate ?e ?t ?a ?b ?c with _ => _ end] =>
             destruct (llm_evaluate e t a b c)
         end; cbn; destruct ec, mc; cbn; repeat split; eauto.
Qed.

(** X10: in the evaluator the loop counter and the guidance list move
    together.  Either it sends the run back to the Detector, and then the
    counter was below its ceiling, grows by one, and the guidance list grows
    by one non-empty message; or it sends the run to the human gate, and
    then counter and guidance are as they were.  The ceiling is never
    changed, and both counters are present afterwards. *)
Theorem evaluator_counter_and_guidance_move_together (env : Env) (tick : nat)
    (s : SanitizerState) :
  ((next_node (run_evaluator env tick s) = Some "Detector"
    /\ cycles (run_evaluator env tick s) = cycles s + 1
    /\ cycles s < max_cycles s
    /\ exists msg, msg <> ""
                   /\ guidance (run_evaluator env tick s) = guidance s ++ [msg])
   \/ (next_node (run_evaluator env tick s) = Some "HumanInLoop"
       /\ cycles (run_evaluator env tick s) = cycles s
       /\ guidance (run_evaluator env tick s) = guidance s))
  /\ max_cycles (run_evaluator env tick s) = max_cycles s
  /\ is_Some (evaluator_cycles (run_evaluator env tick s))
  /\ is_Some (max_evaluator_cycles (run_evaluator env tick s)).
Proof.
  split; [apply evaluator_outcomes|apply evaluator_keeps_ceiling].
Qed.

(** ** The graph before the human gate *)

Lemma orchestrator_route_total (s : SanitizerState) :
  orchestrator_edges (route_from_orchestrator s) = Some Searcher
  \/ orchestrator_edges (route_from_orchestrator s) = Some Detector.
Proof.
  unfold route_from_orchestrator.
  destruct (str_in _ _) eqn:E; [|right; reflexivity].
  apply str_in_spec in E.
  repeat (apply elem_of_cons in E as [-> | E]);
    [left; reflexivity|right; reflexivity|inversion E].
Qed.

Lemma evaluator_route_total (s : SanitizerState) :
  evaluator_edges (route_from_evaluator s) = Some Detector
  \/ evaluator_edges (route_from_evaluator s) = Some Highlighter.
Proof.
  unfold route_from_evaluator.
  destruct (str_in _ _) eqn:E; [|right; reflexivity].
  apply str_in_spec in E.
  repeat (apply elem_of_cons in E as [-> | E]);
    [left; reflexivity|right; reflexivity|inversion E].
Qed.

Lemma hitl_route_total (s : SanitizerState) :
  hitl_edges (route_from_hitl s) = Some Redactor
  \/ hitl_edges (route_from_hitl s) = Some Orchestrator
  \/ hitl_edges (route_from_hitl s) = Some HumanInLoop.
Proof.
  unfold route_from_hitl.
  destruct (String.eqb _ "Redactor"); [left; reflexivity|].
  destruct (String.eqb _ "Orchestrator"); [right; left; reflexivity|].
  right; right; reflexivity.
Qed.

Lemma highlighter_tail (env : Env) (steps tick : nat)
    (fs : gmap string (list Page)) (s : SanitizerState) :
  paused_or_preview_failed
    (snd (run_graph [HumanInLoop] env (S steps) tick Highlighter fs s))
  /\ detections
       (fst (run_graph [HumanInLoop] env (S steps) tick Highlighter fs s))
     = O.
Proof.
  rewrite (run_graph_step _ _ _ _ Highlighter) by reflexivity.
  cbn [run_node].
  destruct (run_highlighter env fs s) as [fs' [sh|]].
  - rewrite run_graph_interrupt by reflexivity. cbn. split; [|reflexivity].
    left. eauto.
  - cbn. split; [|reflexivity]. right. eauto.
Qed.

Lemma rounds_left_frame (s s' : SanitizerState) :
  evaluator_cycles s' = evaluator_cycles s ->
  max_evaluator_cycles s' = max_evaluator_cycles s ->
  rounds_left s' = rounds_left s.
Proof.
  unfold rounds_left, cycles, max_cycles. intros -> ->. reflexivity.
Qed.

Lemma detection_loop_bounded (env : Env) (fs : gmap string (list Page))
    (k : nat) :
  forall (steps tick : nat) (s : SanitizerState),
    (rounds_left s <= k)%nat -> (2 * k + 3 <= steps)%nat ->
    paused_or_preview_failed
      (snd (run_graph [HumanInLoop] env steps tick Detector fs s))
    /\ (1 <= detections
               (fst (run_graph [HumanInLoop] env steps tick Detector fs s))
        <= k + 1)%nat.
Proof.
  induction k as [|k IH]; intros steps tick s Hk Hsteps;
    (destruct steps as [|[|[|steps]]]; try lia);
    rewrite (run_graph_step _ _ _ _ Detector) by reflexivity;
    cbn [run_node];
    destruct (run_detector_frame env tick s) as [Fc [Fm _]];
    pose proof (rounds_left_frame s _ Fc Fm) as Hr;
    remember (run_detector env tick s) as sd eqn:Hsd;
    rewrite (run_graph_step _ _ _ _ Evaluator) by reflexivity;
    cbn [run_node];
    destruct (evaluator_keeps_ceiling env (S tick) sd) as [Hmax _];
    destruct (evaluator_outcomes env (S tick) sd)
      as [[En [Ec [Hlt _]]] | [En _]];
    remember (run_evaluator env (S tick) sd) as se eqn:Hse.
  - exfalso. unfold rounds_left in *. lia.
  - rewrite (evaluator_edge_gate se En).
    destruct (highlighter_tail env steps (S (S tick)) fs se) as [Ho Hd].
    destruct (run_graph [HumanInLoop] env (S steps) (S (S tick))
                Highlighter fs se) as [trace out].
    cbn [fst snd] in *. split; [exact Ho|].
    unfold detections in *. cbn [List.filter fst Node_eqb length].
    rewrite Hd. lia.
  - rewrite (evaluator_edge_detector se En).
    destruct (IH (S steps) (S (S tick)) se) as [Ho Hd].
    + unfold rounds_left in *. lia.
    + lia.
    + destruct (run_graph [HumanInLoop] env (S steps) (S (S tick))
                  Detector fs se) as [trace out].
      cbn [fst snd] in *. split; [exact Ho|].
      unfold detections in *. cbn [List.filter fst Node_eqb length]. lia.
  - rewrite (evaluator_edge_gate se En).
    destruct (highlighter_tail env steps (S (S tick)) fs se) as [Ho Hd].
    destruct (run_graph [HumanInLoop] env (S steps) (S (S tick))
                Highlighter fs se) as [trace out].
    cbn [fst snd] in *. split; [exact Ho|].
    unfold detections in *. cbn [List.filter fst Node_eqb length].
    rewrite Hd. lia.
Qed.

(** X11: the detection loop ends whatever the evaluator answers.  From the
    detector, with a loop counter that is [n] below its ceiling ([n] is 0
    when it is at or past it), a run given 2n + 3 steps stops before the
    human gate, or in the Highlighter if the preview cannot be written; it
    never runs out of steps, and detection runs at least once and at most
    n + 1 times. *)
Theorem detection_loop_is_bounded (env : Env) (fs : gmap string (list Page))
    (steps tick : nat) (s : SanitizerState) :
  (2 * rounds_left s + 3 <= steps)%nat ->
  paused_or_preview_failed
    (snd (run_graph [HumanInLoop] env steps tick Detector fs s))
  /\ (1 <= detections
             (fst (run_graph [HumanInLoop] env steps tick Detector fs s))
      <= rounds_left s + 1)%nat.
Proof.
  intros H. apply detection_loop_bounded; [apply le_n|exact H].
Qed.

Lemma detection_loop_is_bounded_witness :
  paused_or_preview_failed
    (snd (run_graph [HumanInLoop] nagging_env recursion_limit 2 Detector ∅
            (start_state "doc.pdf" "names")))
  /\ (1 <= detections
             (fst (run_graph [HumanInLoop] nagging_env recursion_limit 2
                     Detector ∅ (start_state "doc.pdf" "names")))
      <= 3 + 1)%nat.
Proof.
  apply (detection_loop_is_bounded nagging_env ∅ recursion_limit 2
           (start_state "doc.pdf" "names")).
  vm_compute. lia.
Defined.

Lemma gate_run_safe (env : Env) (steps : nat) :
  forall (node : Node) (tick : nat) (fs : gmap string (list Page))
         (s : SanitizerState),
    before_gate node ->
    Forall (fun e => before_gate (fst e))
      (fst (run_graph [HumanInLoop] env steps tick node fs s))
    /\ match snd (run_graph [HumanInLoop] env steps tick node fs s) with
       | Interrupted n _ _ => n = HumanInLoop
       | Ended _ _ => False
       | Crashed n _ => n = Highlighter
       | RecursionLimit => True
       end.
Proof.
  induction steps as [|steps IH]; intros node tick fs s Hn.
  - destruct Hn as [-> | [-> | [-> | [-> | ->]]]]; cbn; split;
      try constructor; exact I.
  - assert (Hcont : forall nxt fs' s',
              before_gate nxt ->
              Forall (fun e => before_gate (fst e))
                (fst (let '(trace, out) :=
                        run_graph [HumanInLoop] env steps (S tick) nxt fs' s'
                      in ((node, s') :: trace, out)))
              /\ match snd (let '(trace, out) :=
                             run_graph [HumanInLoop] env steps (S tick) nxt
                               fs' s'
                           in ((node, s') :: trace, out)) with
                 | Interrupted n _ _ => n = HumanInLoop
                 | Ended _ _ => False
                 | Crashed n _ => n = Highlighter
                 | RecursionLimit => True
                 end).
    { intros nxt fs' s' Hnxt. destruct (IH nxt (S tick) fs' s' Hnxt) as [H1 H2].
      destruct (run_graph [HumanInLoop] env steps (S tick) nxt fs' s')
        as [trace out]. cbn [fst snd] in *. split; [|exact H2].
      constructor; [exact Hn|exact H1]. }
    destruct Hn as [-> | [-> | [-> | [-> | ->]]]];
      rewrite run_graph_step by reflexivity; cbn [run_node].
    + destruct (orchestrator_route_total (orchestrator_node env tick s))
        as [-> | ->]; apply Hcont; unfold before_gate; auto 10.
    + apply Hcont; unfold before_gate; auto 10.
    + apply Hcont; unfold before_gate; auto 10.
    + destruct (evaluator_route_total (run_evaluator env tick s))
        as [-> | ->]; apply Hcont; unfold before_gate; auto 10.
    + destruct (run_highlighter env fs s) as [fs' [sh|]].
      * rewrite run_graph_interrupt by reflexivity. cbn. split; [|reflexivity].
        constructor; [|constructor]. unfold before_gate. cbn. auto 10.
      * cbn. split; [constructor|reflexivity].
Qed.

(** X12: a run of the workflow never goes past the human gate on its own.
    Whatever the state, the collaborators and the number of steps, only
    Orchestrator, Searcher, Detector, Evaluator and Highlighter run; the
    Redactor does not, the graph does not reach its end, and the only node
    that can break the run is the Highlighter. *)
Theorem workflow_stops_at_the_gate (env : Env) (steps : nat)
    (fs : gmap string (list Page)) (s : SanitizerState) :
  Forall (fun e => before_gate (fst e))
    (fst (run_graph [HumanInLoop] env steps 0 Orchestrator fs s))
  /\ match snd (run_graph [HumanInLoop] env steps 0 Orchestrator fs s) with
     | Interrupted n _ _ => n = HumanInLoop
     | Ended _ _ => False
     | Crashed n _ => n = Highlighter
     | RecursionLimit => True
     end.
Proof.
  apply gate_run_safe. left. reflexivity.
Qed.

Lemma orchestrator_frame (env : Env) (tick : nat) (s : SanitizerState) :
  evaluator_cycles (orchestrator_node env tick s) = evaluator_cycles s
  /\ max_evaluator_cycles (orchestrator_node env tick s)
     = max_evaluator_cycles s
  /\ sensitive_data (orchestrator_node env tick s) = sensitive_data s
  /\ page_level_pdf_elements (orchestrator_node env tick s)
     = page_level_pdf_elements s
  /\ word_level_pdf_elements (orchestrator_node env tick s)
     = word_level_pdf_elements s
  /\ user_approval (orchestrator_node env tick s) = user_approval s.
Proof.
  unfold orchestrator_node.
  repeat match goal with
         | |- context [if ?c then _ else _] => destruct c
         | |- context [match llm_route ?e ?t ?a with _ => _ end] =>
             destruct (llm_route e t a)
         end; repeat split.
Qed.

Lemma searcher_frame (env : Env) (tick : nat) (s : SanitizerState) :
  evaluator_cycles (run_searcher env tick s) = evaluator_cycles s
  /\ max_evaluator_cycles (run_searcher env tick s) = max_evaluator_cycles s
  /\ sensitive_data (run_searcher env tick s) = sensitive_data s
  /\ page_level_pdf_elements (run_searcher env tick s)
     = page_level_pdf_elements s
  /\ word_level_pdf_elements (run_searcher env tick s)
     = word_level_pdf_elements s
  /\ user_approval (run_searcher env tick s) = user_approval s.
Proof.
  unfold run_searcher.
  repeat match goal with
         | |- context [if ?c then _ else _] => destruct c
         end; repeat split.
Qed.



(** ** Orchestrator and Searcher *)

Lemma rstrip_idempotent (s : string) : rstrip (rstrip s) = rstrip s.
Proof.
  induction s as [|c s IH]; [reflexivity|].
  cbn [rstrip]. destruct (rstrip s) as [|c' r] eqn:E.
  - destruct (is_space c) eqn:Hc; [reflexivity|]. cbn. rewrite Hc. reflexivity.
  - change (rstrip (String c (String c' r)))
      with (match rstrip (String c' r) with
            | EmptyString =>
                if is_space c then EmptyString else String c EmptyString
            | r0 => String c r0
            end).
    rewrite IH. reflexivity.
Qed.

Lemma rstrip_head (c : ascii) (s : string) :
  rstrip (String c s) = "" \/ exists r, rstrip (String c s) = String c r.
Proof.
  cbn [rstrip]. destruct (rstrip s).
  - destruct (is_space c); [left; reflexivity|right; eauto].
  - right. eauto.
Qed.

Lemma lstrip_head (s : string) :
  lstrip s = ""
  \/ exists c r, lstrip s = String c r /\ is_space c = false.
Proof.
  induction s as [|c s IH]; [left; reflexivity|].
  cbn [lstrip]. destruct (is_space c) eqn:Hc; [exact IH|].
  right. eauto.
Qed.

Lemma strip_idempotent (s : string) : strip (strip s) = strip s.
Proof.
  unfold strip. destruct (lstrip_head s) as [-> | [c [r [-> Hc]]]];
    [reflexivity|].
  destruct (rstrip_head c r) as [E | [r' E]].
  - rewrite E. reflexivity.
  - rewrite E. cbn [lstrip]. rewrite Hc, <- E. apply rstrip_idempotent.
Qed.

Lemma clean_descriptions_clean (ds : list string) :
  Forall (fun d => d <> "" /\ strip d = d) (clean_descriptions ds).
Proof.
  unfold clean_descriptions. induction ds as [|d ds IH]; [constructor|].
  cbn [List.filter]. destruct (truthy_str d && truthy_str (strip d)) eqn:E;
    [|exact IH].
  cbn [map]. constructor; [|exact IH].
  apply andb_true_iff in E as [_ E]. split.
  - intros H. rewrite H in E. discriminate.
  - apply strip_idempotent.
Qed.

(** X14: the Orchestrator only ever adds clean rules.  Its guidance list
    is the old one followed by entries that are non-empty and carry no
    surrounding white space; nothing is added when the prompt is blank or
    the routing call fails. *)
Theorem orchestrator_adds_clean_guidance (env : Env) (tick : nat)
    (s : SanitizerState) :
  exists added,
    guidance (orchestrator_node env tick s) = guidance s ++ added
    /\ Forall (fun d => d <> "" /\ strip d = d) added
    /\ (strip (str_or_empty (user_prompt s)) = ""
        \/ llm_route env tick (strip (str_or_empty (user_prompt s))) = None ->
        added = []).
Proof.
  unfold orchestrator_node, guidance.
  destruct s as [up pp sdd sq pl wl sd ec mc pv fp nn ua ind jur].
  cbn [user_prompt set_user_prompt set_pdf_path pdf_path
       set_sensitive_data_description sensitive_data_description].
  assert (Hup : str_or_empty (setdefault up "") = str_or_empty up)
    by (destruct up; reflexivity).
  rewrite Hup.
  assert (Hsd : list_or_empty (setdefault sdd []) = list_or_empty sdd)
    by (destruct sdd; reflexivity).
  destruct (truthy_str (strip (str_or_empty up))) eqn:Hp; cbn [negb].
  2:{ exists []. cbn. rewrite Hsd, app_nil_r. repeat split. constructor. }
  destruct (llm_route env tick (strip (str_or_empty up))) as [res|] eqn:Hr.
  2:{ exists []. cbn. rewrite Hsd, app_nil_r. repeat split. constructor. }
  destruct (truthy_list (clean_descriptions (sensitive_descriptions res)))
    eqn:Hd.
  - exists (clean_descriptions (sensitive_descriptions res)).
    split; [|split].
    + destruct (_ && _); cbn; rewrite Hsd; reflexivity.
    + apply clean_descriptions_clean.
    + intros [H | H]; [|discriminate].
      rewrite H in Hp. discriminate.
  - exists []. split; [|split].
    + destruct (_ && _); cbn; rewrite Hsd, app_nil_r; reflexivity.
    + constructor.
    + reflexivity.
Qed.

(** X15: the Searcher is entered only with something to search for.  When
    the Orchestrator sets the route to the Searcher, the state holds a query
    that is non-empty and stripped, and the Searcher removes the query from
    the state once it has run. *)
Theorem searcher_entered_with_a_query (env : Env) (tick tick' : nat)
    (s : SanitizerState) :
  next_node (orchestrator_node env tick s) = Some "Searcher" ->
  exists q,
    search_query (orchestrator_node env tick s) = Some q
    /\ q <> "" /\ strip q = q
    /\ search_query (run_searcher env tick' (orchestrator_node env tick s))
       = None.
Proof.
  unfold orchestrator_node.
  destruct (negb (truthy_str _)); [cbn; discriminate|].
  destruct (llm_route env tick _) as [res|]; [|cbn; discriminate].
  destruct (truthy_str (strip (str_or_empty (od_search_query res)))
            && String.eqb (od_next_node res) "Searcher") eqn:E;
    [|destruct (truthy_list _); cbn; discriminate].
  apply andb_true_iff in E as [Hq _]. intros _.
  exists (strip (str_or_empty (od_search_query res))).
  assert (Hne : strip (str_or_empty (od_search_query res)) <> "").
  { intros H. rewrite H in Hq. discriminate. }
  split; [destruct (truthy_list _); reflexivity|].
  split; [exact Hne|]. split; [apply strip_idempotent|].
  unfold run_searcher.
  assert (Hsq : forall st,
            search_query
              (set_next_node (Some "Searcher")
                 (set_search_query
                    (Some (strip (str_or_empty (od_search_query res)))) st))
            = Some (strip (str_or_empty (od_search_query res))))
    by reflexivity.
  destruct (truthy_list (clean_descriptions (sensitive_descriptions res)));
    rewrite Hsq; cbn [str_or_empty]; rewrite strip_idempotent, Hq;
    cbn [negb]; destruct (truthy_list (searcher_descriptions _ _ _ _ _));
    reflexivity.
Qed.

Lemma searcher_entered_with_a_query_witness :
  exists q,
    search_query
      (orchestrator_node routing_env 0
         (start_state "doc.pdf" "redact per HIPAA"))
    = Some q
    /\ q <> "" /\ strip q = q
    /\ search_query
         (run_searcher routing_env 1
            (orchestrator_node routing_env 0
               (start_state "doc.pdf" "redact per HIPAA")))
       = None.
Proof.
  apply searcher_entered_with_a_query. reflexivity.
Defined.

Lemma fromkeys_from_spec (l : list string) :
  forall seen : list string,
    NoDup (fromkeys_from seen l)
    /\ (forall k, k ∈ fromkeys_from seen l <-> k ∈ l /\ k ∉ seen).
Proof.
  induction l as [|x l IH]; intros seen.
  - cbn. split; [constructor|]. intros k. split.
    + intros H. inversion H.
    + intros [H _]. inversion H.
  - cbn [fromkeys_from]. destruct (str_in x seen) eqn:E.
    + destruct (IH seen) as [Hnd Hin]. split; [exact Hnd|].
      intros k. rewrite Hin, elem_of_cons. apply str_in_spec in E.
      split; [tauto|]. intros [[-> | H] Hs]; [contradiction|tauto].
    + destruct (IH (x :: seen)) as [Hnd Hin]. apply str_in_false in E. split.
      * apply NoDup_cons. split; [|exact Hnd].
        rewrite Hin, elem_of_cons. tauto.
      * intros k. rewrite !elem_of_cons, Hin, elem_of_cons.
        destruct (decide (k = x)) as [-> | Hne]; tauto.
Qed.

(** X16: once a search has added descriptions, the guidance list holds no
    rule twice, and it holds exactly the rules that were there before or
    that the search found. *)
Theorem searcher_leaves_no_repeats (env : Env) (tick : nat)
    (s : SanitizerState) :
  strip (str_or_empty (search_query s)) <> "" ->
  searcher_descriptions env tick (strip (str_or_empty (search_query s)))
    (industry s) (jurisdiction s) <> [] ->
  NoDup (guidance (run_searcher env tick s))
  /\ (forall k,
        k ∈ guidance (run_searcher env tick s)
        <-> k ∈ guidance s
            \/ k ∈ searcher_descriptions env tick
                     (strip (str_or_empty (search_query s)))
                     (industry s) (jurisdiction s)).
Proof.
  intros Hq Hd. unfold run_searcher, guidance.
  destruct (strip (str_or_empty (search_query s))) as [|c q] eqn:E;
    [contradiction|].
  cbn [truthy_str negb].
  destruct (searcher_descriptions env tick (String c q) (industry s)
              (jurisdiction s)) as [|d ds] eqn:Ed; [contradiction|].
  cbn [truthy_list set_search_query set_sensitive_data_description
       sensitive_data_description list_or_empty].
  unfold dict_fromkeys.
  destruct (fromkeys_from_spec
              (list_or_empty (sensitive_data_description s) ++ d :: ds) [])
    as [Hnd Hin].
  split; [exact Hnd|]. intros k. rewrite Hin, elem_of_app. split.
  - tauto.
  - intros H. split; [exact H|]. intros Hk. inversion Hk.
Qed.

Lemma searcher_leaves_no_repeats_witness :
  NoDup (guidance
           (run_searcher searching_env 0
              (set_search_query (Some "hipaa")
                 (set_sensitive_data_description (Some ["a"; "b"; "a"])
                    (start_state "doc.pdf" "names"))))).
Proof.
  refine (proj1 (searcher_leaves_no_repeats searching_env 0
                   (set_search_query (Some "hipaa")
                      (set_sensitive_data_description (Some ["a"; "b"; "a"])
                         (start_state "doc.pdf" "names"))) _ _));
    discriminate.
Defined.

(** ** Human gate, again *)

Lemma run_hitl_frame (s : SanitizerState) :
  run_hitl s
  = set_user_approval (user_approval (run_hitl s))
      (set_next_node (next_node (run_hitl s)) s).
Proof.
  unfold run_hitl.
  destruct (String.eqb _ "Yes"); [destruct s; reflexivity|].
  destruct (String.eqb _ "No"); destruct s; reflexivity.
Qed.

(** X17: a decision is used up by one pass through the gate.  The gate
    changes nothing in the state but the route and the stored decision, and
    a second pass without a new decision always keeps the run suspended,
    whatever the first one did. *)
Theorem decision_is_consumed_once (s : SanitizerState) :
  next_node (run_hitl (run_hitl s)) = Some "HumanInLoop"
  /\ run_hitl s
     = set_user_approval (user_approval (run_hitl s))
         (set_next_node (next_node (run_hitl s)) s).
Proof.
  split; [|apply run_hitl_frame].
  destruct (decision_cases s) as [Hy | [Hn | [Hy Hn]]].
  - rewrite (run_hitl_yes s Hy). reflexivity.
  - rewrite (run_hitl_no s Hn). reflexivity.
  - rewrite (run_hitl_other s Hy Hn).
    rewrite run_hitl_other; [reflexivity|exact Hy|exact Hn].
Qed.

Lemma hitl_spins (env : Env) (fs : gmap string (list Page)) (steps : nat) :
  forall (tick : nat) (s : SanitizerState),
    decision s <> "Yes" -> decision s <> "No" ->
    run_graph [] env steps tick HumanInLoop fs s
    = (repeat (HumanInLoop, set_next_node (Some "HumanInLoop") s) steps,
       RecursionLimit).
Proof.
  induction steps as [|steps IH]; intros tick s Hy Hn; [reflexivity|].
  rewrite run_graph_step by reflexivity. cbn [run_node].
  rewrite (run_hitl_other s Hy Hn).
  assert (hitl_edges
            (route_from_hitl (set_next_node (Some "HumanInLoop") s))
          = Some HumanInLoop) as -> by reflexivity.
  rewrite IH by assumption.
  cbn [repeat]. reflexivity.
Qed.

(** X18: without the interrupt before the human gate the graph does not wait
    for the human.  From the gate, with no decision stored, every step runs
    the gate again on the same state, and the invocation ends only by
    exhausting its steps. *)
Theorem gate_without_interrupt_spins (env : Env)
    (fs : gmap string (list Page)) (steps tick : nat) (s : SanitizerState) :
  decision s <> "Yes" -> decision s <> "No" ->
  run_graph [] env steps tick HumanInLoop fs s
  = (repeat (HumanInLoop, set_next_node (Some "HumanInLoop") s) steps,
     RecursionLimit).
Proof.
  apply hitl_spins.
Qed.

Lemma gate_without_interrupt_spins_witness :
  snd (run_graph [] failing_env recursion_limit 0 HumanInLoop ∅
         (start_state "doc.pdf" "names"))
  = RecursionLimit.
Proof.
  rewrite (gate_without_interrupt_spins failing_env ∅ recursion_limit 0
             (start_state "doc.pdf" "names")); [reflexivity| |];
    discriminate.
Defined.

(** ** Preview and redaction on the document *)

Lemma page_extends_refl (p : Page) : page_extends p p.
Proof.
  unfold page_extends. auto.
Qed.

Lemma page_extends_trans (p q r : Page) :
  page_extends p q -> page_extends q r -> page_extends p r.
Proof.
  unfold page_extends. intros [A1 [A2 A3]] [B1 [B2 B3]].
  repeat split; [congruence|congruence|auto].
Qed.

Lemma Forall2_same {A} (R : A -> A -> Prop) (l : list A) :
  (forall x, R x x) -> Forall2 R l l.
Proof.
  intros H. induction l; constructor; auto.
Qed.

Lemma Forall2_chain {A} (R : A -> A -> Prop) :
  (forall x y z, R x y -> R y z -> R x z) ->
  forall l1 l2 l3, Forall2 R l1 l2 -> Forall2 R l2 l3 -> Forall2 R l1 l3.
Proof.
  intros Ht l1 l2 l3 H12. revert l3.
  induction H12; intros l3 H23; inversion H23; subst; constructor; eauto.
Qed.

Lemma Forall2_alter_page (R : Page -> Page -> Prop) (f : Page -> Page)
    (pages : list Page) :
  (forall p, R p p) -> (forall p, R p (f p)) ->
  forall i, Forall2 R pages (alter f i pages).
Proof.
  intros Hr Hf. induction pages as [|p pages IH]; intros i; [constructor|].
  destruct i as [|i]; cbn [alter list_alter].
  - constructor; [apply Hf|apply Forall2_same, Hr].
  - constructor; [apply Hr|apply IH].
Qed.

Lemma add_annot_extends (a : Annot) (p : Page) : page_extends p (add_annot a p).
Proof.
  unfold page_extends, add_annot. cbn. repeat split.
  intros b Hb. apply elem_of_app. left. exact Hb.
Qed.

Lemma add_highlight_same (r : BBox) (p : Page) :
  same_but_highlights p (add_annot (HighlightAnnot r) p).
Proof.
  unfold same_but_highlights, add_annot, redact_rects. cbn.
  rewrite omap_app. cbn. rewrite app_nil_r. repeat split.
Qed.

Lemma same_but_highlights_refl (p : Page) : same_but_highlights p p.
Proof.
  unfold same_but_highlights. auto.
Qed.

Lemma same_but_highlights_trans (p q r : Page) :
  same_but_highlights p q -> same_but_highlights q r ->
  same_but_highlights p r.
Proof.
  unfold same_but_highlights. intros [A1 [A2 A3]] [B1 [B2 B3]].
  repeat split; congruence.
Qed.

Lemma highlight_items_same (items : list SensitiveItem.t) :
  forall doc,
    doc_name (highlight_items doc items) = doc_name doc
    /\ Forall2 same_but_highlights (doc_pages doc)
         (doc_pages (highlight_items doc items)).
Proof.
  unfold highlight_items.
  induction items as [|it items IH]; intros doc; cbn [fold_left].
  - split; [reflexivity|apply Forall2_same, same_but_highlights_refl].
  - destruct (_ && _).
    + destruct (IH (annotate doc (Z.to_nat (SensitiveItem.page_number it - 1))
                      (HighlightAnnot (rect_of (SensitiveItem.bbox it)))))
        as [Hn Hp].
      split; [rewrite Hn; reflexivity|].
      eapply Forall2_chain; [apply same_but_highlights_trans| |exact Hp].
      cbn [annotate doc_pages].
      apply Forall2_alter_page;
        [apply same_but_highlights_refl|apply add_highlight_same].
    + apply IH.
Qed.

(** X19: the preview is not destructive.  When the Highlighter returns, the
    source file is as it was, and either nothing was written and the state
    is unchanged, or the preview file holds the pages of the source with
    nothing but highlights added: same content, same committed and pending
    redactions, page by page; the state then names the preview and is
    otherwise unchanged. *)
Theorem preview_is_not_destructive (env : Env)
    (fs fs' : gmap string (list Page)) (s s' : SanitizerState) :
  run_highlighter env fs s = (fs', Ok s') ->
  fs' !! strip (str_or_empty (pdf_path s))
  = fs !! strip (str_or_empty (pdf_path s))
  /\ ((fs' = fs /\ s' = s)
      \/ exists pages pages' preview,
          fs !! strip (str_or_empty (pdf_path s)) = Some pages
          /\ fs' !! preview = Some pages'
          /\ s' = set_preview_pdf_path (Some preview) s
          /\ Forall2 same_but_highlights pages pages').
Proof.
  unfold run_highlighter, fitz_open.
  destruct (negb _ || negb _).
  { intros [= <- <-]. split; [reflexivity|left; split; reflexivity]. }
  destruct (fs !! strip (str_or_empty (pdf_path s))) as [pages|] eqn:Hp;
    [|discriminate].
  destruct (doc_save env fs _ _) as [fs1|] eqn:Hs; [|discriminate].
  intros [= <- <-].
  destruct (highlight_items_same (list_or_empty (sensitive_data s))
              (mkDocument (strip (str_or_empty (pdf_path s))) pages))
    as [Hn Hsame].
  pose proof (doc_save_keeps_source _ _ _ _ _ Hs) as Hk.
  rewrite Hn in Hk. cbn [doc_name] in Hk.
  split; [rewrite Hk; exact Hp|]. right.
  exists pages, (doc_pages (highlight_items
                   (mkDocument (strip (str_or_empty (pdf_path s))) pages)
                   (list_or_empty (sensitive_data s)))),
    (preview_path_of env (strip (str_or_empty (pdf_path s)))).
  split; [reflexivity|]. split; [|split; [reflexivity|exact Hsame]].
  unfold doc_save in Hs.
  destruct (String.eqb _ _); [discriminate|].
  destruct (write_ok env _); [|discriminate].
  injection Hs as <-. apply lookup_insert_eq.
Qed.

Lemma preview_is_not_destructive_witness :
  fst (run_highlighter failing_env two_page_disk
         (set_sensitive_data (Some [region_at 2 100 200])
            (start_state "doc.pdf" "names")))
  !! "doc.pdf"
  = two_page_disk !! "doc.pdf".
Proof.
  refine (proj1 (preview_is_not_destructive failing_env two_page_disk _
                   (set_sensitive_data (Some [region_at 2 100 200])
                      (start_state "doc.pdf" "names")) _ _)).
  vm_compute. reflexivity.
Defined.

Lemma page_index_annotate (doc : Document) (k : nat) (a : Annot) (i : Z) :
  page_index (annotate doc k a) i = page_index doc i.
Proof.
  unfold page_index, annotate. cbn [doc_pages]. rewrite length_alter.
  reflexivity.
Qed.

Lemma page_index_valid (doc : Document) (i : Z) :
  0 <= i < Z.of_nat (length (doc_pages doc)) ->
  page_index doc i = Some (Z.to_nat i).
Proof.
  intros H. unfold page_index.
  destruct (Z.leb_spec (Z.of_nat (length (doc_pages doc))) i); [lia|].
  destruct (Z.eqb_spec (Z.of_nat (length (doc_pages doc))) 0); [lia|].
  cbn. rewrite Z.mod_small by lia. reflexivity.
Qed.

Lemma add_redact_annots_extends (items : list SensitiveItem.t) :
  forall doc doc',
    add_redact_annots doc items = Some doc' ->
    Forall2 page_extends (doc_pages doc) (doc_pages doc').
Proof.
  induction items as [|it items IH]; intros doc doc'; cbn [add_redact_annots].
  - intros [= <-]. apply Forall2_same, page_extends_refl.
  - destruct (page_index doc _) as [k|]; [|discriminate].
    intros H. apply IH in H.
    eapply Forall2_chain; [apply page_extends_trans| |exact H].
    cbn [annotate doc_pages].
    apply Forall2_alter_page; [apply page_extends_refl|apply add_annot_extends].
Qed.

Lemma annotate_marks (doc : Document) (k : nat) (a : Annot) :
  (k < length (doc_pages doc))%nat ->
  exists p, doc_pages (annotate doc k a) !! k = Some p /\ a ∈ page_annots p.
Proof.
  intros Hk. cbn [annotate doc_pages]. rewrite list_lookup_alter_eq.
  destruct (lookup_lt_is_Some_2 (doc_pages doc) k Hk) as [p Hp].
  rewrite Hp. cbn. eexists. split; [reflexivity|].
  unfold add_annot. cbn. apply elem_of_app. right. left.
Qed.

Lemma extends_keeps_mark (pages pages' : list Page) (k : nat) (p : Page)
    (a : Annot) :
  Forall2 page_extends pages pages' ->
  pages !! k = Some p -> a ∈ page_annots p ->
  exists p', pages' !! k = Some p' /\ a ∈ page_annots p'.
Proof.
  intros H Hp Ha.
  destruct (Forall2_lookup_l _ _ _ _ _ H Hp) as [p' [Hp' [_ [_ Hsub]]]].
  exists p'. split; [exact Hp'|apply Hsub, Ha].
Qed.

Lemma add_redact_annots_marks (items : list SensitiveItem.t) :
  forall doc doc',
    add_redact_annots doc items = Some doc' ->
    forall item, item ∈ items ->
      exists k p',
        page_index doc (SensitiveItem.page_number item - 1) = Some k
        /\ doc_pages doc' !! k = Some p'
        /\ RedactAnnot (rect_of (SensitiveItem.bbox item)) ∈ page_annots p'.
Proof.
  induction items as [|it items IH]; intros doc doc' Hrun item Hin.
  - inversion Hin.
  - cbn [add_redact_annots] in Hrun.
    destruct (page_index doc (SensitiveItem.page_number it - 1)) as [k|] eqn:Hk;
      [|discriminate].
    apply elem_of_cons in Hin as [-> | Hin].
    + destruct (annotate_marks doc k
                  (RedactAnnot (rect_of (SensitiveItem.bbox it))))
        as [p [Hp Ha]]; [eapply page_index_lt; exact Hk|].
      destruct (extends_keeps_mark _ _ k p _
                  (add_redact_annots_extends _ _ _ Hrun) Hp Ha)
        as [p' [Hp' Ha']].
      exists k, p'. repeat split; assumption.
    + destruct (IH _ _ Hrun item Hin) as [k' [p' [Hk' [Hp' Ha']]]].
      rewrite page_index_annotate in Hk'. eauto.
Qed.

Lemma redact_rects_spec (annots : list Annot) (r : BBox) :
  r ∈ redact_rects annots <-> RedactAnnot r ∈ annots.
Proof.
  unfold redact_rects. rewrite list_elem_of_omap. split.
  - intros [a [Ha Hr]]. destruct a; [|discriminate].
    injection Hr as <-. exact Ha.
  - intros H. exists (RedactAnnot r). split; [exact H|reflexivity].
Qed.

Lemma no_pending_after_apply (p : Page) :
  redact_rects (page_annots (apply_redactions p)) = [].
Proof.
  unfold apply_redactions. cbn [page_annots].
  induction (page_annots p) as [|a l IH]; [reflexivity|].
  cbn [List.filter]. destruct a; cbn [is_redact negb]; [exact IH|].
  cbn. exact IH.
Qed.

(** X20: the redactor commits every region on its own page.  When it
    returns, the output file has as many pages as the source, no redaction
    is left pending on any of them, and every region whose page number names
    a page of the document lies among the committed rectangles of that
    page. *)
Theorem redactor_commits_on_own_page (env : Env)
    (fs fs' : gmap string (list Page)) (path out : string)
    (items : list SensitiveItem.t) (output_path : option string) :
  _apply_redactions_to_pdf env fs path items output_path = (fs', Ok out) ->
  exists pages pages',
    fs !! path = Some pages /\ fs' !! out = Some pages'
    /\ length pages' = length pages
    /\ Forall (fun q => redact_rects (page_annots q) = []) pages'
    /\ (forall item, item ∈ items ->
          1 <= SensitiveItem.page_number item <= Z.of_nat (length pages) ->
          exists q,
            pages' !! Z.to_nat (SensitiveItem.page_number item - 1) = Some q
            /\ rect_of (SensitiveItem.bbox item) ∈ page_redacted q).
Proof.
  unfold _apply_redactions_to_pdf, fitz_open.
  destruct (fs !! path) as [pages|] eqn:Hp; [|discriminate].
  destruct (add_redact_annots _ items) as [doc'|] eqn:Ha; [|discriminate].
  unfold doc_save.
  destruct (String.eqb _ _); [discriminate|].
  destruct (write_ok env _); [|discriminate].
  intros [= <- <-].
  exists pages, (map apply_redactions (doc_pages doc')).
  split; [reflexivity|]. split; [apply lookup_insert_eq|].
  pose proof (add_redact_annots_length _ _ _ Ha) as Hlen. cbn in Hlen.
  split; [rewrite length_map; exact Hlen|]. split.
  - apply Forall_forall. intros q Hq.
    apply list_elem_of_fmap in Hq as [p [-> _]]. apply no_pending_after_apply.
  - intros item Hin Hrange.
    destruct (add_redact_annots_marks _ _ _ Ha item Hin)
      as [k [p' [Hk [Hp' Ha']]]].
    rewrite page_index_valid in Hk by (cbn; lia). injection Hk as <-.
    exists (apply_redactions p'). split.
    + change (map apply_redactions (doc_pages doc'))
        with (apply_redactions <$> doc_pages doc').
      rewrite list_lookup_fmap, Hp'. reflexivity.
    + unfold apply_redactions. cbn [page_redacted].
      apply elem_of_app. right. apply redact_rects_spec, Ha'.
Qed.

Lemma redactor_commits_on_own_page_witness :
  exists pages pages',
    two_page_disk !! "doc.pdf" = Some pages
    /\ fst (_apply_redactions_to_pdf failing_env two_page_disk "doc.pdf"
              [region_at 2 100 200] None)
       !! "doc.pdf_AI_REDACTED.pdf" = Some pages'
    /\ length pages' = length pages
    /\ Forall (fun q => redact_rects (page_annots q) = []) pages'
    /\ (forall item, item ∈ [region_at 2 100 200] ->
          1 <= SensitiveItem.page_number item <= Z.of_nat (length pages) ->
          exists q,
            pages' !! Z.to_nat (SensitiveItem.page_number item - 1) = Some q
            /\ rect_of (SensitiveItem.bbox item) ∈ page_redacted q).
Proof.
  apply (redactor_commits_on_own_page failing_env two_page_disk _ "doc.pdf"
           "doc.pdf_AI_REDACTED.pdf" [region_at 2 100 200] None).
  vm_compute. reflexivity.
Defined.

Lemma add_manual_annots_spec (rects : list SensitiveItem.t) :
  forall doc,
    length (doc_pages (add_manual_annots doc rects)) = length (doc_pages doc)
    /\ Forall2 page_extends (doc_pages doc)
         (doc_pages (add_manual_annots doc rects))
    /\ total_regions (doc_pages (add_manual_annots doc rects))
       = (total_regions (doc_pages doc)
          + length (List.filter (on_page (length (doc_pages doc))) rects))%nat
    /\ (forall r, r ∈ rects ->
          on_page (length (doc_pages doc)) r = true ->
          exists q,
            doc_pages (add_manual_annots doc rects)
              !! Z.to_nat (SensitiveItem.page_number r - 1) = Some q
            /\ RedactAnnot (rect_of (SensitiveItem.bbox r)) ∈ page_annots q).
Proof.
  unfold add_manual_annots.
  induction rects as [|r rects IH]; intros doc; cbn [fold_left List.filter].
  - split; [reflexivity|]. split; [apply Forall2_same, page_extends_refl|].
    split; [cbn; lia|]. intros r Hr. inversion Hr.
  - change ((0 <=? SensitiveItem.page_number r - 1)
            && (SensitiveItem.page_number r - 1
                <? Z.of_nat (length (doc_pages doc))))
      with (on_page (length (doc_pages doc)) r).
    destruct (on_page (length (doc_pages doc)) r) eqn:Hv.
    + set (a := RedactAnnot (rect_of (SensitiveItem.bbox r))).
      set (k := Z.to_nat (SensitiveItem.page_number r - 1)).
      destruct (IH (annotate doc k a)) as [Hl [He [Ht Hm]]].
      assert (Hlen : length (doc_pages (annotate doc k a))
                     = length (doc_pages doc))
        by (cbn; apply length_alter).
      assert (Hk : (k < length (doc_pages doc))%nat).
      { unfold on_page in Hv. apply andb_true_iff in Hv as [H1 H2].
        apply Z.leb_le in H1. apply Z.ltb_lt in H2. unfold k. lia. }
      rewrite Hlen in *.
      split; [exact Hl|]. split.
      { eapply Forall2_chain; [apply page_extends_trans| |exact He].
        cbn [annotate doc_pages].
        apply Forall2_alter_page;
          [apply page_extends_refl|apply add_annot_extends]. }
      split.
      { rewrite Ht. unfold a. cbn [annotate doc_pages length].
        rewrite total_regions_annotate by exact Hk. lia. }
      intros r' Hin Hon. apply elem_of_cons in Hin as [-> | Hin].
      * destruct (annotate_marks doc k a Hk) as [p [Hp Ha]].
        exact (extends_keeps_mark _ _ k p a He Hp Ha).
      * apply Hm; assumption.
    + destruct (IH doc) as [Hl [He [Ht Hm]]].
      split; [exact Hl|]. split; [exact He|]. split; [exact Ht|].
      intros r' Hin Hon. apply elem_of_cons in Hin as [-> | Hin].
      * congruence.
      * apply Hm; assumption.
Qed.

(** X21: the manual redactor commits the rectangles that lie on a page of
    the document and passes over the others.  When the output can be
    written, it returns the path of the new file; that file has the pages of
    the source, holds as many committed rectangles as the source had
    regions plus the rectangles on existing pages, and every such rectangle
    lies among the committed rectangles of its page. *)
Theorem manual_redactor_skips_missing_pages (env : Env)
    (fs : gmap string (list Page)) (path : string) (pages : list Page)
    (rects : list SensitiveItem.t) :
  fs !! path = Some pages -> rects <> [] ->
  manual_redacted_path_of env path <> path ->
  write_ok env (manual_redacted_path_of env path) = true ->
  exists pages',
    apply_manual_redactions env fs path rects
    = (<[manual_redacted_path_of env path := pages']> fs,
       Ok (manual_redacted_path_of env path))
    /\ length pages' = length pages
    /\ committed_count pages'
       = (total_regions pages
          + length (List.filter (on_page (length pages)) rects))%nat
    /\ (forall r, r ∈ rects -> on_page (length pages) r = true ->
          exists q,
            pages' !! Z.to_nat (SensitiveItem.page_number r - 1) = Some q
            /\ rect_of (SensitiveItem.bbox r) ∈ page_redacted q).
Proof.
  intros Hp Hne Hpath Hw. unfold apply_manual_redactions, fitz_open.
  destruct rects as [|r0 rects0] eqn:Er; [contradiction|].
  cbn [truthy_list negb]. rewrite <- Er. rewrite Hp.
  destruct (add_manual_annots_spec rects (mkDocument path pages))
    as [Hl [_ [Ht Hm]]].
  cbn [doc_pages] in *.
  unfold doc_save. cbn [apply_all_redactions doc_name].
  rewrite add_manual_annots_name. cbn [doc_name].
  destruct (String.eqb_spec (manual_redacted_path_of env path) path);
    [contradiction|].
  rewrite Hw.
  exists (map apply_redactions
            (doc_pages (add_manual_annots (mkDocument path pages) rects))).
  split; [reflexivity|].
  split; [rewrite length_map; exact Hl|].
  split; [rewrite committed_after_apply; exact Ht|].
  intros r Hin Hon. destruct (Hm r Hin Hon) as [q [Hq Ha]].
  exists (apply_redactions q). split.
  - change (map apply_redactions ?l) with (apply_redactions <$> l).
    rewrite list_lookup_fmap, Hq. reflexivity.
  - unfold apply_redactions. cbn [page_redacted].
    apply elem_of_app. right. apply redact_rects_spec, Ha.
Qed.

Lemma manual_redactor_skips_missing_pages_witness :
  exists pages',
    apply_manual_redactions failing_env two_page_disk "doc.pdf"
      [region_at 2 100 200; region_at 9 100 200]
    = (<["doc.pdf_MANUAL_REDACTED.pdf" := pages']> two_page_disk,
       Ok "doc.pdf_MANUAL_REDACTED.pdf")
    /\ length pages' = 2%nat
    /\ committed_count pages' = 1%nat
    /\ (forall r, r ∈ [region_at 2 100 200; region_at 9 100 200] ->
          on_page 2 r = true ->
          exists q,
            pages' !! Z.to_nat (SensitiveItem.page_number r - 1) = Some q
            /\ rect_of (SensitiveItem.bbox r) ∈ page_redacted q).
Proof.
  refine (manual_redactor_skips_missing_pages failing_env two_page_disk
            "doc.pdf" [blank_page; blank_page]
            [region_at 2 100 200; region_at 9 100 200] _ _ _ _);
    try reflexivity; discriminate.
Defined.

(** ** Combined redaction *)

Lemma path_exists_spec (fs : gmap string (list Page)) (path : string)
    (pages : list Page) :
  fs !! path = Some pages -> path_exists fs path = true.
Proof.
  intros H. unfold path_exists. apply bool_decide_eq_true. eauto.
Qed.

(** X22: when the manual output cannot be written, the combined pass does
    not fail: it returns the combined path, and the file it leaves there is
    the AI-redacted document itself, moved away from its own path, without
    any of the manual redactions. *)
Theorem combine_after_failed_write (env : Env) (fs : gmap string (list Page))
    (ai_redacted_path : string) (pages : list Page)
    (rects : list SensitiveItem.t) :
  fs !! ai_redacted_path = Some pages -> rects <> [] ->
  write_ok env (manual_redacted_path_of env ai_redacted_path) = false ->
  combined_path_of env ai_redacted_path <> ai_redacted_path ->
  combine_ai_and_manual_redactions env fs ai_redacted_path rects
  = (<[combined_path_of env ai_redacted_path := pages]>
       (delete ai_redacted_path fs),
     Ok (combined_path_of env ai_redacted_path)).
Proof.
  intros Hp Hne Hw Hc. unfold combine_ai_and_manual_redactions.
  destruct rects as [|r0 rects0] eqn:Er; [contradiction|].
  cbn [truthy_list negb]. rewrite <- Er.
  rewrite (path_exists_spec _ _ _ Hp). cbn [negb].
  assert (apply_manual_redactions env fs ai_redacted_path rects
          = (fs, Ok ai_redacted_path)) as ->.
  { unfold apply_manual_redactions, fitz_open. rewrite Er.
    cbn [truthy_list negb]. rewrite Hp. unfold doc_save. rewrite Hw.
    destruct (String.eqb _ _); reflexivity. }
  rewrite (path_exists_spec _ _ _ Hp).
  destruct (String.eqb_spec ai_redacted_path
              (combined_path_of env ai_redacted_path)) as [E|E];
    [symmetry in E; contradiction|].
  cbn [negb andb]. unfold os_rename. rewrite Hp. reflexivity.
Qed.

Lemma combine_after_failed_write_witness :
  combine_ai_and_manual_redactions readonly_env two_page_disk "doc.pdf"
    [region_at 2 100 200]
  = (<["doc.pdf_COMBINED_REDACTED.pdf" := [blank_page; blank_page]]>
       (delete "doc.pdf" two_page_disk),
     Ok "doc.pdf_COMBINED_REDACTED.pdf").
Proof.
  refine (combine_after_failed_write readonly_env two_page_disk "doc.pdf"
            [blank_page; blank_page] [region_at 2 100 200] _ _ _ _);
    try reflexivity; discriminate.
Defined.

Lemma combine_success (env : Env)
    (fs : gmap string (list Page)) (ai_redacted_path : string)
    (pages : list Page) (rects : list SensitiveItem.t) :
  fs !! ai_redacted_path = Some pages -> rects <> [] ->
  write_ok env (manual_redacted_path_of env ai_redacted_path) = true ->
  manual_redacted_path_of env ai_redacted_path <> ai_redacted_path ->
  combined_path_of env ai_redacted_path <> ai_redacted_path ->
  combined_path_of env ai_redacted_path
  <> manual_redacted_path_of env ai_redacted_path ->
  exists fs' pages',
    combine_ai_and_manual_redactions env fs ai_redacted_path rects
    = (fs', Ok (combined_path_of env ai_redacted_path))
    /\ fs' !! combined_path_of env ai_redacted_path = Some pages'
    /\ fs' !! manual_redacted_path_of env ai_redacted_path = None
    /\ length pages' = length pages
    /\ committed_count pages'
       = (total_regions pages
          + length (List.filter (on_page (length pages)) rects))%nat
    /\ (forall q, q <> combined_path_of env ai_redacted_path ->
                  q <> manual_redacted_path_of env ai_redacted_path ->
                  fs' !! q = fs !! q).
Proof.
  intros Hp Hne Hw Hm Hc Hcm. unfold combine_ai_and_manual_redactions.
  destruct rects as [|r0 rects0] eqn:Er; [contradiction|].
  cbn [truthy_list negb]. rewrite <- Er.
  rewrite (path_exists_spec _ _ _ Hp). cbn [negb].
  set (manual := manual_redacted_path_of env ai_redacted_path) in *.
  set (combined := combined_path_of env ai_redacted_path) in *.
  set (pages' := map apply_redactions
                   (doc_pages (add_manual_annots
                                 (mkDocument ai_redacted_path pages) rects))).
  assert (apply_manual_redactions env fs ai_redacted_path rects
          = (<[manual := pages']> fs, Ok manual)) as ->.
  { unfold apply_manual_redactions, fitz_open. rewrite Er.
    cbn [truthy_list negb]. rewrite <- Er, Hp. unfold doc_save.
    cbn [apply_all_redactions doc_name]. rewrite add_manual_annots_name.
    cbn [doc_name]. fold manual.
    destruct (String.eqb_spec manual ai_redacted_path); [contradiction|].
    rewrite Hw. reflexivity. }
  rewrite (path_exists_spec (<[manual := pages']> fs) manual pages')
    by apply lookup_insert_eq.
  destruct (String.eqb_spec manual combined) as [E|E];
    [symmetry in E; contradiction|].
  cbn [negb andb]. unfold os_rename. rewrite lookup_insert_eq.
  destruct (add_manual_annots_spec rects (mkDocument ai_redacted_path pages))
    as [Hl [_ [Ht _]]]. cbn [doc_pages] in Hl, Ht.
  eexists. exists pages'. split; [reflexivity|].
  split; [apply lookup_insert_eq|].
  split.
  { rewrite lookup_insert_ne by exact Hcm. apply lookup_delete_eq. }
  split; [unfold pages'; rewrite length_map; exact Hl|].
  split; [unfold pages'; rewrite committed_after_apply; exact Ht|].
  intros q Hq1 Hq2.
  rewrite lookup_insert_ne by (intros H; apply Hq1; symmetry; exact H).
  rewrite lookup_delete_ne by (intros H; apply Hq2; symmetry; exact H).
  rewrite lookup_insert_ne by (intros H; apply Hq2; symmetry; exact H).
  reflexivity.
Qed.



(** ** Capture of the manual rectangles, again *)

Lemma corners_close_refl (x : SensitiveItem.t) : corners_close x x.
Proof.
  unfold corners_close. split; [reflexivity|].
  assert (H : forall q : Q, (Qabs (q - q) < 5)%Q).
  { intros q. assert (E : (q - q == 0)%Q) by ring.
    rewrite E. reflexivity. }
  split; apply H.
Qed.

Lemma capture_rectangle_spec (l : list SensitiveItem.t) (x : SensitiveItem.t) :
  l `prefix_of` capture_rectangle l x
  /\ exists e, e ∈ capture_rectangle l x /\ corners_close e x.
Proof.
  destruct (capture_cases l x) as [Hdup | Hfresh].
  - rewrite capture_duplicate by exact Hdup. split; [reflexivity|exact Hdup].
  - rewrite capture_fresh by exact Hfresh. split.
    + apply prefix_app_r. reflexivity.
    + exists x. split; [|apply corners_close_refl].
      apply elem_of_app. right. left.
Qed.

Lemma capture_rectangles_spec (new : list SensitiveItem.t) :
  forall l,
    l `prefix_of` capture_rectangles l new
    /\ (forall x, x ∈ new ->
          exists e, e ∈ capture_rectangles l new /\ corners_close e x).
Proof.
  unfold capture_rectangles.
  induction new as [|y new IH]; intros l; cbn [fold_left].
  - split; [reflexivity|]. intros x Hx. inversion Hx.
  - destruct (IH (capture_rectangle l y)) as [Hpre Hcov].
    destruct (capture_rectangle_spec l y) as [Hp1 [e [He Hc]]].
    split; [etrans; eassumption|].
    intros x Hx. apply elem_of_cons in Hx as [-> | Hx]; [|apply Hcov, Hx].
    exists e. split; [|exact Hc].
    destruct Hpre as [k ->]. apply elem_of_app. left. exact He.
Qed.

Lemma capture_all_duplicates (new : list SensitiveItem.t) :
  forall l,
    (forall x, x ∈ new -> exists e, e ∈ l /\ corners_close e x) ->
    capture_rectangles l new = l.
Proof.
  unfold capture_rectangles.
  induction new as [|y new IH]; intros l H; cbn [fold_left]; [reflexivity|].
  rewrite capture_duplicate by (apply H; left).
  apply IH. intros x Hx. apply H. right. exact Hx.
Qed.

(** X24: capturing drawn rectangles only ever extends the list of manual
    rectangles, leaves every drawn rectangle with a captured one close to
    it, and can be repeated: capturing the same rectangles a second time
    changes nothing. *)
Theorem capture_can_be_repeated (l new : list SensitiveItem.t) :
  l `prefix_of` capture_rectangles l new
  /\ (forall x, x ∈ new ->
        exists e, e ∈ capture_rectangles l new /\ corners_close e x)
  /\ capture_rectangles (capture_rectangles l new) new
     = capture_rectangles l new.
Proof.
  destruct (capture_rectangles_spec new l) as [Hpre Hcov].
  split; [exact Hpre|]. split; [exact Hcov|].
  apply capture_all_duplicates, Hcov.
Qed.

(** ** Canvas coordinates *)

Lemma py_div_some (a b q : Q) :
  py_div a b = Some q -> ~ (b == 0)%Q /\ q = (a / b)%Q.
Proof.
  unfold py_div. destruct (Qeq_bool b 0) eqn:E; [discriminate|].
  intros [= <-]. split; [|reflexivity].
  intros H. apply Qeq_bool_iff in H. congruence.
Qed.

Lemma py_div_nonzero (a b : Q) : ~ (b == 0)%Q -> py_div a b = Some (a / b)%Q.
Proof.
  intros H. unfold py_div. destruct (Qeq_bool b 0) eqn:E; [|reflexivity].
  apply Qeq_bool_iff in E. contradiction.
Qed.

Lemma inject_Z_nonzero (z : Z) : z <> 0 -> ~ (inject_Z z == 0)%Q.
Proof.
  intros Hz H. unfold Qeq, inject_Z in H. cbn in H. lia.
Qed.

Lemma canvas_round_trip_box (b : BBox) (page_rect : Q * Q)
    (canvas_width canvas_height : Z) (l t w h : Q) (type fill stroke : string)
    (sw : Z) (op : Q) :
  canvas_width <> 0 -> canvas_height <> 0 ->
  pdf_to_canvas_coordinates b page_rect canvas_width canvas_height
  = Some (l, t, w, h) ->
  exists b',
    canvas_to_pdf_coordinates
      (CanvasObject.mk type l t w h fill stroke sw op) page_rect
      canvas_width canvas_height = Some b'
    /\ box_equal b' b.
Proof.
  intros Hw Hh. unfold pdf_to_canvas_coordinates, canvas_to_pdf_coordinates.
  destruct (py_div (inject_Z canvas_width) (fst page_rect)) as [sx|] eqn:Ex;
    [|discriminate].
  destruct (py_div (inject_Z canvas_height) (snd page_rect)) as [sy|] eqn:Ey;
    [|discriminate].
  apply py_div_some in Ex as [Hpw ->]. apply py_div_some in Ey as [Hph ->].
  intros [= <- <- <- <-].
  pose proof (inject_Z_nonzero _ Hw) as Hcw.
  pose proof (inject_Z_nonzero _ Hh) as Hch.
  rewrite (py_div_nonzero _ _ Hcw), (py_div_nonzero _ _ Hch).
  eexists. split; [reflexivity|].
  unfold box_equal. cbn [x0 y0 x1 y1 CanvasObject.left CanvasObject.top
                          CanvasObject.width CanvasObject.height].
  repeat split; field; split; assumption.
Qed.

(** X25: the two coordinate conversions of the canvas undo each other.  For
    a canvas of non-zero width and height, a box taken to canvas coordinates
    and back, on the same page, is the box it was.  The conversion to the
    canvas raises exactly on a page of zero width or height. *)
Theorem canvas_round_trip (b : BBox) (page_rect : Q * Q)
    (canvas_width canvas_height : Z) :
  canvas_width <> 0 -> canvas_height <> 0 ->
  (pdf_to_canvas_coordinates b page_rect canvas_width canvas_height = None
   <-> (fst page_rect == 0)%Q \/ (snd page_rect == 0)%Q)
  /\ (forall l t w h type fill stroke sw op,
        pdf_to_canvas_coordinates b page_rect canvas_width canvas_height
        = Some (l, t, w, h) ->
        exists b',
          canvas_to_pdf_coordinates
            (CanvasObject.mk type l t w h fill stroke sw op) page_rect
            canvas_width canvas_height = Some b'
          /\ box_equal b' b).
Proof.
  intros Hw Hh. split.
  - unfold pdf_to_canvas_coordinates, py_div.
    destruct (Qeq_bool (fst page_rect) 0) eqn:E1;
      destruct (Qeq_bool (snd page_rect) 0) eqn:E2;
      try apply Qeq_bool_iff in E1; try apply Qeq_bool_iff in E2;
      split; intros H; try tauto; try discriminate.
    destruct H as [H | H]; apply Qeq_bool_iff in H; congruence.
  - intros l t w h type fill stroke sw op H.
    eapply canvas_round_trip_box; eassumption.
Qed.

Lemma canvas_round_trip_witness :
  exists b',
    canvas_to_pdf_coordinates
      (CanvasObject.mk "rect"
         (100 * (inject_Z 700 / 612)) (200 * (inject_Z 1000 / 792))
         ((150 - 100) * (inject_Z 700 / 612))
         ((210 - 200) * (inject_Z 1000 / 792))
         MANUAL_COLOR MANUAL_COLOR 2 (1 # 2))
      (612, 792)%Q CANVAS_WIDTH CANVAS_HEIGHT = Some b'
    /\ box_equal b' (mkBBox 100 200 150 210).
Proof.
  refine (proj2 (canvas_round_trip (mkBBox 100 200 150 210) (612, 792)%Q
                   CANVAS_WIDTH CANVAS_HEIGHT _ _)
            _ _ _ _ "rect" MANUAL_COLOR MANUAL_COLOR 2 (1 # 2) _);
    try discriminate.
  reflexivity.
Defined.

Lemma canvas_objects_colored (color : string) (items : list SensitiveItem.t)
    (page_num : Z) (page_rect : Q * Q) :
  forall objs,
    canvas_objects_of color items page_num page_rect = Some objs ->
    Forall (fun o => CanvasObject.type o = "rect"
                     /\ CanvasObject.stroke o = color) objs.
Proof.
  induction items as [|it items IH]; intros objs; cbn [canvas_objects_of].
  - intros [= <-]. constructor.
  - destruct (_ =? _); [|apply IH].
    destruct (pdf_to_canvas_coordinates _ _ _ _) as [[[[l t] w] h]|];
      [|discriminate].
    destruct (canvas_objects_of color items page_num page_rect) as [rest|];
      [|discriminate].
    intros [= <-]. constructor; [split; reflexivity|apply IH; reflexivity].
Qed.

Lemma new_rectangles_colored (color : string) (objs : list CanvasObject.t) :
  Forall (fun o => CanvasObject.type o = "rect"
                   /\ CanvasObject.stroke o = color) objs ->
  new_rectangles objs
  = if String.eqb color "#00FF00" then objs else [].
Proof.
  unfold new_rectangles. induction 1 as [|o objs [Ht Hs] _ IH].
  - destruct (String.eqb color "#00FF00"); reflexivity.
  - cbn [List.filter]. rewrite Ht, Hs, IH.
    change (String.eqb "rect" "rect") with true. cbn [andb].
    destruct (String.eqb color "#00FF00"); reflexivity.
Qed.

Lemma capture_known_rectangles (page_num : Z) (page_rect : Q * Q)
    (l : list SensitiveItem.t) (ms : list SensitiveItem.t) :
  forall objs,
    (forall m, m ∈ ms -> m ∈ l) ->
    canvas_objects_of MANUAL_COLOR ms page_num page_rect = Some objs ->
    capture_canvas l objs page_num page_rect = Some l.
Proof.
  induction ms as [|m ms IH]; intros objs Hsub; cbn [canvas_objects_of].
  - intros [= <-]. reflexivity.
  - destruct (Z.eqb_spec (SensitiveItem.page_number m) (page_num + 1))
      as [Hpage|_];
      [|apply IH; intros m' Hm'; apply Hsub; right; exact Hm'].
    destruct (pdf_to_canvas_coordinates _ _ _ _) as [[[[cl ct] cw] ch]|] eqn:Ec;
      [|discriminate].
    destruct (canvas_objects_of MANUAL_COLOR ms page_num page_rect)
      as [rest|] eqn:Er; [|discriminate].
    intros [= <-]. cbn [capture_canvas].
    destruct (canvas_round_trip_box (SensitiveItem.bbox m) page_rect
                CANVAS_WIDTH CANVAS_HEIGHT cl ct cw ch "rect"
                MANUAL_COLOR MANUAL_COLOR 2 (1 # 2))
      as [b' [-> [Hx [Hy _]]]]; [discriminate|discriminate|exact Ec|].
    rewrite capture_duplicate.
    + apply IH; [|reflexivity]. intros m' Hm'. apply Hsub. right. exact Hm'.
    + exists m. split; [apply Hsub; left|].
      unfold corners_close. cbn [SensitiveItem.page_number SensitiveItem.bbox].
      split; [exact Hpage|]. split.
      * rewrite Hx.
        assert (E : (x0 (SensitiveItem.bbox m) - x0 (SensitiveItem.bbox m)
                     == 0)%Q) by ring.
        rewrite E. reflexivity.
      * rewrite Hy.
        assert (E : (y0 (SensitiveItem.bbox m) - y0 (SensitiveItem.bbox m)
                     == 0)%Q) by ring.
        rewrite E. reflexivity.
Qed.

(** X26: showing a page again adds no manual rectangle.  When the objects
    the canvas is loaded with (the detections of the page in yellow, its
    manual rectangles in green) come back from the canvas and are processed
    as drawings, the list of manual rectangles is what it was: the yellow
    ones are not taken for drawings, and every green one is recognised as a
    duplicate of the rectangle it shows. *)
Theorem redisplay_adds_no_manual_rectangle
    (sensitive_items manual_rectangles : list SensitiveItem.t)
    (current_page : Z) (page_rect : Q * Q) (objects : list CanvasObject.t) :
  create_canvas_objects sensitive_items manual_rectangles current_page
    page_rect = Some objects ->
  process_canvas manual_rectangles objects current_page page_rect
  = Some manual_rectangles.
Proof.
  unfold create_canvas_objects, process_canvas.
  destruct (canvas_objects_of HIGHLIGHT_COLOR sensitive_items current_page
              page_rect) as [ai|] eqn:Ea; [|discriminate].
  destruct (canvas_objects_of MANUAL_COLOR manual_rectangles current_page
              page_rect) as [manual|] eqn:Em; [|discriminate].
  intros [= <-].
  unfold new_rectangles. rewrite List.filter_app.
  fold (new_rectangles ai). fold (new_rectangles manual).
  rewrite (new_rectangles_colored _ _ (canvas_objects_colored _ _ _ _ _ Ea)).
  rewrite (new_rectangles_colored _ _ (canvas_objects_colored _ _ _ _ _ Em)).
  cbn [String.eqb HIGHLIGHT_COLOR MANUAL_COLOR app].
  change (String.eqb HIGHLIGHT_COLOR "#00FF00") with false.
  change (String.eqb MANUAL_COLOR "#00FF00") with true.
  cbn [app].
  eapply capture_known_rectangles; [|exact Em]. auto.
Qed.

Lemma redisplay_adds_no_manual_rectangle_witness :
  process_canvas [region_at 1 100 200; region_at 2 30 40]
    [ CanvasObject.mk "rect"
        (10 * (inject_Z 700 / 612)) (10 * (inject_Z 1000 / 792))
        ((10 + 50 - 10) * (inject_Z 700 / 612))
        ((10 + 10 - 10) * (inject_Z 1000 / 792))
        HIGHLIGHT_COLOR HIGHLIGHT_COLOR 2 (1 # 2);
      CanvasObject.mk "rect"
        (100 * (inject_Z 700 / 612)) (200 * (inject_Z 1000 / 792))
        ((100 + 50 - 100) * (inject_Z 700 / 612))
        ((200 + 10 - 200) * (inject_Z 1000 / 792))
        MANUAL_COLOR MANUAL_COLOR 2 (1 # 2) ]
    0 (612, 792)%Q
  = Some [region_at 1 100 200; region_at 2 30 40].
Proof.
  apply (redisplay_adds_no_manual_rectangle [region_at 1 10 10]
           [region_at 1 100 200; region_at 2 30 40] 0 (612, 792)%Q).
  reflexivity.
Defined.

(** ** What the nodes leave alone *)

Lemma evaluator_frame (env : Env) (tick : nat) (s : SanitizerState) :
  sensitive_data (run_evaluator env tick s) = sensitive_data s
  /\ page_level_pdf_elements (run_evaluator env tick s)
     = page_level_pdf_elements s
  /\ word_level_pdf_elements (run_evaluator env tick s)
     = word_level_pdf_elements s.
Proof.
  unfold run_evaluator.
  repeat match goal with
         | |- context [if ?c then _ else _] => destruct c
         | |- context [match llm_evaluate ?e ?t ?a ?b ?c with _ => _ end] =>
             destruct (llm_evaluate e t a b c)
         end; repeat split.
Qed.

Lemma hitl_frame_detections (s : SanitizerState) :
  sensitive_data (run_hitl s) = sensitive_data s
  /\ page_level_pdf_elements (run_hitl s) = page_level_pdf_elements s
  /\ word_level_pdf_elements (run_hitl s) = word_level_pdf_elements s.
Proof.
  rewrite run_hitl_frame. repeat split.
Qed.

Lemma highlighter_frame_detections (env : Env)
    (fs fs' : gmap string (list Page)) (s s' : SanitizerState) :
  run_highlighter env fs s = (fs', Ok s') ->
  sensitive_data s' = sensitive_data s
  /\ page_level_pdf_elements s' = page_level_pdf_elements s
  /\ word_level_pdf_elements s' = word_level_pdf_elements s.
Proof.
  unfold run_highlighter.
  destruct (negb _ || negb _); [intros [= _ <-]; repeat split|].
  destruct (fitz_open fs _); [|discriminate].
  destruct (doc_save env fs _ _); [|discriminate].
  intros [= _ <-]. repeat split.
Qed.

Lemma redactor_frame_detections (env : Env)
    (fs fs' : gmap string (list Page)) (s s' : SanitizerState) :
  run_redactor env fs s = (fs', Ok s') ->
  sensitive_data s' = sensitive_data s
  /\ page_level_pdf_elements s' = page_level_pdf_elements s
  /\ word_level_pdf_elements s' = word_level_pdf_elements s.
Proof.
  unfold run_redactor.
  destruct (negb _ || negb _); [intros [= _ <-]; repeat split|].
  destruct (_apply_redactions_to_pdf env fs _ _ None) as [fs1 [final|]];
    [|discriminate].
  intros [= _ <-]. repeat split.
Qed.

(** X27: the detected regions and the extraction cache change in the
    Detector and nowhere else: whatever node other than the Detector runs,
    and whatever it returns, the state it hands on holds the same regions
    and the same cached element lists as the state it received.  In
    particular the regions the human approved are the ones the Redactor is
    given. *)
Theorem detections_change_only_in_detector (env : Env) (tick : nat)
    (node : Node) (fs fs' : gmap string (list Page)) (s s' : SanitizerState)
    (nxt : option Node) :
  node <> Detector ->
  run_node env tick node fs s = (fs', Ok (s', nxt)) ->
  sensitive_data s' = sensitive_data s
  /\ page_level_pdf_elements s' = page_level_pdf_elements s
  /\ word_level_pdf_elements s' = word_level_pdf_elements s.
Proof.
  intros Hd. destruct node; cbn [run_node]; try contradiction.
  - destruct (orchestrator_edges _); [|discriminate]. intros [= _ <- _].
    destruct (orchestrator_frame env tick s) as [_ [_ [H1 [H2 [H3 _]]]]].
    repeat split; assumption.
  - intros [= _ <- _].
    destruct (searcher_frame env tick s) as [_ [_ [H1 [H2 [H3 _]]]]].
    repeat split; assumption.
  - destruct (run_highlighter env fs s) as [fs1 [sh|]] eqn:E; [|discriminate].
    intros [= _ <- _]. eapply highlighter_frame_detections, E.
  - destruct (evaluator_edges _); [|discriminate]. intros [= _ <- _].
    apply evaluator_frame.
  - destruct (hitl_edges _); [|discriminate]. intros [= _ <- _].
    apply hitl_frame_detections.
  - destruct (run_redactor env fs s) as [fs1 [sr|]] eqn:E; [|discriminate].
    intros [= _ <- _]. eapply redactor_frame_detections, E.
Qed.

Lemma detections_change_only_in_detector_witness :
  sensitive_data
    (run_hitl (set_user_approval (Some "Yes") cached_state))
  = sensitive_data (set_user_approval (Some "Yes") cached_state).
Proof.
  refine (proj1 (detections_change_only_in_detector failing_env 0 HumanInLoop
                   ∅ ∅ (set_user_approval (Some "Yes") cached_state)
                   _ (Some Redactor) _ _)).
  - discriminate.
  - reflexivity.
Defined.

(** ** Approval *)

Lemma approve_gate (s : SanitizerState) :
  run_hitl (set_user_approval (Some "Yes") s)
  = set_user_approval None (set_next_node (Some "Redactor") s).
Proof.
  rewrite run_hitl_yes by reflexivity. destruct s; reflexivity.
Qed.

(** X28: approving a preview without detected regions redacts nothing.
    When the state holds no regions and names no earlier output, the
    handler reports that no AI output was produced and writes no file,
    whatever manual rectangles were drawn: they are not applied. *)
Theorem approve_without_detections (env : Env) (fs : gmap string (list Page))
    (s : SanitizerState) (manual_rectangles : list SensitiveItem.t) :
  list_or_empty (sensitive_data s) = [] ->
  str_or_empty (final_pdf_path s) = "" ->
  approve_preview env fs s manual_rectangles
  = (fs, set_user_approval None (set_next_node (Some "Redactor") s),
     NoAiOutput).
Proof.
  intros Hd Hf. unfold approve_preview. rewrite approve_gate.
  cbn [next_node set_user_approval set_next_node].
  change (String.eqb "Redactor" "Redactor") with true. cbn iota.
  unfold run_redactor.
  cbn [sensitive_data pdf_path set_user_approval set_next_node].
  rewrite Hd. cbn [truthy_list negb]. rewrite orb_true_r.
  cbn [final_pdf_path set_user_approval set_next_node]. rewrite Hf.
  reflexivity.
Qed.

Lemma approve_without_detections_witness :
  approve_preview failing_env two_page_disk (start_state "doc.pdf" "names")
    [region_at 1 100 200]
  = (two_page_disk,
     set_user_approval None
       (set_next_node (Some "Redactor") (start_state "doc.pdf" "names")),
     NoAiOutput).
Proof.
  apply approve_without_detections; reflexivity.
Defined.

Lemma add_redact_annots_total (items : list SensitiveItem.t) :
  forall doc,
    Forall (fun it => on_page (length (doc_pages doc)) it = true) items ->
    exists doc', add_redact_annots doc items = Some doc'.
Proof.
  induction items as [|it items IH]; intros doc Hall; [eexists; reflexivity|].
  apply Forall_cons in Hall as [Hit Hall]. cbn [add_redact_annots].
  unfold on_page in Hit. apply andb_true_iff in Hit as [H1 H2].
  apply Z.leb_le in H1. apply Z.ltb_lt in H2.
  rewrite page_index_valid by lia.
  apply IH. cbn [annotate doc_pages]. rewrite length_alter. exact Hall.
Qed.

Lemma total_regions_committed (pages : list Page) :
  total_regions (map apply_redactions pages)
  = committed_count (map apply_redactions pages).
Proof.
  induction pages as [|p pages IH]; [reflexivity|].
  cbn [map total_regions committed_count]. rewrite IH.
  unfold region_count. rewrite no_pending_after_apply.
  cbn [length]. lia.
Qed.

Lemma redactor_success (env : Env) (fs : gmap string (list Page))
    (path : string) (pages : list Page) (items : list SensitiveItem.t) :
  fs !! path = Some pages ->
  Forall (fun it => on_page (length pages) it = true) items ->
  ai_redacted_path_of env path <> path ->
  write_ok env (ai_redacted_path_of env path) = true ->
  ai_redacted_path_of env path <> "" ->
  exists pages',
    _apply_redactions_to_pdf env fs path items None
    = (<[ai_redacted_path_of env path := pages']> fs,
       Ok (ai_redacted_path_of env path))
    /\ length pages' = length pages
    /\ total_regions pages' = (total_regions pages + length items)%nat.
Proof.
  intros Hp Hall Hne Hw _. unfold _apply_redactions_to_pdf, fitz_open.
  cbn [str_or_empty truthy_str]. rewrite Hp.
  destruct (add_redact_annots_total items (mkDocument path pages) Hall)
    as [doc' Ha].
  rewrite Ha.
  destruct (add_redact_annots_count _ _ _ Ha) as [Hn Ht].
  pose proof (add_redact_annots_length _ _ _ Ha) as Hl.
  cbn [doc_name doc_pages] in Hn, Ht, Hl.
  unfold doc_save. cbn [apply_all_redactions doc_name doc_pages]. rewrite Hn.
  destruct (String.eqb_spec (ai_redacted_path_of env path) path);
    [contradiction|].
  rewrite Hw. exists (map apply_redactions (doc_pages doc')).
  split; [reflexivity|]. split; [rewrite length_map; exact Hl|].
  rewrite total_regions_committed, committed_after_apply. exact Ht.
Qed.

(** X29: approving a preview with detected regions and manual rectangles
    redacts both, the detections first.  When the source and the two
    outputs can be told apart and written, the handler reports success,
    clears the stored decision, names the combined file as the final
    output, and that file holds one committed rectangle for every region
    the source already had, every detected region and every manual
    rectangle on an existing page; the source file is left as it was. *)
Theorem approve_redacts_detected_then_manual (env : Env)
    (fs : gmap string (list Page)) (s : SanitizerState)
    (path : string) (pages : list Page)
    (manual_rectangles : list SensitiveItem.t) :
  strip (str_or_empty (pdf_path s)) = path -> path <> "" ->
  fs !! path = Some pages ->
  list_or_empty (sensitive_data s) <> [] ->
  Forall (fun it => on_page (length pages) it = true)
    (list_or_empty (sensitive_data s)) ->
  manual_rectangles <> [] ->
  ai_redacted_path_of env path <> "" ->
  ai_redacted_path_of env path <> path ->
  manual_redacted_path_of env (ai_redacted_path_of env path)
  <> ai_redacted_path_of env path ->
  manual_redacted_path_of env (ai_redacted_path_of env path) <> path ->
  combined_path_of env (ai_redacted_path_of env path)
  <> ai_redacted_path_of env path ->
  combined_path_of env (ai_redacted_path_of env path)
  <> manual_redacted_path_of env (ai_redacted_path_of env path) ->
  combined_path_of env (ai_redacted_path_of env path) <> path ->
  write_ok env (ai_redacted_path_of env path) = true ->
  write_ok env (manual_redacted_path_of env (ai_redacted_path_of env path))
  = true ->
  exists fs' s' pages',
    approve_preview env fs s manual_rectangles = (fs', s', Approved)
    /\ final_pdf_path s'
       = Some (combined_path_of env (ai_redacted_path_of env path))
    /\ user_approval s' = None
    /\ sensitive_data s' = sensitive_data s
    /\ fs' !! combined_path_of env (ai_redacted_path_of env path)
       = Some pages'
    /\ fs' !! path = Some pages
    /\ length pages' = length pages
    /\ committed_count pages'
       = (total_regions pages + length (list_or_empty (sensitive_data s))
          + length (List.filter (on_page (length pages)) manual_rectangles))%nat.
Proof.
  set (ai := ai_redacted_path_of env path).
  set (manual := manual_redacted_path_of env ai).
  set (combined := combined_path_of env ai).
  intros Hpath Hne Hp Hitems Hall Hman
         Hai0 Hai Hm Hmp Hc Hcm Hcp Hwa Hwm.
  unfold approve_preview. rewrite approve_gate.
  cbn [next_node set_user_approval set_next_node].
  change (String.eqb "Redactor" "Redactor") with true. cbn iota.
  unfold run_redactor.
  cbn [sensitive_data pdf_path set_user_approval set_next_node].
  rewrite Hpath.
  assert (truthy_str path = true) as ->
    by (destruct path; [contradiction|reflexivity]).
  assert (truthy_list (list_or_empty (sensitive_data s)) = true) as ->
    by (destruct (list_or_empty (sensitive_data s));
        [contradiction|reflexivity]).
  cbn [negb orb].
  destruct (redactor_success env fs path pages
              (list_or_empty (sensitive_data s)) Hp Hall Hai Hwa Hai0)
    as [pagesA [-> [HlA HtA]]].
  fold ai. cbn [final_pdf_path set_final_pdf_path str_or_empty].
  assert (truthy_str ai = true) as ->
    by (destruct ai; [contradiction|reflexivity]).
  cbn [negb].
  assert (truthy_list manual_rectangles = true) as ->
    by (destruct manual_rectangles; [contradiction|reflexivity]).
  assert (Hlk : <[ai := pagesA]> fs !! ai = Some pagesA)
    by apply lookup_insert_eq.
  destruct (combine_success env (<[ai := pagesA]> fs) ai pagesA
              manual_rectangles Hlk Hman Hwm Hm Hc Hcm)
    as [fs' [pages' [-> [H1 [_ [H4 [H5 H6]]]]]]].
  exists fs', (set_final_pdf_path (Some combined)
                 (set_final_pdf_path (Some ai)
                    (set_user_approval None
                       (set_next_node (Some "Redactor") s)))), pages'.
  split; [reflexivity|]. split; [reflexivity|]. split; [reflexivity|].
  split; [reflexivity|]. split; [exact H1|]. split.
  - rewrite H6;
      [|intros H; apply Hcp; symmetry; exact H
       |intros H; apply Hmp; symmetry; exact H].
    rewrite lookup_insert_ne by exact Hai. exact Hp.
  - split; [congruence|]. rewrite H5, HtA, HlA. reflexivity.
Qed.

Lemma approve_redacts_detected_then_manual_witness :
  exists fs' s' pages',
    approve_preview failing_env two_page_disk reviewed_state
      [region_at 1 30 40; region_at 9 30 40]
    = (fs', s', Approved)
    /\ final_pdf_path s' = Some "doc.pdf_AI_REDACTED.pdf_COMBINED_REDACTED.pdf"
    /\ user_approval s' = None
    /\ sensitive_data s' = Some [region_at 2 100 200]
    /\ fs' !! "doc.pdf_AI_REDACTED.pdf_COMBINED_REDACTED.pdf" = Some pages'
    /\ fs' !! "doc.pdf" = Some [blank_page; blank_page]
    /\ length pages' = 2%nat
    /\ committed_count pages' = 2%nat.
Proof.
  refine (approve_redacts_detected_then_manual failing_env two_page_disk
            reviewed_state "doc.pdf" [blank_page; blank_page]
            [region_at 1 30 40; region_at 9 30 40]
            _ _ _ _ _ _ _ _ _ _ _ _ _ _ _);
    try reflexivity; try discriminate.
  repeat constructor.
Defined.


(** ** The words of a page *)

Lemma words_by_page_fold_lookup (l : list PdfElement.t) :
  forall (m : gmap Z (list PdfElement.t)) (page : Z),
    fold_left
      (fun m element =>
         let page_num := PdfElement.page_number element in
         <[page_num := default [] (m !! page_num) ++ [element]]> m)
      l m !! page
    = if truthy_list
           (List.filter (fun w => PdfElement.page_number w =? page) l)
      then Some (default [] (m !! page)
                 ++ List.filter (fun w => PdfElement.page_number w =? page) l)
      else m !! page.
Proof.
  induction l as [|e l IH]; intros m page; cbn [fold_left List.filter];
    [reflexivity|].
  rewrite IH.
  destruct (Z.eqb_spec (PdfElement.page_number e) page) as [E|E].
  - subst. rewrite lookup_insert_eq.
    destruct (List.filter _ l) as [|w ws];
      cbn [truthy_list default from_option id].
    + reflexivity.
    + rewrite <- app_assoc. reflexivity.
  - rewrite lookup_insert_ne by exact E. reflexivity.
Qed.

(** X30: the dict of the words by page holds, under each page that has
    words, the words of that page in the order of the extraction, and no
    entry for any other page. *)
Theorem words_grouped_by_page (words : list PdfElement.t) (page : Z) :
  (words_by_page words !! page = None
   <-> forall w, w ∈ words -> PdfElement.page_number w <> page)
  /\ (forall l, words_by_page words !! page = Some l ->
        l <> []
        /\ l = List.filter (fun w => PdfElement.page_number w =? page) words).
Proof.
  unfold words_by_page. rewrite words_by_page_fold_lookup, lookup_empty.
  cbn [default from_option id app].
  destruct (List.filter (fun w => PdfElement.page_number w =? page) words)
    as [|w ws] eqn:E; cbn [truthy_list].
  - split; [|discriminate]. split; [|reflexivity]. intros _ w Hw Hp.
    assert (In w (List.filter (fun w => PdfElement.page_number w =? page)
                    words)) as Hin.
    { apply filter_In. split; [apply list_elem_of_In, Hw|].
      apply Z.eqb_eq, Hp. }
    rewrite E in Hin. exact Hin.
  - split.
    + split; [discriminate|]. intros H. exfalso.
      assert (In w (List.filter (fun w => PdfElement.page_number w =? page)
                      words)) as Hin by (rewrite E; left; reflexivity).
      apply filter_In in Hin as [Hin Hp]. apply Z.eqb_eq in Hp.
      exact (H w (proj2 (list_elem_of_In _ _) Hin) Hp).
    + intros l [= <-]. split; [discriminate|reflexivity].
Qed.
